(** * Copy-trading relay: stream, translator, order building, executors,
      position monitor, manual close and exchange client

    A shallow embedding of the signal pipeline of the relay
    (MASTER/state_.py, MASTER/stream_.py, MASTER/payload_.py, COPY/state_.py,
    COPY/exequter_.py, COPY/pv_fsm_.py, COPY/copy_.py, COPY/cmd_.py,
    TG/helpers_.py, API/MX/client.py) together with the properties stated
    for it.

    Conventions.
    - JSON values met in exchange messages are the scalars of [pyval];
      Python's truthiness, [==] and [isinstance(_, (int, float))] are
      written out ([truthy], [py_eq], [as_number]).
    - A Python float is modelled by the rational it denotes ([Q]); NaN and
      the infinities are outside the model and arithmetic is exact.  The
      sizing arithmetic of [_clamp_by_max_margin], where rounding matters,
      is written once over an arithmetic interface ([PyFloat]) and run both
      exactly ([exactQ]) and in IEEE-754 binary64 ([binary64]).
    - Dicts used as maps are [gmap]s; dicts and sets keyed by order ids,
      which are compared with Python's [==], are association lists
      ([pyset], [pydict]).
    - Clock reads ([now()]), random draws and the results of REST calls
      are arguments; the exchange behind a client is a function from the
      request to the answer.
    - Python built-ins that are not modelled ([float] and [int] on a
      string, [hash], [str.strip], [str.split], the [Decimal] rendering of
      [Utils.to_human_digit]) are parameters of the development.
    - Formatted log lines are kept as tagged records of the data they
      print ([log_line]). *)

From Stdlib Require Import ZArith QArith Qabs Qround Lqa Floats String Ascii List Lia Bool.
From Equations Require Import Equations.
From stdpp Require Import gmap strings list fin_maps sorting.

Local Open Scope string_scope.
Local Open Scope list_scope.
Local Open Scope Z_scope.

(** ** Python values *)

Inductive pyval :=
| PNone
| PBool (b : bool)
| PInt (z : Z)
| PFloat (q : Q)
| PStr (s : string).

(** [bool(v)] *)
Definition truthy (v : pyval) : bool :=
  match v with
  | PNone => false
  | PBool b => b
  | PInt z => negb (z =? 0)
  | PFloat q => negb (Qeq_bool q 0)
  | PStr s => negb (String.eqb s "")
  end.

(** The numeric value of [v] when [isinstance(v, (int, float))] holds;
    [bool] is a subclass of [int]. *)
Definition as_number (v : pyval) : option Q :=
  match v with
  | PBool b => Some (if b then 1%Q else 0%Q)
  | PInt z => Some (inject_Z z)
  | PFloat q => Some q
  | _ => None
  end.

(** [a == b]: numbers compare by value across [bool], [int] and [float]. *)
Definition py_eq (a b : pyval) : bool :=
  match a, b with
  | PNone, PNone => true
  | PStr s, PStr t => String.eqb s t
  | _, _ =>
      match as_number a, as_number b with
      | Some x, Some y => Qeq_bool x y
      | _, _ => false
      end
  end.

(** [a or b] *)
Definition py_or (a b : pyval) : pyval := if truthy a then a else b.

(** [d.get(k)] on a JSON object *)
Definition py_get (d : gmap string pyval) (k : string) : pyval :=
  default PNone (d !! k).

(** [int(x)] on a float: truncation towards zero. *)
Definition py_trunc (q : Q) : Z :=
  if Qle_bool 0 q then Qfloor q else Qceiling q.

Definition opt_int (o : option Z) : pyval :=
  match o with Some z => PInt z | None => PNone end.

(** *** Sets and dicts keyed with Python equality *)

Definition pyset := list pyval.

Definition pyset_mem (x : pyval) (s : pyset) : bool := existsb (py_eq x) s.

Definition pyset_add (x : pyval) (s : pyset) : pyset :=
  if pyset_mem x s then s else s ++ [x].

Definition pyset_discard (x : pyval) (s : pyset) : pyset :=
  List.filter (fun y => negb (py_eq x y)) s.

Definition pydict (V : Type) := list (pyval * V).

Definition pydict_get {V} (k : pyval) (d : pydict V) : option V :=
  snd <$> find (fun kv => py_eq k (fst kv)) d.

Definition pydict_del {V} (k : pyval) (d : pydict V) : pydict V :=
  List.filter (fun kv => negb (py_eq k (fst kv))) d.

(** [d.pop(k, None)] *)
Definition pydict_pop {V} (k : pyval) (d : pydict V) : option V * pydict V :=
  (pydict_get k d, pydict_del k d).

(** ** Strings: [str.upper] and [str.replace] *)

Definition upper_ascii (c : ascii) : ascii :=
  let n := nat_of_ascii c in
  if ((97 <=? n) && (n <=? 122))%nat then ascii_of_nat (n - 32) else c.

Fixpoint upper (s : string) : string :=
  match s with
  | EmptyString => EmptyString
  | String c r => String (upper_ascii c) (upper r)
  end.

Fixpoint str_drop (n : nat) (s : string) : string :=
  match n, s with
  | O, _ => s
  | S n', String _ r => str_drop n' r
  | S _, EmptyString => EmptyString
  end.

Lemma str_drop_length n s : (String.length (str_drop n s) <= String.length s)%nat.
Proof.
  revert s; induction n as [|n IH]; intros [|c r]; simpl; try lia.
  specialize (IH r); lia.
Qed.

(** Left-to-right replacement of the non-overlapping occurrences of a
    non-empty pattern [String o os]. *)
Equations replace_ne (o : ascii) (os new s : string) : string
  by wf (String.length s) lt :=
replace_ne o os new EmptyString := EmptyString;
replace_ne o os new (String c r) :=
  if String.prefix (String o os) (String c r)
  then new +:+ replace_ne o os new (str_drop (String.length os) r)
  else String c (replace_ne o os new r).
Next Obligation.
  intros _ os _ c r _.
  pose proof (str_drop_length (String.length os) r); simpl; lia.
Qed.
Next Obligation.
  intros; simpl; lia.
Qed.

Fixpoint insert_after_each (new s : string) : string :=
  match s with
  | EmptyString => EmptyString
  | String c r => String c (new +:+ insert_after_each new r)
  end.

(** [s.replace(old, new)] *)
Definition py_replace (old new s : string) : string :=
  match old with
  | EmptyString => new +:+ insert_after_each new s
  | String o os => replace_ne o os new s
  end.

(** ** MASTER/state_.py *)

Inductive PosSide := LONG | SHORT.

#[export] Instance PosSide_eq_dec : EqDecision PosSide.
Proof. solve_decision. Defined.

#[export] Instance PosSide_countable : Countable PosSide.
Proof.
  refine (inj_countable' (fun s => match s with LONG => true | SHORT => false end)
                         (fun b => if b then LONG else SHORT) _).
  by intros [].
Defined.

Definition normalize_symbol (raw_symbol : string) (quota_asset : string) : string :=
  if String.eqb raw_symbol "" then ""
  else
    let qa := upper quota_asset in
    let s := py_replace " " ""
               (py_replace "_" "" (py_replace "-" "" (upper raw_symbol))) in
    py_replace qa ("_" +:+ qa) s.

Definition side_from_order_side (code : Z) : option PosSide :=
  if (code =? 1) || (code =? 4) then Some LONG
  else if (code =? 2) || (code =? 3) then Some SHORT
  else None.

Definition side_from_position_type (code : Z) : option PosSide :=
  if code =? 1 then Some LONG else if code =? 2 then Some SHORT else None.

Inductive SignalEventType :=
| limit_placed | limit_filled | market_filled | trigger_filled
| order_cancelled | order_invalid | oco_attached
| position_opened | position_closed
| plan_order | plan_executed | plan_cancelled | deal.

Record SignalEvent := {
  se_symbol : string;
  se_pos_side : option PosSide;
  se_event_type : SignalEventType;
  se_ts : Z;
  se_raw : gmap string pyval;
}.

(** ** Arithmetic interface for the sizing code

    [f_floor] is [math.floor] (it raises on NaN and the infinities) and
    [f_round] is [round(x, ndigits)] (it raises when the rounded value
    overflows); [None] stands for the exception. *)

Class PyFloat (F : Type) := {
  f_of_Z : Z -> F;
  f_mul : F -> F -> F;
  f_div : F -> F -> F;
  f_abs : F -> F;
  f_eqb : F -> F -> bool;
  f_leb : F -> F -> bool;
  f_isfinite : F -> bool;
  f_floor : F -> option Z;
  f_round : F -> Z -> option F;
}.

(** *** Exact arithmetic *)

(** Nearest integer, ties to the even one. *)
Definition round_half_even (q : Q) : Z :=
  let f := Qfloor q in
  match ((q - inject_Z f) ?= 1 # 2)%Q with
  | Lt => f
  | Gt => f + 1
  | Eq => if Z.even f then f else f + 1
  end.

(** [round(q, ndigits)]: nearest multiple of [10^-ndigits], ties to even. *)
Definition Qround_ndigits (q : Q) (ndigits : Z) : Q :=
  if 0 <=? ndigits
  then (inject_Z (round_half_even (q * inject_Z (10 ^ ndigits)))
          / inject_Z (10 ^ ndigits))%Q
  else (inject_Z (round_half_even (q / inject_Z (10 ^ (- ndigits))))
          * inject_Z (10 ^ (- ndigits)))%Q.

#[export] Instance exactQ : PyFloat Q := {
  f_of_Z := inject_Z;
  f_mul := Qmult;
  f_div := Qdiv;
  f_abs := Qabs;
  f_eqb := Qeq_bool;
  f_leb := Qle_bool;
  f_isfinite := fun _ => true;
  f_floor := fun q => Some (Qfloor q);
  f_round := fun q n => Some (Qround_ndigits q n);
}.

(** *** IEEE-754 binary64, as CPython computes *)

(** The rational a finite float denotes. *)
Definition b64_exact (x : float) : option Q :=
  match Prim2SF x with
  | S754_zero _ => Some 0%Q
  | S754_finite s m e =>
      let n := if s then Z.neg m else Z.pos m in
      Some (if 0 <=? e then inject_Z (n * 2 ^ e)
            else Qmake n (Z.to_pos (2 ^ (- e))))
  | _ => None
  end.

(** The float nearest to [n / d] (ties to even), for [d > 0]; a zero
    result takes the sign [neg]. *)
Definition b64_nearest (n d : Z) (neg : bool) : float :=
  if n =? 0 then (if neg then (-0)%float else 0%float)
  else
    let a := Z.abs n in
    let k := Z.max 0 (Z.log2 d + 66 - Z.log2 a) in
    let num := a * 2 ^ k in
    let m := 2 * (num / d) + (if num mod d =? 0 then 0 else 1) in
    SF2Prim (binary_normalize prec emax (if n <? 0 then - m else m)
               (- k - 1) false).

Definition b64_isfinite (x : float) : bool :=
  match Prim2SF x with
  | S754_zero _ | S754_finite _ _ _ => true
  | _ => false
  end.

Definition b64_is_neg (x : float) : bool :=
  match Prim2SF x with
  | S754_zero s | S754_finite s _ _ => s
  | _ => false
  end.

(** [float(z)]: correctly rounded.  CPython raises [OverflowError] where
    this saturates to an infinity (|z| of about 2^1024 and more). *)
Definition b64_of_Z (z : Z) : float := b64_nearest z 1 false.

Definition b64_floor (x : float) : option Z :=
  Qfloor <$> b64_exact x.

(** [float.__round__] with [ndigits]: zeros, NaN and infinities round to
    themselves, extreme [ndigits] are short-cut, otherwise the exact value
    is rounded in decimal and converted back. *)
Definition b64_round (x : float) (ndigits : Z) : option float :=
  match b64_exact x with
  | None => Some x
  | Some q =>
      if Qeq_bool q 0 then Some x
      else if 323 <? ndigits then Some x
      else if ndigits <? -308 then Some (PrimFloat.mul 0%float x)
      else
        let r := Qround_ndigits q ndigits in
        let y := b64_nearest (Qnum r) (Z.pos (Qden r)) (b64_is_neg x) in
        if b64_isfinite y then Some y else None
  end.

#[export] Instance binary64 : PyFloat float := {
  f_of_Z := b64_of_Z;
  f_mul := PrimFloat.mul;
  f_div := PrimFloat.div;
  f_abs := PrimFloat.abs;
  f_eqb := PrimFloat.eqb;
  f_leb := PrimFloat.leb;
  f_isfinite := b64_isfinite;
  f_floor := b64_floor;
  f_round := b64_round;
}.

(** ** COPY/state_.py: the max-margin clamp *)

(** The three entries of the instrument spec the clamp reads.  An empty
    spec dict is the record with all three absent: both make the clamp
    return [contracts] unchanged. *)
Record SymbolSpec (F : Type) := {
  contract_size : option F;
  vol_unit : option F;
  contract_precision : option Z;
}.
Arguments contract_size {F}.
Arguments vol_unit {F}.
Arguments contract_precision {F}.

Section Clamp.
Context {F : Type} `{PyFloat F}.

(** [bool(x)] on a float *)
Definition f_truthy (x : F) : bool := negb (f_eqb x (f_of_Z 0)).

(** The tail of the function, from the margin that was settled on:
    back to contracts, snap to the volume grid, round. *)
Definition snap_contracts (margin price : F) (leverage : Z)
    (contract_size vol_unit : F) (precision : Z) : option F :=
  let base_qty := f_div (f_mul margin (f_of_Z leverage)) price in
  let contracts := f_div base_qty contract_size in
  match f_floor (f_div contracts vol_unit) with
  | None => None
  | Some n =>
      let contracts := f_mul (f_of_Z n) vol_unit in
      match f_round contracts precision with
      | None => None
      | Some contracts =>
          if negb (f_isfinite contracts) || f_leb contracts (f_of_Z 0)
          then Some (f_of_Z 0)
          else Some contracts
      end
  end.

Definition _clamp_by_max_margin (contracts max_margin : F)
    (price : option F) (leverage : Z) (coef rnd : F) (spec : SymbolSpec F)
  : option F :=
  if negb (f_isfinite contracts) then Some (f_of_Z 0)
  else
    match price with
    | None => Some contracts
    | Some price =>
      if negb (f_truthy price) || f_leb price (f_of_Z 0) || (leverage <=? 0)
      then Some contracts
      else
        match contract_size spec, vol_unit spec, contract_precision spec with
        | Some contract_size, Some vol_unit, Some precision =>
          if negb (f_truthy contract_size) || negb (f_truthy vol_unit)
          then Some contracts
          else
            let margin :=
              f_div (f_mul (f_mul contracts contract_size) price)
                    (f_of_Z leverage) in
            let margin :=
              if f_truthy coef
                 && negb (f_eqb coef (f_of_Z 0) || f_eqb coef (f_of_Z 1))
              then f_mul margin (f_abs coef) else margin in
            let margin :=
              if f_truthy rnd
                 && negb (f_eqb rnd (f_of_Z 0) || f_eqb rnd (f_of_Z 100))
              then f_mul margin (f_abs (f_div rnd (f_of_Z 100)))
              else margin in
            if f_truthy margin && f_truthy max_margin
               && f_leb max_margin margin
            then snap_contracts (f_abs max_margin) price leverage
                   contract_size vol_unit precision
            else if negb (f_truthy margin) then Some (f_of_Z 0)
            else snap_contracts margin price leverage
                   contract_size vol_unit precision
        | _, _, _ => Some contracts
        end
    end.

End Clamp.

(** ** MASTER/payload_.py: the canonical event *)

Inductive HL_EVENT := buy | sell | canceled.
Inductive METHOD := market | limit | trigger.
Inductive SIG_TYPE := copy | manual.

Record MasterEvent := {
  event : HL_EVENT;
  method : METHOD;
  symbol : string;
  pos_side : option PosSide;
  closed : bool;
  payload : option (gmap string pyval);
  sig_type : SIG_TYPE;
  ts : Z;
  _cid : option Z;     (* attribute bound on manual-close events only *)
}.

(** ** b_context.py: follower position records and runtime *)

Inductive PVState := CLOSED_PENDING.

Record PosVar := {
  in_position : bool;
  qty : Q;
  entry_price : option Q;
  avg_price : option Q;
  leverage : option Z;
  margin_mode : option Z;
  _entry_ts : option Z;
  _state : option PVState;
}.

(** [PosVarTemplate.base_template()]; the two underscore keys are absent
    from a fresh record. *)
Definition base_template : PosVar :=
  {| in_position := false; qty := 0; entry_price := None; avg_price := None;
     leverage := None; margin_mode := None;
     _entry_ts := None; _state := None |}.

Inductive InitState := INIT | READY | FAILED.

Record CopyRuntime := {
  init_state : InitState;
  network_ready : bool;
  position_vars : gmap string (gmap PosSide PosVar);
}.

Inductive log_line :=
| CloseIntent (ids : list Z)
| CancelSkip (symbol : string) (pos_side : option PosSide)
| CancelMiss (method : METHOD) (symbol : string) (pos_side : option PosSide)
    (master_oid : pyval)
| CancelFailed (method : METHOD) (symbol : string) (pos_side : option PosSide)
    (copy_oid : pyval)
| Canceled (method : METHOD) (symbol : string) (pos_side : option PosSide)
    (copy_oid : pyval).

Record MainContext := {
  copy_runtime_states : gmap Z CopyRuntime;
  cmd_ids : list Z;
  log_events : list (Z * log_line);
  master_payload : bool;      (* is a translator attached? *)
}.

(** ** COPY/helpers_.py *)

(** [get_cid_symbol_pos] (COPY/helpers_.py): the executor's accessor, which
    is what creates a follower's position records, from the base template. *)
Definition get_cid_symbol_pos (position_vars : gmap string (gmap PosSide PosVar))
    (symbol : string) (side : PosSide) : gmap string (gmap PosSide PosVar) :=
  let sym := default ∅ (position_vars !! symbol) in
  match sym !! side with
  | Some _ => <[symbol := sym]> position_vars
  | None => <[symbol := <[side := base_template]> sym]> position_vars
  end.

(** ** COPY/state_.py: [CopyState.ensure_copy_state] *)

Definition ensure_copy_state (mc : MainContext) (cid : Z) : option CopyRuntime :=
  match copy_runtime_states mc !! cid with
  | None => None
  | Some rt =>
      match init_state rt with
      | READY => if network_ready rt then Some rt else None
      | _ => None
      end
  end.

(** ** COPY/cmd_.py: manual close entry point

    Returns the context after the call and the synthetic event put on the
    translator's queue, if any.  [now] is the clock read for its [ts]. *)
Definition on_close (stop_flag : bool) (now : Z) (mc : MainContext)
    (ids : list Z) : MainContext * option MasterEvent :=
  if stop_flag then (mc, None)
  else
    let ids := List.filter (fun cid => negb (cid =? 0)) ids in
    match ids with
    | [] => (mc, None)
    | _ =>
        let mc := {| copy_runtime_states := copy_runtime_states mc;
                     cmd_ids := ids;
                     log_events := log_events mc ++ [(0, CloseIntent ids)];
                     master_payload := master_payload mc |} in
        let mev := {| event := sell; method := market;
                      symbol := "ALL OPENED SYMBOLS"; pos_side := None;
                      closed := true; payload := None; sig_type := manual;
                      ts := now; _cid := None |} in
        if master_payload mc then (mc, Some mev) else (mc, None)
    end.

(** ** COPY/copy_.py: manual close expansion

    Dict iteration is [map_to_list]; the order of the events inside one
    follower is therefore the map's, not the insertion order. *)
Definition close_event (mev : MasterEvent) (cid : Z) (symbol : string)
    (pos_side : PosSide) (pv : PosVar) : MasterEvent :=
  {| event := sell; method := market; symbol := symbol;
     pos_side := Some pos_side; closed := true;
     payload := Some (list_to_map
       [ ("qty", PFloat (qty pv)); ("reduce_only", PBool true);
         ("leverage", opt_int (leverage pv));
         ("open_type", opt_int (margin_mode pv)) ]);
     sig_type := manual; ts := ts mev; _cid := Some cid |}.

(** The two [continue] tests of the inner loop. *)
Definition is_open (pv : PosVar) : bool :=
  in_position pv && negb (Qeq_bool (qty pv) 0) && negb (Qle_bool (qty pv) 0).

Definition expand_sides (mev : MasterEvent) (cid : Z) (symbol : string)
    (sides : gmap PosSide PosVar) : list MasterEvent :=
  '(pos_side, pv) ← map_to_list sides;
  if is_open pv then [close_event mev cid symbol pos_side pv] else [].

Definition expand_runtime (mev : MasterEvent) (cid : Z) (rt : CopyRuntime)
  : list MasterEvent :=
  '(symbol, sides) ← map_to_list (position_vars rt);
  expand_sides mev cid symbol sides.

Definition _expand_manual_close (mc : MainContext) (mev : MasterEvent)
  : list MasterEvent :=
  cid ← cmd_ids mc;
  match ensure_copy_state mc cid with
  | None => []
  | Some rt => expand_runtime mev cid rt
  end.

(** ** COPY/exequter_.py: the cancel path *)

Record OrderRec := {
  copy_order_id : pyval;
  rec_price : option string;     (* "price" or "trigger_price" *)
  rec_qty : Q;
  rec_status : string;
}.

(** [orders_vars[symbol][pos_side]]; a key that was never created is
    [None]. *)
Record SideRoot := {
  sr_limit : option (pydict OrderRec);
  sr_trigger : option (pydict OrderRec);
}.

Inductive ApiCall :=
| cancel_limit_orders (order_id_list : list pyval)
| cancel_trigger_order (order_id_list : list pyval) (symbol : string).

Record ExecState := {
  side_root : SideRoot;
  exec_log : list (Z * log_line);
  api_calls : list ApiCall;
}.

Definition exec_logged (st : ExecState) (cid : Z) (line : log_line) : ExecState :=
  {| side_root := side_root st; exec_log := exec_log st ++ [(cid, line)];
     api_calls := api_calls st |}.

Definition exec_called (st : ExecState) (call : ApiCall) : ExecState :=
  {| side_root := side_root st; exec_log := exec_log st;
     api_calls := api_calls st ++ [call] |}.

Definition exec_with_root (st : ExecState) (sr : SideRoot) : ExecState :=
  {| side_root := sr; exec_log := exec_log st; api_calls := api_calls st |}.

(** [client call] tells whether the exchange answered the call with
    success.  The result is [None] when [mev.payload] is [None]
    ([AttributeError]). *)
Definition cancel_executor_ (client : ApiCall -> bool) (cid : Z)
    (mev : MasterEvent) (st : ExecState) : option ExecState :=
  match payload mev with
  | None => None
  | Some p =>
    let master_oid := py_get p "order_id" in
    if negb (truthy master_oid)
    then Some (exec_logged st cid (CancelSkip (symbol mev) (pos_side mev)))
    else
      match method mev with
      | limit =>
          let limit_root := default [] (sr_limit (side_root st)) in
          let '(rec, limit_root') := pydict_pop master_oid limit_root in
          let st := exec_with_root st
            {| sr_limit := (fun _ => limit_root') <$> sr_limit (side_root st);
               sr_trigger := sr_trigger (side_root st) |} in
          match rec with
          | None =>
              Some (exec_logged st cid
                      (CancelMiss limit (symbol mev) (pos_side mev) master_oid))
          | Some rec =>
              let copy_oid := copy_order_id rec in
              if negb (truthy copy_oid) then Some st
              else
                let call := cancel_limit_orders [copy_oid] in
                let st := exec_called st call in
                Some (exec_logged st cid
                  ((if client call then Canceled else CancelFailed)
                     limit (symbol mev) (pos_side mev) copy_oid))
          end
      | trigger =>
          let trigger_root := default [] (sr_trigger (side_root st)) in
          let '(rec, trigger_root') := pydict_pop master_oid trigger_root in
          let st := exec_with_root st
            {| sr_limit := sr_limit (side_root st);
               sr_trigger :=
                 (fun _ => trigger_root') <$> sr_trigger (side_root st) |} in
          match rec with
          | None =>
              Some (exec_logged st cid
                      (CancelMiss trigger (symbol mev) (pos_side mev) master_oid))
          | Some rec =>
              let copy_oid := copy_order_id rec in
              if negb (truthy copy_oid) then Some st
              else
                let call := cancel_trigger_order [copy_oid] (symbol mev) in
                let st := exec_called st call in
                Some (exec_logged st cid
                  ((if client call then Canceled else CancelFailed)
                     trigger (symbol mev) (pos_side mev) copy_oid))
          end
      | market => Some st
      end
  end.

(** ** Sample readers for numeric strings

    Plain decimal literals ([-12], [100], [0.5]), enough to run the model
    on concrete exchange messages; the general results below hold for any
    reader. *)

Definition digit (c : ascii) : option Z :=
  let n := Z.of_nat (nat_of_ascii c) in
  if (48 <=? n) && (n <=? 57) then Some (n - 48) else None.

Fixpoint digits (acc : Z) (s : string) : option Z :=
  match s with
  | EmptyString => Some acc
  | String c r =>
      match digit c with
      | Some d => digits (10 * acc + d) r
      | None => None
      end
  end.

Fixpoint split_dot (s : string) : string * option string :=
  match s with
  | EmptyString => (EmptyString, None)
  | String c r =>
      if Ascii.eqb c "." then (EmptyString, Some r)
      else let '(a, b) := split_dot r in (String c a, b)
  end.

Definition unsigned_decimal (s : string) : option Q :=
  let '(a, b) := split_dot s in
  match b with
  | None => if String.eqb a "" then None else inject_Z <$> digits 0 a
  | Some f =>
      if String.eqb a "" && String.eqb f "" then None
      else (fun n => Qred (Qmake n (Z.to_pos (10 ^ Z.of_nat (String.length f)))))
             <$> digits 0 (a +:+ f)
  end.

Definition sample_float_of_str (s : string) : option Q :=
  match s with
  | String "-" r => Qopp <$> unsigned_decimal r
  | String "+" r => unsigned_decimal r
  | _ => unsigned_decimal s
  end.

Definition sample_int_of_str (s : string) : option Z :=
  match s with
  | EmptyString => None
  | String "-" r => if String.eqb r "" then None else Z.opp <$> digits 0 r
  | _ => digits 0 s
  end.

(** ** Stand-ins for the other built-ins

    Enough to run the model on concrete inputs: white space is the ASCII
    one, [sample_to_human_digit] renders integers as Python does and any
    other rational as a fraction, and [sample_hash] is an arbitrary
    function of the triple.  The general results hold for any choice. *)

Definition is_space (c : ascii) : bool :=
  let n := nat_of_ascii c in
  ((n =? 32) || ((9 <=? n) && (n <=? 13)))%nat.

Fixpoint lstrip (s : string) : string :=
  match s with
  | String c r => if is_space c then lstrip r else s
  | EmptyString => EmptyString
  end.

Fixpoint rstrip (s : string) : string :=
  match s with
  | EmptyString => EmptyString
  | String c r =>
      let r' := rstrip r in
      if is_space c && String.eqb r' "" then EmptyString else String c r'
  end.

Definition sample_strip (s : string) : string := rstrip (lstrip s).

Fixpoint split_from (word : option string) (s : string) : list string :=
  match s with
  | EmptyString => match word with Some w => [w] | None => [] end
  | String c r =>
      if is_space c
      then match word with
           | Some w => w :: split_from None r
           | None => split_from None r
           end
      else split_from (Some (default "" word +:+ String c EmptyString)) r
  end.

Definition sample_split (s : string) : list string := split_from None s.

Fixpoint decimal_digits (fuel : nat) (n : Z) (acc : string) : string :=
  match fuel with
  | O => acc
  | S fuel =>
      let acc := String (ascii_of_nat (Z.to_nat (48 + n mod 10))) acc in
      if n / 10 =? 0 then acc else decimal_digits fuel (n / 10) acc
  end.

Definition decimal (n : Z) : string :=
  let body := decimal_digits (S (Z.to_nat (Z.log2 (Z.abs n)))) (Z.abs n) "" in
  if n <? 0 then "-" +:+ body else body.

Definition sample_to_human_digit (q : Q) : string :=
  let q := Qred q in
  if (Qden q =? 1)%positive then decimal (Qnum q)
  else decimal (Qnum q) +:+ "/" +:+ decimal (Zpos (Qden q)).

Definition sample_hash (symbol : string) (side : PosSide) (q : Q) : Z :=
  Z.of_nat (String.length symbol)
  + (match side with LONG => 1 | SHORT => 2 end)
  + 4 * Qnum (Qred q).

(** ** c_utils.py: conversions that swallow [TypeError] and [ValueError]

    [float(s)] and [int(s)] on a string are Python built-ins; they are
    parameters of the development ([None] stands for [ValueError]). *)

Section Relay.

Variable float_of_str : string -> option Q.
Variable int_of_str : string -> option Z.

(** [float(value)] and [int(value)]; [None] is [TypeError] or [ValueError]. *)
Definition py_float (value : pyval) : option Q :=
  match value with
  | PNone => None
  | PBool b => Some (if b then 1%Q else 0%Q)
  | PInt z => Some (inject_Z z)
  | PFloat q => Some q
  | PStr s => float_of_str s
  end.

Definition py_int (value : pyval) : option Z :=
  match value with
  | PNone => None
  | PBool b => Some (if b then 1 else 0)
  | PInt z => Some z
  | PFloat q => Some (py_trunc q)
  | PStr s => int_of_str s
  end.

Definition safe_float (value : pyval) (default : Q) : Q :=
  match py_float value with Some q => q | None => default end.

Definition safe_int (value : pyval) (default : Z) : Z :=
  match py_int value with Some z => z | None => default end.

(** ** MASTER/payload_.py: the translator *)

Definition ts_keys : list string :=
  ["updateTime"; "createTime"; "timestamp"; "time"; "ts"].

(** The test [isinstance(val, (int, float)) and val > 0]. *)
Definition positive_number (val : pyval) : option Q :=
  match as_number val with
  | Some x => if Qlt_le_dec 0 x then Some x else None
  | None => None
  end.

(** The body of the loop once the test succeeded:
    [if val < 10_000_000_000: val *= 1000] then [int(val)]. *)
Definition to_ms (x : Q) : Z :=
  py_trunc (if Qlt_le_dec x 10000000000 then x * 1000 else x)%Q.

Fixpoint first_exchange_ts (keys : list string) (raw : gmap string pyval)
  : option Z :=
  match keys with
  | [] => None
  | key :: rest =>
      match positive_number (py_get raw key) with
      | Some x => Some (to_ms x)
      | None => first_exchange_ts rest raw
      end
  end.

Definition _extract_exchange_ts (ev_raw : option SignalEvent) : option Z :=
  match ev_raw with
  | None => None
  | Some ev => first_exchange_ts ts_keys (se_raw ev)
  end.

(** The slots of a master position record the translator touches; the
    other fields of [PosVarSetup.pos_vars_root_template] are never read or
    written by it. *)
Record MasterPV := {
  _attached_tp : option Q;
  _attached_sl : option Q;
}.

Definition pos_vars_root_template : MasterPV :=
  {| _attached_tp := None; _attached_sl := None |}.

Record MasterPayload := {
  pos_vars_root : gmap string (gmap PosSide MasterPV);
  _pending : list MasterEvent;
  _limit_intents : pyset;
}.

Definition set_pos_defaults (position_vars : gmap string (gmap PosSide MasterPV))
    (symbol : string) (pos_side : PosSide)
  : gmap string (gmap PosSide MasterPV) :=
  let sides := default ∅ (position_vars !! symbol) in
  let sides' :=
    match sides !! pos_side with
    | Some _ => sides
    | None => <[pos_side := pos_vars_root_template]> sides
    end in
  <[symbol := sides']> position_vars.

Definition flip_side (pos_side : PosSide) : PosSide :=
  match pos_side with LONG => SHORT | SHORT => LONG end.

Definition _base_payload (raw : gmap string pyval) : gmap string pyval :=
  list_to_map
    [ ("order_id", py_get raw "orderId");
      ("qty", PFloat (safe_float (py_get raw "vol") 0));
      ("price", PFloat (safe_float
                          (py_or (py_get raw "price")
                             (py_or (py_get raw "dealAvgPrice")
                                    (py_get raw "avgPrice"))) 0));
      ("leverage", py_get raw "leverage");
      ("open_type", py_get raw "openType");
      ("reduce_only", PBool (truthy (py_get raw "reduceOnly"))) ].

Definition set_opt (key : string) (o : option Q) (payload : gmap string pyval)
  : gmap string pyval :=
  match o with Some q => <[key := PFloat q]> payload | None => payload end.

(** Returns the store and the payload after the call. *)
Definition _inject_oco_from_intent
    (root : gmap string (gmap PosSide MasterPV))
    (payload : gmap string pyval) (symbol : string) (pos_side : PosSide)
  : gmap string (gmap PosSide MasterPV) * gmap string pyval :=
  match root !! symbol with
  | None => (root, payload)
  | Some sides =>
      match sides !! pos_side with
      | None => (root, payload)
      | Some pv =>
          let payload' :=
            set_opt "sl_price" (_attached_sl pv)
              (set_opt "tp_price" (_attached_tp pv) payload) in
          (<[symbol := <[pos_side := pos_vars_root_template]> sides]> root,
           payload')
      end
  end.

(** [now] is the value of the clock read at the top of [_emit]. *)
Definition _emit (now : Z) (st : MasterPayload)
    (event : HL_EVENT) (method : METHOD) (symbol : string)
    (pos_side : PosSide) (payload : gmap string pyval)
    (ev_raw : option SignalEvent) (closed : bool) (sig_type : SIG_TYPE)
  : MasterPayload :=
  let exec_ts := _extract_exchange_ts ev_raw in
  let tech_ts := match ev_raw with Some ev => se_ts ev | None => now end in
  let ts :=
    match exec_ts with
    | Some e => if negb (e =? 0) && negb (tech_ts =? 0)
                then Z.min e tech_ts else now
    | None => now
    end in
  let payload := <["exec_ts" := opt_int exec_ts]> payload in
  {| pos_vars_root := pos_vars_root st;
     _pending := _pending st ++
       [ {| event := event; method := method; symbol := symbol;
            pos_side := Some pos_side; closed := closed;
            payload := Some payload; sig_type := sig_type; ts := ts;
            _cid := None |} ];
     _limit_intents := _limit_intents st |}.

Definition with_root (st : MasterPayload) root : MasterPayload :=
  {| pos_vars_root := root; _pending := _pending st;
     _limit_intents := _limit_intents st |}.

Definition with_intents (st : MasterPayload) intents : MasterPayload :=
  {| pos_vars_root := pos_vars_root st; _pending := _pending st;
     _limit_intents := intents |}.

Definition _route (now : Z) (st : MasterPayload) (ev : SignalEvent)
  : MasterPayload :=
  let symbol := se_symbol ev in
  match se_pos_side ev with
  | None => st
  | Some pos_side =>
    if String.eqb symbol "" then st
    else
      let raw := se_raw ev in
      match se_event_type ev with
      | oco_attached =>
          let root := set_pos_defaults (pos_vars_root st) symbol pos_side in
          let sides := default ∅ (root !! symbol) in
          let tp := safe_float (py_get raw "tp") 0 in
          let sl := safe_float (py_get raw "sl") 0 in
          let pv' := {| _attached_tp := Some tp; _attached_sl := Some sl |} in
          with_root st (<[symbol := <[pos_side := pv']> sides]> root)
      | market_filled =>
          let reduce_only := truthy (py_get raw "reduceOnly") in
          let is_close := reduce_only in
          let emit_side := if is_close then flip_side pos_side else pos_side in
          let '(root, payload) :=
            _inject_oco_from_intent (pos_vars_root st) (_base_payload raw)
              symbol emit_side in
          _emit now (with_root st root)
            (if is_close then sell else buy) market symbol emit_side
            payload (Some ev) is_close copy
      | limit_filled =>
          let oid := py_get raw "orderId" in
          if pyset_mem oid (_limit_intents st)
          then with_intents st (pyset_discard oid (_limit_intents st))
          else
            let '(root, payload) :=
              _inject_oco_from_intent (pos_vars_root st) (_base_payload raw)
                symbol pos_side in
            _emit now (with_root st root) buy limit symbol pos_side
              payload (Some ev) false copy
      | limit_placed =>
          let oid := py_get raw "orderId" in
          let st := if truthy oid
                    then with_intents st (pyset_add oid (_limit_intents st))
                    else st in
          _emit now st buy limit symbol pos_side (_base_payload raw)
            (Some ev) false copy
      | trigger_filled =>
          let reduce_only := truthy (py_get raw "reduceOnly") in
          let side := py_get raw "side" in
          let is_sell := negb (py_eq side (PInt 1) || py_eq side (PInt 3)) in
          let emit_side :=
            if reduce_only then flip_side pos_side else pos_side in
          let '(root, payload) :=
            _inject_oco_from_intent (pos_vars_root st) (_base_payload raw)
              symbol emit_side in
          _emit now (with_root st root)
            (if is_sell then sell else buy) trigger symbol emit_side
            payload (Some ev) reduce_only copy
      | order_cancelled | order_invalid =>
          let oid := py_get raw "orderId" in
          let st := if truthy oid
                    then with_intents st (pyset_discard oid (_limit_intents st))
                    else st in
          _emit now st canceled limit symbol pos_side
            {[ "order_id" := oid ]} (Some ev) false copy
      | _ => st
      end
  end.

(** The consumer loop body of [MasterPayload.run]: route a drained batch,
    then hand the pending events to [out_queue]. *)
Definition run_batch (now : Z) (st : MasterPayload) (events : list SignalEvent)
  : MasterPayload * list MasterEvent :=
  let st := fold_left (_route now) events st in
  ({| pos_vars_root := pos_vars_root st; _pending := [];
      _limit_intents := _limit_intents st |}, _pending st).

(** ** MASTER/stream_.py: classification of [push.personal.order]

    The outer [None] is an exception escaping the handler ([int()] of a
    value that is not a number, [.upper()] of a symbol that is not a
    string); the inner one is "nothing pushed".  [now] stamps the event. *)
Definition symbol_of (quota_asset : string) (v : pyval) : option string :=
  match v with
  | PStr s => Some (normalize_symbol s quota_asset)
  | _ => if truthy v then None else Some ""
  end.

Definition stream_emit (black_symbols : list string) (now : Z)
    (symbol : string) (pos_side : option PosSide) (etype : SignalEventType)
    (raw : gmap string pyval) : option SignalEvent :=
  if negb (String.eqb symbol "")
     && existsb (String.eqb (upper symbol)) black_symbols
  then None
  else Some {| se_symbol := symbol; se_pos_side := pos_side;
               se_event_type := etype; se_ts := now; se_raw := raw |}.

Definition _handle_order (quota_asset : string) (black_symbols : list string)
    (now : Z) (data : gmap string pyval) : option (option SignalEvent) :=
  symbol ← symbol_of quota_asset (py_get data "symbol");
  side_code ← py_int (default (PInt 0) (data !! "side"));
  state ← py_int (default (PInt 0) (data !! "state"));
  order_type ← py_int (default (PInt 0) (data !! "orderType"));
  let side := side_from_order_side side_code in
  let push := stream_emit black_symbols now symbol side in
  Some
    (if (state =? 4) || (state =? 5)
     then push (if state =? 4 then order_cancelled else order_invalid) data
     else if state =? 3
     then (if order_type =? 1 then push limit_filled data
           else if order_type =? 5 then push market_filled data
           else push trigger_filled data)
     else if (order_type =? 1) && (state =? 2) then push limit_placed data
     else None).

(** ** API/MX/client.py: [MexcClient.fetch_positions] *)

Record ApiResponse := {
  success : bool;
  data : list (gmap string pyval);
}.

(** [response] is what [get_open_positions] returned ([None] included). *)
Definition fetch_positions (response : option ApiResponse)
  : list (gmap string pyval) :=
  match response with
  | Some r =>
      if success r && negb (bool_decide (data r = [])) then data r else []
  | None => []
  end.

(** ** COPY/pv_fsm_.py: the position monitor *)

Record PosInfo := {
  info_symbol : pyval;
  info_pos_side : PosSide;
  info_qty : Q;
  info_entry_price : Q;
  info_avg_price : Q;
  info_leverage : Z;
  info_margin_mode : Z;
}.

Definition unpack (position : gmap string pyval) : option PosInfo :=
  if negb (py_eq (py_get position "state") (PInt 1)) then None
  else
    let symbol := py_get position "symbol" in
    let pos_type_int := py_get position "positionType" in
    let vol := Qabs (safe_float (py_get position "holdVol") 0) in
    if negb (truthy symbol) || Qle_bool vol 0 then None
    else
      let info pos_side :=
        {| info_symbol := symbol; info_pos_side := pos_side; info_qty := vol;
           info_entry_price := safe_float (py_get position "openAvgPrice") 0;
           info_avg_price := safe_float (py_get position "holdAvgPrice") 0;
           info_leverage := safe_int (py_get position "leverage") 1;
           info_margin_mode := safe_int (py_get position "openType") 1 |} in
      if py_eq pos_type_int (PInt 1) then Some (info LONG)
      else if py_eq pos_type_int (PInt 2) then Some (info SHORT)
      else None.

(** The dict [active], keyed by [(symbol, pos_side)], as the list of the
    unpacked entries in arrival order: a later entry for a key replaces an
    earlier one, so a lookup takes the last match. *)
Definition same_key (symbol : string) (pos_side : PosSide) (info : PosInfo)
  : bool :=
  py_eq (PStr symbol) (info_symbol info)
  && bool_decide (pos_side = info_pos_side info).

Definition active_get (symbol : string) (pos_side : PosSide)
    (active : list PosInfo) : option PosInfo :=
  find (same_key symbol pos_side) (rev active).

Definition closed_pending (pv : PosVar) : PosVar :=
  {| in_position := in_position base_template; qty := qty base_template;
     entry_price := entry_price base_template;
     avg_price := avg_price base_template;
     leverage := leverage base_template;
     margin_mode := margin_mode base_template;
     _entry_ts := _entry_ts pv; _state := Some CLOSED_PENDING |}.

(** One iteration of the inner loop of "APPLY SNAPSHOT". *)
Definition apply_snapshot (active : list PosInfo) (now_ts : Z)
    (symbol : string) (pos_side : PosSide) (pv : PosVar) : PosVar :=
  let was_in_position := in_position pv in
  let not_found := if was_in_position then closed_pending pv else pv in
  match active_get symbol pos_side active with
  | Some info =>
      if Qlt_le_dec 0 (info_qty info)
      then
        if was_in_position
        then {| in_position := true; qty := info_qty info;
                entry_price := entry_price pv;
                avg_price := Some (info_avg_price info);
                leverage := Some (info_leverage info);
                margin_mode := Some (info_margin_mode info);
                _entry_ts := _entry_ts pv; _state := _state pv |}
        else {| in_position := true; qty := info_qty info;
                entry_price := Some (info_entry_price info);
                avg_price := Some (info_avg_price info);
                leverage := Some (info_leverage info);
                margin_mode := Some (info_margin_mode info);
                _entry_ts := Some now_ts; _state := _state pv |}
      else not_found
  | None => not_found
  end.

(** [PosMonitorFSM.refresh], given what [self.fetch_positions()] returned
    and the clock read [now_ts]. *)
Definition refresh (positions : option (list (gmap string pyval)))
    (now_ts : Z) (position_vars : gmap string (gmap PosSide PosVar))
  : gmap string (gmap PosSide PosVar) :=
  match positions with
  | None => position_vars
  | Some positions =>
      let active := omap (M:=list) unpack positions in
      map_imap (fun symbol sides =>
        Some (map_imap (fun pos_side pv =>
          Some (apply_snapshot active now_ts symbol pos_side pv)) sides))
        position_vars
  end.

(** The monitor as [CopyExequter.handle_copy_event] builds it, with
    [fetch_positions] bound to the client's method.  When the REST call
    raises, the exception leaves [refresh] before anything is written. *)
Inductive RestOutcome :=
| RestRaises
| RestReturns (response : option ApiResponse).

Definition monitor_refresh (outcome : RestOutcome) (now_ts : Z)
    (position_vars : gmap string (gmap PosSide PosVar))
  : gmap string (gmap PosSide PosVar) :=
  match outcome with
  | RestRaises => position_vars
  | RestReturns response =>
      refresh (Some (fetch_positions response)) now_ts position_vars
  end.

(** ** MASTER/stream_.py: the other channels and the dispatch

    As for [_handle_order], the outer [None] is an exception escaping the
    handler and the inner one is "nothing pushed". *)

Definition _handle_order_deal (quota_asset : string)
    (black_symbols : list string) (now : Z) (data : gmap string pyval)
  : option (option SignalEvent) :=
  symbol ← symbol_of quota_asset (py_get data "symbol");
  side_code ← py_int (default (PInt 0) (data !! "side"));
  Some (stream_emit black_symbols now symbol
          (side_from_order_side side_code) deal data).

Definition _handle_position (quota_asset : string)
    (black_symbols : list string) (now : Z) (data : gmap string pyval)
  : option (option SignalEvent) :=
  symbol ← symbol_of quota_asset (py_get data "symbol");
  pos_type ← py_int (default (PInt 0) (data !! "positionType"));
  hold_vol ← py_float (default (PInt 0) (data !! "holdVol"));
  state ← py_int (default (PInt 0) (data !! "state"));
  let etype :=
    if ((state =? 1) || (state =? 2)) && negb (Qle_bool hold_vol 0)
    then position_opened else position_closed in
  Some (stream_emit black_symbols now symbol
          (side_from_position_type pos_type) etype data).

Definition _handle_plan_order (quota_asset : string)
    (black_symbols : list string) (now : Z) (data : gmap string pyval)
  : option (option SignalEvent) :=
  symbol ← symbol_of quota_asset (py_get data "symbol");
  side_code ← py_int (default (PInt 0) (data !! "side"));
  state ← py_int (default (PInt 0) (data !! "state"));
  let etype :=
    if state =? 1 then plan_order
    else if state =? 3 then plan_executed else plan_cancelled in
  Some (stream_emit black_symbols now symbol
          (side_from_order_side side_code) etype data).

Definition _handle_stop_order (quota_asset : string)
    (black_symbols : list string) (now : Z) (data : gmap string pyval)
  : option (option SignalEvent) :=
  symbol ← symbol_of quota_asset (py_get data "symbol");
  side_code ← py_int (default (PInt 0) (data !! "side"));
  Some (stream_emit black_symbols now symbol
          (side_from_order_side side_code) oco_attached
          {[ "tp" := PFloat (safe_float (py_get data "takeProfitPrice") 0);
             "sl" := PFloat (safe_float (py_get data "stopLossPrice") 0) ]}).

(** The body of the loop of [_handle_messages] for a decoded text frame
    with the given [channel] and [data] fields. *)
Definition handle_message (quota_asset : string) (black_symbols : list string)
    (now : Z) (channel : pyval) (payload : gmap string pyval)
  : option (option SignalEvent) :=
  if py_eq channel (PStr "push.personal.order")
  then _handle_order quota_asset black_symbols now payload
  else if py_eq channel (PStr "push.personal.order.deal")
  then _handle_order_deal quota_asset black_symbols now payload
  else if py_eq channel (PStr "push.personal.position")
  then _handle_position quota_asset black_symbols now payload
  else if py_eq channel (PStr "push.personal.plan.order")
  then _handle_plan_order quota_asset black_symbols now payload
  else if py_eq channel (PStr "push.personal.stop.order")
  then _handle_stop_order quota_asset black_symbols now payload
  else Some None.

(** ** MASTER/state_.py: [SignalCache] *)

Record SignalCache := {
  _events : list SignalEvent;
  _last_raw : gmap (string * PosSide) (gmap string pyval);
  _event_notify : bool;
}.

Definition push_event (cache : SignalCache) (ev : SignalEvent) : SignalCache :=
  {| _events := _events cache ++ [ev];
     _last_raw :=
       match se_pos_side ev with
       | Some pos_side => <[(se_symbol ev, pos_side) := se_raw ev]> (_last_raw cache)
       | None => _last_raw cache
       end;
     _event_notify := true |}.

Definition pop_events (cache : SignalCache) : SignalCache * list SignalEvent :=
  ({| _events := []; _last_raw := _last_raw cache; _event_notify := false |},
   _events cache).

Definition get_last_raw (cache : SignalCache) (symbol : string) (side : PosSide)
  : option (gmap string pyval) :=
  _last_raw cache !! (symbol, side).

(** ** MASTER/payload_.py: one turn of [MasterPayload.run]

    The batch drained from the cache is routed in order, every [_emit]
    reading the clock for itself: [clock i] is the reading during the
    routing of the [i]-th event of the batch.  The pending events are then
    handed to [out_queue] and the list is cleared. *)
Definition route_events (st : MasterPayload) (timed : list (Z * SignalEvent))
  : MasterPayload :=
  fold_left (fun st p => _route (fst p) st (snd p)) timed st.

Definition run_turn (clock : nat -> Z) (cache : SignalCache)
    (st : MasterPayload) : SignalCache * MasterPayload * list MasterEvent :=
  let '(cache, events) := pop_events cache in
  let st := route_events st (imap (fun i ev => (clock i, ev)) events) in
  (cache,
   {| pos_vars_root := pos_vars_root st; _pending := [];
      _limit_intents := _limit_intents st |},
   _pending st).

(** ** COPY/copy_.py: [snapshot_hash]

    [hash] of the tuple [(symbol, side, qty)] is the Python built-in, a
    parameter here.  The loops fold [h ^= ...] over the records in dict
    order; [^] on integers is {!Z.lxor}. *)
Variable py_hash : string -> PosSide -> Q -> Z.

Definition snapshot_hash (position_vars : gmap string (gmap PosSide PosVar))
  : Z :=
  map_fold (fun symbol sides h =>
    map_fold (fun side pv h =>
      if negb (Qeq_bool (qty pv) 0)
      then Z.lxor h (py_hash symbol side (qty pv))
      else h) h sides) 0 position_vars.

(** ** COPY/state_.py: [CopyOrderIntent] *)

(** [intent.side] *)
Inductive Side := BUY | SELL.

Record CopyOrderIntent := {
  intent_symbol : string;
  intent_side : Side;
  intent_position_side : option PosSide;
  intent_contracts : Q;
  intent_method : METHOD;        (* "MARKET" / "LIMIT" / "TRIGGER" *)
  intent_leverage : Z;
  intent_open_type : Z;
  intent_price : option string;
  intent_trigger_price : option string;
  intent_sl_price : option string;
  intent_tp_price : option string;
  intent_delay_ms : Z;
}.

(** ** COPY/exequter_.py: placing and closing

    The requests the executors send through the client, with the keyword
    arguments they pass. *)
Inductive OrderCall :=
| MakeOrder (symbol : string) (contract : Q) (side : Side)
    (position_side : option PosSide) (leverage open_type : Z)
    (price stopLossPrice takeProfitPrice : option string)
    (market_type : METHOD)
| MakeTriggerOrder (symbol : string) (side : Side)
    (position_side : option PosSide) (contract : Q)
    (trigger_price : option string) (leverage open_type : Z)
    (order_type : pyval)
| CancelOrdersBulk (limit_order_ids trigger_order_ids : list pyval)
    (symbol : string).

(** What the executors read of a client result: the truth value of
    ["success"], ["order_id"] and ["reason"].  A result that is [None] or
    an empty dict is [None] here. *)
Record ClientResult := {
  res_success : bool;
  res_order_id : pyval;
  res_reason : pyval;
}.

Inductive FailedStep :=
| OrderFailed (method : METHOD)
| TriggerFailed
| CloseFailed
| BulkCancelFailed.

(** The part of a follower's runtime and of the shared log the executors
    write: the order books of one symbol and side, the error slots, the
    log lines appended and the requests sent. *)
Record RunState := {
  run_side_root : SideRoot;
  last_error : pyval;
  last_error_ts : option Z;
  run_log : list (Z * (FailedStep * string * option PosSide * pyval));
  run_calls : list OrderCall;
}.

(** [d[k] = v] *)
Fixpoint pydict_set {V} (k : pyval) (v : V) (d : pydict V) : pydict V :=
  match d with
  | [] => [(k, v)]
  | (k', v') :: rest =>
      if py_eq k k' then (k', v) :: rest else (k', v') :: pydict_set k v rest
  end.

Definition run_called (st : RunState) (call : OrderCall) : RunState :=
  {| run_side_root := run_side_root st; last_error := last_error st;
     last_error_ts := last_error_ts st; run_log := run_log st;
     run_calls := run_calls st ++ [call] |}.

Definition run_with_root (st : RunState) (sr : SideRoot) : RunState :=
  {| run_side_root := sr; last_error := last_error st;
     last_error_ts := last_error_ts st; run_log := run_log st;
     run_calls := run_calls st |}.

(** The failure branch shared by the three executors: [rt["last_error"]],
    [rt["last_error_ts"]] and one log line.  [res] is the falsy or
    unsuccessful result. *)
Definition run_failed (st : RunState) (now : Z) (cid : Z) (step : FailedStep)
    (intent : CopyOrderIntent) (res : option ClientResult) : RunState :=
  let reason :=
    match res with Some r => res_reason r | None => PStr "UNKNOWN" end in
  {| run_side_root := run_side_root st; last_error := reason;
     last_error_ts := Some now;
     run_log := run_log st ++
       [(cid, (step, intent_symbol intent, intent_position_side intent,
               reason))];
     run_calls := run_calls st |}.

Definition succeeded (res : option ClientResult) : bool :=
  match res with Some r => res_success r | None => false end.

(** [None] is the [AttributeError] of [mev.payload.get] on a missing
    payload. *)
Definition ordinary_executor_ (client : OrderCall -> option ClientResult)
    (now : Z) (cid : Z) (mev : MasterEvent) (intent : CopyOrderIntent)
    (st : RunState) : option RunState :=
  let limit_root := default [] (sr_limit (run_side_root st)) in
  let st := run_with_root st
    {| sr_limit := Some limit_root;
       sr_trigger := sr_trigger (run_side_root st) |} in
  p ← payload mev;
  let master_oid := py_get p "order_id" in
  let call :=
    MakeOrder (intent_symbol intent) (intent_contracts intent)
      (intent_side intent) (intent_position_side intent)
      (intent_leverage intent) (intent_open_type intent)
      (match intent_method intent with
       | limit => intent_price intent | _ => None end)
      (intent_sl_price intent) (intent_tp_price intent)
      (intent_method intent) in
  let res := client call in
  let st := run_called st call in
  if negb (succeeded res)
  then Some (run_failed st now cid (OrderFailed (intent_method intent))
               intent res)
  else
    match intent_method intent with
    | limit =>
        if truthy master_oid
        then Some (run_with_root st
          {| sr_limit := Some (pydict_set master_oid
               {| copy_order_id :=
                    match res with Some r => res_order_id r | None => PNone end;
                  rec_price := intent_price intent;
                  rec_qty := intent_contracts intent;
                  rec_status := "OPEN" |} limit_root);
             sr_trigger := sr_trigger (run_side_root st) |})
        else Some st
    | _ => Some st
    end.

Definition trigger_executor_ (client : OrderCall -> option ClientResult)
    (now : Z) (cid : Z) (mev : MasterEvent) (intent : CopyOrderIntent)
    (st : RunState) : option RunState :=
  p ← payload mev;
  let master_oid := py_get p "order_id" in
  let trigger_root := default [] (sr_trigger (run_side_root st)) in
  let st := run_with_root st
    {| sr_limit := sr_limit (run_side_root st);
       sr_trigger := Some trigger_root |} in
  let call :=
    MakeTriggerOrder (intent_symbol intent) (intent_side intent)
      (intent_position_side intent) (intent_contracts intent)
      (intent_trigger_price intent) (intent_leverage intent)
      (intent_open_type intent) (default (PInt 2) (p !! "trigger_exec")) in
  let res := client call in
  let st := run_called st call in
  if negb (succeeded res)
  then Some (run_failed st now cid TriggerFailed intent res)
  else if truthy master_oid
  then Some (run_with_root st
    {| sr_limit := sr_limit (run_side_root st);
       sr_trigger := Some (pydict_set master_oid
         {| copy_order_id :=
              match res with Some r => res_order_id r | None => PNone end;
            rec_price := intent_trigger_price intent;
            rec_qty := intent_contracts intent;
            rec_status := "OPEN" |} trigger_root) |})
  else Some st.

(** The ids a manual close collects from one book:
    [[v.get("copy_order_id") for v in book.values() if v.get("copy_order_id")]]. *)
Definition copy_ids (book : option (pydict OrderRec)) : list pyval :=
  List.filter truthy (map (fun kv => copy_order_id (snd kv)) (default [] book)).

Definition close_executor_ (client : OrderCall -> option ClientResult)
    (now : Z) (cid : Z) (mev : MasterEvent) (intent : CopyOrderIntent)
    (st : RunState) : RunState :=
  let call :=
    MakeOrder (intent_symbol intent) (intent_contracts intent)
      (intent_side intent) (intent_position_side intent)
      (intent_leverage intent) (intent_open_type intent)
      None None None market in
  let res := client call in
  let st := run_called st call in
  if negb (succeeded res)
  then run_failed st now cid CloseFailed intent res
  else
    match sig_type mev with
    | copy => st
    | manual =>
        let limit_ids := copy_ids (sr_limit (run_side_root st)) in
        let trigger_ids := copy_ids (sr_trigger (run_side_root st)) in
        match limit_ids, trigger_ids with
        | [], [] => st
        | _, _ =>
            let cancel := CancelOrdersBulk limit_ids trigger_ids
                            (intent_symbol intent) in
            let cancel_res := client cancel in
            let st := run_called st cancel in
            if succeeded cancel_res
            then run_with_root st
              {| sr_limit := (fun _ => []) <$> sr_limit (run_side_root st);
                 sr_trigger := (fun _ => []) <$> sr_trigger (run_side_root st) |}
            else
              let reason :=
                match cancel_res with
                | Some r => res_reason r | None => PStr "UNKNOWN" end in
              {| run_side_root := run_side_root st;
                 last_error := last_error st;
                 last_error_ts := last_error_ts st;
                 run_log := run_log st ++
                   [(cid, (BulkCancelFailed, intent_symbol intent,
                           intent_position_side intent, reason))];
                 run_calls := run_calls st |}
        end
    end.

(** ** COPY/state_.py: [CopyOrderIntentFactory.build]

    The follower's settings [build] reads.  An absent key and a key set
    to [None] read the same through [cfg.get], except for ["coef"], whose
    default is [1.0]; [random_size_pct] is the pair of the first two
    entries of the list ([(0.0, 0.0)] when the key is absent), [delay_ms]
    is a list or tuple of two entries or any other value ([(0, 0)] when
    absent). *)
Inductive DelayCfg :=
| DelayPair (lo hi : pyval)
| DelayValue (v : pyval).

Record CopyConfig := {
  cfg_cid : pyval;
  cfg_leverage : pyval;
  cfg_margin_mode : pyval;
  cfg_max_position_size : pyval;
  cfg_coef : option pyval;
  cfg_random_size_pct : pyval * pyval;
  cfg_delay_ms : DelayCfg;
}.

(** The instrument spec as [Utils.parse_precision] builds it; an empty
    spec has every entry absent. *)
Record InstrumentSpec := {
  max_leverage : option Z;
  price_precision : option Z;
  sizing : SymbolSpec Q;
}.

Definition FALLBACK_LEVERAGE : Z := 5.
Definition FALLBACK_MARGIN_MODE : Z := 2.

Inductive DropReason :=
| CLOSE_QTY_INVALID
| QTY_PAYLOAD_INVALID
| QTY_AFTER_CLAMP_INVALID.

(** [Utils.to_human_digit] renders a float through [Decimal(str(value))];
    it is a parameter. *)
Variable to_human_digit : Q -> string.

(** [round] is taken in exact arithmetic. *)
Definition _fmt_price (value : pyval) (precision : option Z) : option string :=
  match value with
  | PNone => None
  | _ =>
      let raw := safe_float value 0 in
      Some (to_human_digit
              (match precision with
               | Some n => Qround_ndigits raw n
               | None => raw
               end))
  end.

Definition opt_float (o : option Q) : pyval :=
  match o with Some q => PFloat q | None => PNone end.

(** [not qty or qty <= 0] *)
Definition qty_invalid (qty : Q) : bool := Qeq_bool qty 0 || Qle_bool qty 0.

(** The sizing options as [build] reads them:
    [safe_float(cfg.get("coef", 1.0)) or 1.0], the two bounds of
    [random_size_pct], [safe_float(cfg.get("max_position_size"))], and
    [(coef not in (0, 1, None)) or lo or hi or max_margin]. *)
Definition sizing_coef (cfg : CopyConfig) : Q :=
  let c := safe_float (default (PFloat 1) (cfg_coef cfg)) 0 in
  if negb (Qeq_bool c 0) then c else 1%Q.

Definition sizing_lo (cfg : CopyConfig) : Q :=
  safe_float (fst (cfg_random_size_pct cfg)) 0.

Definition sizing_hi (cfg : CopyConfig) : Q :=
  safe_float (snd (cfg_random_size_pct cfg)) 0.

Definition sizing_max_margin (cfg : CopyConfig) : Q :=
  safe_float (cfg_max_position_size cfg) 0.

Definition changing_qty_flag (cfg : CopyConfig) : bool :=
  negb (Qeq_bool (sizing_coef cfg) 0 || Qeq_bool (sizing_coef cfg) 1)
  || negb (Qeq_bool (sizing_lo cfg) 0) || negb (Qeq_bool (sizing_hi cfg) 0)
  || negb (Qeq_bool (sizing_max_margin cfg) 0).

(** The two chains [a or b or c or FALLBACK]: the follower's setting
    first for an opening event, the follower's position record first for
    a closing one. *)
Definition resolve (closed : bool) (from_cfg from_payload from_pv : pyval)
    (fallback : Z) : pyval :=
  if negb closed
  then py_or from_cfg (py_or from_payload (py_or from_pv (PInt fallback)))
  else py_or from_pv (py_or from_payload (py_or from_cfg (PInt fallback))).

(** [size_draw] and [delay_draw] are what the two calls of
    [random.uniform] return, when they are made.  The result is the intent
    or [None], with the reason of the drop line appended to the log, if
    any; the outer [None] is an exception leaving [build]. *)
Definition build (size_draw delay_draw : Q) (cfg : CopyConfig)
    (mev : MasterEvent) (copy_pv : PosVar) (spec : InstrumentSpec)
  : option (option CopyOrderIntent * option DropReason) :=
  let payload := default ∅ (payload mev) in
  let leverage :=
    resolve (closed mev) (cfg_leverage cfg) (py_get payload "leverage")
      (opt_int (leverage copy_pv)) FALLBACK_LEVERAGE in
  match py_int leverage with
  | None => Some (None, None)
  | Some leverage =>
    let leverage :=
      match max_leverage spec with
      | Some max_lev => if negb (max_lev =? 0) then Z.min leverage max_lev
                        else leverage
      | None => leverage
      end in
    let open_type :=
      resolve (closed mev) (cfg_margin_mode cfg) (py_get payload "open_type")
        (opt_int (margin_mode copy_pv)) FALLBACK_MARGIN_MODE in
    match py_int open_type with
    | None => Some (None, None)
    | Some open_type =>
      let max_margin := sizing_max_margin cfg in
      let coef := sizing_coef cfg in
      let lo := sizing_lo cfg in
      let hi := sizing_hi cfg in
      let rnd :=
        if negb (Qeq_bool lo 0)
           || (negb (Qeq_bool hi 0) && negb (Qle_bool hi lo))
        then size_draw else 100%Q in
      let payload_qty := safe_float (py_get payload "qty") 0 in
      let copy_pv_qty := qty copy_pv in
      let delay_ms :=
        match sig_type mev with
        | manual => 0
        | copy =>
            match cfg_delay_ms cfg with
            | DelayPair a b =>
                let lo := Qabs (safe_float a 0) in
                let hi := Qabs (safe_float b 0) in
                if negb (Qle_bool hi lo) then py_trunc delay_draw else 0
            | DelayValue v =>
                match as_number v with
                | Some x => py_trunc x
                | None => 0
                end
            end
        end in
      let price := _fmt_price (py_get payload "price") (price_precision spec) in
      let intent qty trigger_price sl_price tp_price :=
        {| intent_symbol := symbol mev;
           intent_side := match event mev with buy => BUY | _ => SELL end;
           intent_position_side := pos_side mev;
           intent_contracts := qty;
           intent_method := method mev;
           intent_leverage := leverage;
           intent_open_type := open_type;
           intent_price := price;
           intent_trigger_price := trigger_price;
           intent_sl_price := sl_price;
           intent_tp_price := tp_price;
           intent_delay_ms := delay_ms |} in
      if closed mev
      then
        let qty :=
          if negb (changing_qty_flag cfg) then payload_qty else copy_pv_qty in
        if qty_invalid qty then Some (None, Some CLOSE_QTY_INVALID)
        else Some (Some (intent qty None None None), None)
      else
        let qty := payload_qty in
        if qty_invalid qty then Some (None, Some QTY_PAYLOAD_INVALID)
        else
          let finish qty :=
            Some (Some (intent qty
                    (_fmt_price (py_get payload "trigger_price")
                       (price_precision spec))
                    (_fmt_price (py_get payload "sl_price")
                       (price_precision spec))
                    (_fmt_price (py_get payload "tp_price")
                       (price_precision spec))), None) in
          if changing_qty_flag cfg
          then
            let raw_price :=
              py_or (py_get payload "price") (opt_float (entry_price copy_pv)) in
            let price_f := safe_float raw_price 0 in
            match _clamp_by_max_margin (F:=Q) qty max_margin (Some price_f)
                    leverage coef rnd (sizing spec) with
            | None => None
            | Some qty =>
                if qty_invalid qty
                then Some (None, Some QTY_AFTER_CLAMP_INVALID)
                else finish qty
            end
          else finish qty
    end
  end.

(** ** TG/helpers_.py: [parse_id_range]

    [str.strip] and [str.split] without arguments work on Unicode white
    space; they are parameters, like [int] on a string.  [None] is
    [ValueError]. *)
Variable py_strip : string -> string.
Variable py_split : string -> list string.

Definition COPY_NUMBER : Z := 100.

(** [c in s] for a one-character [c] *)
Fixpoint str_contains (c : ascii) (s : string) : bool :=
  match s with
  | EmptyString => false
  | String d r => Ascii.eqb c d || str_contains c r
  end.

(** [s.split(c, 1)] when [c] occurs in [s] *)
Fixpoint split_first (c : ascii) (s : string) : option (string * string) :=
  match s with
  | EmptyString => None
  | String d r =>
      if Ascii.eqb c d then Some (EmptyString, r)
      else '(a, b) ← split_first c r; Some (String d a, b)
  end.

(** The en dash and the em dash, in UTF-8. *)
Definition en_dash : string :=
  String "226"%char (String "128"%char (String "147"%char EmptyString)).
Definition em_dash : string :=
  String "226"%char (String "128"%char (String "148"%char EmptyString)).

(** The body shared by the two loops: [result.add(cid)] under its tests. *)
Definition add_id (allow_zero : bool) (result : gset Z) (cid : Z) : gset Z :=
  if cid =? 0 then (if allow_zero then {[ 0 ]} ∪ result else result)
  else if (1 <=? cid) && (cid <=? COPY_NUMBER) then {[ cid ]} ∪ result
  else result.

Definition parse_token (allow_zero : bool) (result : gset Z) (token : string)
  : option (gset Z) :=
  let token := py_strip token in
  if String.eqb token "" then Some result
  else
    let token := py_replace em_dash "-" (py_replace en_dash "-" token) in
    if str_contains "-" token
    then
      '(a_str, b_str) ← split_first "-" token;
      a ← int_of_str a_str;
      b ← int_of_str b_str;
      let lo := Z.min a b in
      let hi := Z.max a b in
      Some (fold_left (add_id allow_zero) (seqZ lo (hi + 1 - lo)) result)
    else
      cid ← int_of_str token;
      Some (add_id allow_zero result cid).

Fixpoint parse_tokens (allow_zero : bool) (result : gset Z)
    (tokens : list string) : option (gset Z) :=
  match tokens with
  | [] => Some result
  | token :: rest =>
      result ← parse_token allow_zero result token;
      parse_tokens allow_zero result rest
  end.

Definition parse_id_range (raw : string) (allow_zero : bool)
  : option (list Z) :=
  if String.eqb raw "" || String.eqb (py_strip raw) "" then None
  else if str_contains "," raw then None
  else
    result ← parse_tokens allow_zero ∅ (py_split (py_strip raw));
    if bool_decide (result = ∅) then None
    else Some (merge_sort Z.le (elements result)).

(** ** COPY/pv_fsm_.py: what the PnL report does to the records

    [PreparePnlReport.assum_positions] on the position records of one
    follower it selects.  A record marked CLOSED_PENDING loses the mark
    when it is collected.  It loses its entry stamp when a result is
    produced for it: from the batch, when the batch has its key
    ([batch_hit]), or else from [pv_cleanup], which answers unless the
    stamp is not an integer above 1e10. *)
Definition entry_ts_valid (entry_ts : option Z) : bool :=
  match entry_ts with
  | Some ts => 10000000000 <? ts
  | None => false
  end.

Definition report_record (hit : bool) (pv : PosVar) : PosVar :=
  match _state pv with
  | Some CLOSED_PENDING =>
      {| in_position := in_position pv; qty := qty pv;
         entry_price := entry_price pv; avg_price := avg_price pv;
         leverage := leverage pv; margin_mode := margin_mode pv;
         _entry_ts :=
           if hit || entry_ts_valid (_entry_ts pv) then None
           else _entry_ts pv;
         _state := None |}
  | None => pv
  end.

Definition assum_positions (batch_hit : string -> PosSide -> bool)
    (position_vars : gmap string (gmap PosSide PosVar))
  : gmap string (gmap PosSide PosVar) :=
  map_imap (fun symbol sides =>
    Some (map_imap (fun pos_side pv =>
      Some (report_record (batch_hit symbol pos_side) pv)) sides))
    position_vars.

(** ** API/MX/client.py: requests and the validation of answers

    The enumerations are those of [mx_bypass.mexcTypes], by the names the
    client uses.  The exchange is a function from the request to the
    answer ([None] for no answer); a call that raises is outside the
    model. *)
Inductive OrderSide := OpenLong | CloseLong | OpenShort | CloseShort.
Inductive OrderType := MarketOrder | PriceLimited.
Inductive OpenType := Isolated | Cross.
Inductive TriggerType := LessThanOrEqual | GreaterThanOrEqual.

Record CreateOrderRequest := {
  co_symbol : string;
  co_side : OrderSide;
  co_vol : Q;
  co_leverage : Z;
  co_openType : OpenType;
  co_type : OrderType;
  co_price : option string;
  co_stopLossPrice : option string;
  co_takeProfitPrice : option string;
}.

(** [executeCycle] and [trend] are the constants [UntilCanceled] and
    [LatestPrice]. *)
Record TriggerOrderRequest := {
  to_symbol : string;
  to_side : OrderSide;
  to_vol : Q;
  to_leverage : Z;
  to_openType : OpenType;
  to_orderType : OrderType;
  to_triggerPrice : option string;
  to_triggerType : TriggerType;
}.

Inductive ApiRequest :=
| create_order (order_request : CreateOrderRequest)
| create_trigger_order (trigger_order_request : TriggerOrderRequest)
| cancel_orders (order_ids : list pyval)
| cancel_trigger_orders (orders : list (pyval * string)).

(** What [validate_and_log] tells apart in [result.data]: an object with
    an [orderId] attribute; a list, each entry giving its ["orderId"] when
    it is a dict that has one; an [int] or a [str]; anything else. *)
Inductive RawData :=
| DataOrder (orderId : pyval)
| DataList (entries : list (option pyval))
| DataScalar (v : pyval)
| DataOther.

Record MexcResponse := {
  resp_success : bool;
  resp_code : pyval;
  resp_message : pyval;
  resp_data : RawData;
}.

(** The dict [validate_and_log] returns, without ["ts"] and the raw
    copies. *)
Record Validated := {
  v_success : bool;
  v_order_id : pyval;
  v_order_ids : option (list pyval);
  v_code : pyval;
  v_reason : pyval;
}.

Definition validate_and_log (result : option MexcResponse) : Validated :=
  match result with
  | None =>
      {| v_success := false; v_order_id := PNone; v_order_ids := None;
         v_code := PNone;
         v_reason := PStr "Empty response from exchange" |}
  | Some result =>
      if resp_success result && py_eq (resp_code result) (PInt 0)
      then
        {| v_success := true;
           v_order_id :=
             match resp_data result with
             | DataOrder orderId => orderId
             | DataList _ => PNone
             | DataScalar v => v
             | DataOther => PNone
             end;
           v_order_ids :=
             match resp_data result with
             | DataList entries => Some (omap id entries)
             | _ => None
             end;
           v_code := resp_code result; v_reason := PNone |}
      else
        {| v_success := false; v_order_id := PNone; v_order_ids := None;
           v_code := resp_code result;
           v_reason := py_or (resp_message result)
                         (PStr "Unknown exchange error") |}
  end.

Definition open_type_of (open_type leverage : Z) : option OpenType :=
  if open_type =? 1 then (if leverage =? 0 then None else Some Isolated)
  else if open_type =? 2 then Some Cross
  else None.

Definition order_side_of (side : Side) (position_side : PosSide) : OrderSide :=
  match position_side, side with
  | LONG, BUY => OpenLong
  | LONG, SELL => CloseLong
  | SHORT, BUY => OpenShort
  | SHORT, SELL => CloseShort
  end.

(** [api] is the exchange behind [MexcFuturesAPI].  The result is the
    validated answer and the request sent, if one was; the outer [None]
    is the [AttributeError] of [position_side.upper()] on [None]. *)
Definition make_order (api : ApiRequest -> option MexcResponse)
    (symbol : string) (contract : Q) (side : Side)
    (position_side : option PosSide) (leverage open_type : Z)
    (price stopLossPrice takeProfitPrice : option string)
    (market_type : METHOD) : option (Validated * option ApiRequest) :=
  let rejected := Some (validate_and_log None, None) in
  match market_type with
  | trigger => rejected
  | _ =>
    let order_type :=
      match market_type with market => MarketOrder | _ => PriceLimited end in
    match position_side with
    | None => None
    | Some position_side =>
      let order_side := order_side_of side position_side in
      match open_type_of open_type leverage with
      | None => rejected
      | Some openType =>
          let request := create_order
            {| co_symbol := symbol; co_side := order_side; co_vol := contract;
               co_leverage := leverage; co_openType := openType;
               co_type := order_type; co_price := price;
               co_stopLossPrice := stopLossPrice;
               co_takeProfitPrice := takeProfitPrice |} in
          Some (validate_and_log (api request), Some request)
      end
    end
  end.

Definition make_trigger_order (api : ApiRequest -> option MexcResponse)
    (symbol : string) (side : Side) (position_side : option PosSide)
    (contract : Q) (trigger_price : option string) (leverage open_type : Z)
    (order_type : pyval) : Validated * option ApiRequest :=
  let rejected := (validate_and_log None, None) in
  match position_side with
  | None => rejected
  | Some position_side =>
    let order_side := order_side_of side position_side in
    let trigger_type :=
      match order_side with
      | OpenLong | CloseShort => LessThanOrEqual
      | _ => GreaterThanOrEqual
      end in
    match open_type_of open_type leverage with
    | None => rejected
    | Some openType =>
        let exec_order_type :=
          if py_eq order_type (PInt 1) then PriceLimited else MarketOrder in
        let request := create_trigger_order
          {| to_symbol := symbol; to_side := order_side; to_vol := contract;
             to_leverage := leverage; to_openType := openType;
             to_orderType := exec_order_type;
             to_triggerPrice := trigger_price;
             to_triggerType := trigger_type |} in
        (validate_and_log (api request), Some request)
    end
  end.

(** [MexcClient.cancel_limit_orders] and [MexcClient.cancel_trigger_order];
    the prefix tells them from the requests of the same names above. *)
Definition client_cancel_limit_orders (api : ApiRequest -> option MexcResponse)
    (order_id_list : list pyval) : Validated * option ApiRequest :=
  match order_id_list with
  | [] =>
      ({| v_success := false; v_order_id := PNone; v_order_ids := Some [];
          v_code := PNone; v_reason := PStr "order_id_list is empty" |}, None)
  | _ =>
      let request := cancel_orders order_id_list in
      (validate_and_log (api request), Some request)
  end.

Definition client_cancel_trigger_order (api : ApiRequest -> option MexcResponse)
    (order_id_list : list pyval) (symbol : string)
  : Validated * option ApiRequest :=
  match order_id_list with
  | [] => (validate_and_log None, None)
  | _ =>
      let request :=
        cancel_trigger_orders (map (fun oid => (oid, symbol)) order_id_list) in
      (validate_and_log (api request), Some request)
  end.

Inductive BulkPart := bulk_limit | bulk_trigger.

(** Returns ["success"], the list [results["errors"]] and the requests
    sent, in order. *)
Definition cancel_orders_bulk (api : ApiRequest -> option MexcResponse)
    (limit_order_ids trigger_order_ids : list pyval) (symbol : string)
  : bool * list (BulkPart * pyval) * list ApiRequest :=
  let '(errors, sent) :=
    match limit_order_ids with
    | [] => ([], [])
    | _ =>
        let '(res, request) := client_cancel_limit_orders api limit_order_ids in
        (if v_success res then [] else [(bulk_limit, v_reason res)],
         option_list request)
    end in
  let '(errors, sent) :=
    match trigger_order_ids with
    | [] => (errors, sent)
    | _ =>
        if String.eqb symbol ""
        then (errors ++
                [(bulk_trigger,
                  PStr "symbol is required for trigger order cancel")],
              sent)
        else
          let '(res, request) :=
            client_cancel_trigger_order api trigger_order_ids symbol in
          (errors ++
             (if v_success res then [] else [(bulk_trigger, v_reason res)]),
           sent ++ option_list request)
    end in
  (bool_decide (errors = []), errors, sent).

(** ** Vocabulary of the statements *)

Fixpoint all_chars (P : ascii -> Prop) (s : string) : Prop :=
  match s with
  | EmptyString => True
  | String c r => P c /\ all_chars P r
  end.

(** Removing one character: [s.replace(c, "")]. *)
Definition remove_char (c : ascii) (s : string) : string :=
  replace_ne c "" "" s.

(** The symbol after upper-casing and stripping ["-"], ["_"] and [" "]. *)
Definition stripped (raw_symbol : string) : string :=
  py_replace " " "" (py_replace "_" "" (py_replace "-" "" (upper raw_symbol))).

Definition pv_inv (pv : PosVar) : Prop :=
  (in_position pv = false -> qty pv = 0%Q)
  /\ (in_position pv = true -> (0 < qty pv)%Q).

Definition all_pv (P : PosVar -> Prop)
    (position_vars : gmap string (gmap PosSide PosVar)) : Prop :=
  forall symbol sides pos_side pv,
    position_vars !! symbol = Some sides ->
    sides !! pos_side = Some pv ->
    P pv.

(** The position maps a follower runtime can hold: empty at activation,
    extended with template records by the executor, rewritten by
    [refresh]. *)
Inductive reachable_pvs : gmap string (gmap PosSide PosVar) -> Prop :=
| reach_init : reachable_pvs ∅
| reach_create pvs symbol side :
    reachable_pvs pvs -> reachable_pvs (get_cid_symbol_pos pvs symbol side)
| reach_refresh pvs positions now_ts :
    reachable_pvs pvs -> reachable_pvs (refresh positions now_ts pvs).

(** The map of [orders_vars[symbol][pos_side]] an event's method selects. *)
Definition method_root (m : METHOD) (sr : SideRoot) : option (pydict OrderRec) :=
  match m with
  | limit => sr_limit sr
  | trigger => sr_trigger sr
  | market => None
  end.

Definition cancel_call (m : METHOD) (copy_oid : pyval) (symbol : string)
  : ApiCall :=
  match m with
  | trigger => cancel_trigger_order [copy_oid] symbol
  | _ => cancel_limit_orders [copy_oid]
  end.

(** Does the event close this position of this follower? *)
Definition closes (cid : Z) (sym : string) (side : PosSide)
    (e : MasterEvent) : bool :=
  bool_decide (_cid e = Some cid)
  && String.eqb (symbol e) sym
  && bool_decide (pos_side e = Some side).

(** Snapping to the volume grid. *)
Definition grid (c vu : Q) : Q := (inject_Z (Qfloor (c / vu)) * vu)%Q.

(** The result of [snap_contracts] in exact arithmetic. *)
Definition snapped (margin price : Q) (lev : Z) (cs vu : Q) (prec : Z) : Q :=
  let c :=
    Qround_ndigits (grid (margin * inject_Z lev / price / cs)%Q vu) prec in
  if Qle_bool c 0 then 0%Q else c.

(** An id the parser of id lists may return. *)
Definition valid_id (allow_zero : bool) (cid : Z) : Prop :=
  0 <= cid <= COPY_NUMBER /\ (cid = 0 -> allow_zero = true).

(** ** Data of the scenarios *)

(** The instrument of the fan-out scenario: contract size 1, volume unit
    0.1 (the double nearest to it), one decimal of contract precision. *)
Definition scenario_spec_b64 : SymbolSpec float :=
  {| contract_size := Some 1%float;
     vol_unit := Some 0x1.999999999999ap-4%float;
     contract_precision := Some 1 |}.

Definition scenario_spec_Q : SymbolSpec Q :=
  {| contract_size := Some 1%Q;
     vol_unit := Some (1 # 10)%Q;
     contract_precision := Some 1 |}.

Definition st0 : MasterPayload :=
  {| pos_vars_root := ∅; _pending := []; _limit_intents := [] |}.

Definition limit_order_raw (order_id : pyval) (state : Z)
  : gmap string pyval :=
  list_to_map
    [ ("symbol", PStr "BTC_USDT"); ("orderId", order_id);
      ("orderType", PInt 1); ("state", PInt state); ("side", PInt 1);
      ("vol", PInt 10); ("price", PStr "100") ].

Definition limit_event (etype : SignalEventType) (side : option PosSide)
    (order_id : pyval) (state : Z) : SignalEvent :=
  {| se_symbol := "BTC_USDT"; se_pos_side := side; se_event_type := etype;
     se_ts := 1700000000100; se_raw := limit_order_raw order_id state |}.

(** Scenario 3: a trigger fill that closes a short. *)
Definition trigger_close_short : SignalEvent :=
  {| se_symbol := "BTC_USDT"; se_pos_side := Some SHORT;
     se_event_type := trigger_filled; se_ts := 1700000000100;
     se_raw := list_to_map
       [ ("orderType", PInt 2); ("state", PInt 3); ("side", PInt 1);
         ("reduceOnly", PBool true) ] |}.

(** Scenario 1: a market fill that opens a long, stamped by the exchange
    at 1_700_000_000_000 and received 100 ms later. *)
Definition market_open_long : SignalEvent :=
  {| se_symbol := "BTC_USDT"; se_pos_side := Some LONG;
     se_event_type := market_filled; se_ts := 1700000000100;
     se_raw := list_to_map
       [ ("orderType", PInt 5); ("state", PInt 3); ("side", PInt 1);
         ("vol", PInt 10); ("price", PStr "100"); ("reduceOnly", PBool false);
         ("updateTime", PInt 1700000000000); ("orderId", PStr "A") ] |}.

Definition master_open_long : MasterEvent :=
  {| event := buy; method := market; symbol := "BTC_USDT";
     pos_side := Some LONG; closed := false;
     payload := Some (list_to_map
       [ ("order_id", PStr "A"); ("qty", PFloat 10); ("price", PFloat 100);
         ("leverage", PNone); ("open_type", PNone);
         ("reduce_only", PBool false); ("exec_ts", PInt 1700000000000) ]);
     sig_type := copy; ts := 1700000000000; _cid := None |}.

Definition held_long : PosVar :=
  {| in_position := true; qty := 2; entry_price := Some 100%Q;
     avg_price := Some 100%Q; leverage := Some 10; margin_mode := Some 1;
     _entry_ts := Some 1700000000000; _state := None |}.

(** The exchange reports the long position the follower's record was
    created for. *)
Definition rest_long_position : gmap string pyval :=
  list_to_map
    [ ("symbol", PStr "BTC_USDT"); ("state", PInt 1); ("positionType", PInt 1);
      ("holdVol", PInt 2); ("openAvgPrice", PStr "100.5");
      ("holdAvgPrice", PStr "100.5"); ("leverage", PInt 10);
      ("openType", PInt 1) ].

(** A follower's limit order for the master order ["M1"], and the cancel
    of that master order. *)
Definition canceled_M1 (m : METHOD) : MasterEvent :=
  {| event := canceled; method := m; symbol := "BTC_USDT";
     pos_side := Some LONG; closed := false;
     payload := Some (list_to_map
       [ ("order_id", PStr "M1"); ("exec_ts", PInt 1700000000000) ]);
     sig_type := copy; ts := 1700000000000; _cid := None |}.

Definition copy_of_M1 (copy_oid : pyval) : OrderRec :=
  {| copy_order_id := copy_oid; rec_price := Some "100"; rec_qty := 5;
     rec_status := "OPEN" |}.

Definition exec_start (sr : SideRoot) : ExecState :=
  {| side_root := sr; exec_log := []; api_calls := [] |}.

Definition exchange_ok : ApiCall -> bool := fun _ => true.

(** Scenario 4: follower 3 holds BTC_USDT LONG with qty 2; the request
    names the master and follower 3. *)
Definition follower3 : CopyRuntime :=
  {| init_state := READY; network_ready := true;
     position_vars := {[ "BTC_USDT" := {[ LONG := held_long ]} ]} |}.

Definition mc_one_follower : MainContext :=
  {| copy_runtime_states := {[ 3 := follower3 ]}; cmd_ids := [];
     log_events := []; master_payload := true |}.

(** Further scenarios: a cancelled limit order, attached take-profit and
    stop-loss prices, a position frame, a follower's limit order for the
    master order ["M1"] and a follower without sizing options. *)
Definition cancelled_L1 : SignalEvent :=
  limit_event order_cancelled (Some LONG) (PStr "L1") 4.

Definition oco_long : SignalEvent :=
  {| se_symbol := "BTC_USDT"; se_pos_side := Some LONG;
     se_event_type := oco_attached; se_ts := 1700000000050;
     se_raw := {[ "tp" := PFloat 110; "sl" := PFloat 90 ]} |}.

Definition position_event : SignalEvent :=
  {| se_symbol := "BTC_USDT"; se_pos_side := Some LONG;
     se_event_type := position_opened; se_ts := 1700000000100;
     se_raw := rest_long_position |}.

Definition master_limit_M1 : MasterEvent :=
  {| event := buy; method := limit; symbol := "BTC_USDT";
     pos_side := Some LONG; closed := false;
     payload := Some (list_to_map
       [ ("order_id", PStr "M1"); ("qty", PFloat 5); ("price", PFloat 100);
         ("leverage", PInt 10); ("open_type", PInt 1);
         ("reduce_only", PBool false); ("exec_ts", PInt 1700000000000) ]);
     sig_type := copy; ts := 1700000000000; _cid := None |}.

Definition intent_limit_long : CopyOrderIntent :=
  {| intent_symbol := "BTC_USDT"; intent_side := BUY;
     intent_position_side := Some LONG; intent_contracts := 5;
     intent_method := limit; intent_leverage := 10; intent_open_type := 1;
     intent_price := Some "100"; intent_trigger_price := None;
     intent_sl_price := None; intent_tp_price := None;
     intent_delay_ms := 0 |}.

Definition accepted_C1 : ClientResult :=
  {| res_success := true; res_order_id := PStr "C1"; res_reason := PNone |}.

Definition client_ok : OrderCall -> option ClientResult :=
  fun _ => Some accepted_C1.

Definition run_start : RunState :=
  {| run_side_root := {| sr_limit := None; sr_trigger := None |};
     last_error := PNone; last_error_ts := None; run_log := [];
     run_calls := [] |}.

Definition cfg_plain : CopyConfig :=
  {| cfg_cid := PInt 3; cfg_leverage := PInt 20; cfg_margin_mode := PNone;
     cfg_max_position_size := PNone; cfg_coef := Some (PFloat 1);
     cfg_random_size_pct := (PFloat 0, PFloat 0);
     cfg_delay_ms := DelayPair (PInt 0) (PInt 0) |}.

Definition spec_empty : InstrumentSpec :=
  {| max_leverage := None; price_precision := None;
     sizing := {| contract_size := None; vol_unit := None;
                  contract_precision := None |} |}.

Definition closing_long : PosVar :=
  {| in_position := false; qty := 0; entry_price := None; avg_price := None;
     leverage := None; margin_mode := None;
     _entry_ts := Some 1700000000000; _state := Some CLOSED_PENDING |}.

Definition fresh_long : gmap string (gmap PosSide PosVar) :=
  {[ "BTC_USDT" := {[ LONG := base_template ]} ]}.

Definition tracked_long : gmap string (gmap PosSide PosVar) :=
  {[ "BTC_USDT" := {[ LONG := held_long ]} ]}.

Definition forget_prices (pv : PosVar) : PosVar :=
  {| in_position := in_position pv; qty := qty pv; entry_price := None;
     avg_price := None; leverage := leverage pv;
     margin_mode := margin_mode pv; _entry_ts := _entry_ts pv;
     _state := _state pv |}.

Definition pending_long : gmap string (gmap PosSide PosVar) :=
  {[ "BTC_USDT" := {[ LONG := closing_long ]} ]}.

(** * Properties *)

(** ** Symbol normalisation *)

Lemma all_chars_app P a b :
  all_chars P a -> all_chars P b -> all_chars P (a +:+ b).
Proof. induction a as [|c a IH]; simpl; [tauto|]. intros [? ?] ?; split; auto. Qed.

Lemma all_chars_drop P n s : all_chars P s -> all_chars P (str_drop n s).
Proof.
  revert s; induction n as [|n IH]; intros [|c r]; simpl; auto.
  intros [_ ?]; auto.
Qed.

Lemma replace_ne_all_chars P o os new s :
  all_chars P new -> all_chars P s -> all_chars P (replace_ne o os new s).
Proof.
  intros Hnew. funelim (replace_ne o os new s); [simpl; tauto|].
  intros [Hc Hr].
  destruct (String.prefix (String o os) (String c r)).
  - apply all_chars_app; [done|]. apply H; [done|]. by apply all_chars_drop.
  - split; [done|]. by apply H0.
Qed.

Lemma remove_char_cons c d r :
  remove_char c (String d r) =
  if Ascii.eqb c d then remove_char c r else String d (remove_char c r).
Proof.
  unfold remove_char. rewrite replace_ne_equation_2. simpl.
  destruct (ascii_dec c d) as [->|Hne].
  - rewrite Ascii.eqb_refl. by destruct r.
  - destruct (Ascii.eqb_spec c d); [done|reflexivity].
Qed.

Lemma remove_char_app c a b :
  remove_char c (a +:+ b) = remove_char c a +:+ remove_char c b.
Proof.
  induction a as [|d a IH]; [reflexivity|].
  change (String d a +:+ b) with (String d (a +:+ b)).
  rewrite !remove_char_cons, IH. by destruct (Ascii.eqb c d).
Qed.

Lemma remove_char_absent c s :
  all_chars (fun d => d <> c) s -> remove_char c s = s.
Proof.
  induction s as [|d r IH]; [reflexivity|]. intros [Hd Hr].
  rewrite remove_char_cons, (IH Hr).
  destruct (Ascii.eqb_spec c d); congruence.
Qed.

Lemma remove_char_gone c s : all_chars (fun d => d <> c) (remove_char c s).
Proof.
  induction s as [|d r IH]; [exact I|].
  rewrite remove_char_cons. destruct (Ascii.eqb_spec c d); [done|].
  split; [congruence|done].
Qed.

Lemma remove_char_all_chars P c s :
  all_chars P s -> all_chars P (remove_char c s).
Proof. by apply replace_ne_all_chars. Qed.

Lemma prefix_split a s :
  String.prefix a s = true -> s = a +:+ str_drop (String.length a) s.
Proof.
  revert s; induction a as [|c a IH]; intros s; [reflexivity|].
  destruct s as [|d r]; simpl; [discriminate|].
  destruct (ascii_dec c d) as [->|]; [|discriminate].
  intros Hp.
  change (String d r = String d (a +:+ str_drop (String.length a) r)).
  f_equal. by apply IH.
Qed.

(** Stripping the separator that [replace] has just put in front of each
    match gives the input back. *)
Lemma remove_inserted c o os s :
  all_chars (fun d => d <> c) (String o os) ->
  all_chars (fun d => d <> c) s ->
  remove_char c (replace_ne o os (String c (String o os)) s) = s.
Proof.
  intros Hold. funelim (replace_ne o os (String c (String o os)) s);
    [reflexivity|].
  intros [Hc Hr].
  match goal with |- context [if ?b then _ else _] => destruct b eqn:Hp end.
  - rewrite remove_char_app, remove_char_cons, Ascii.eqb_refl.
    rewrite (remove_char_absent _ (String o os) Hold).
    rewrite H; [|done|by apply all_chars_drop].
    symmetry. by apply (prefix_split (String o os)).
  - rewrite remove_char_cons.
    destruct (Ascii.eqb_spec c0 c); [congruence|].
    by rewrite H0.
Qed.

Lemma upper_ascii_idem c : upper_ascii (upper_ascii c) = upper_ascii c.
Proof. destruct c as [[] [] [] [] [] [] [] []]; reflexivity. Qed.

Lemma upper_fixed s :
  all_chars (fun c => upper_ascii c = c) s -> upper s = s.
Proof.
  induction s as [|c r IH]; [reflexivity|]. intros [Hc Hr].
  simpl. by rewrite Hc, IH.
Qed.

Lemma upper_all_fixed s : all_chars (fun c => upper_ascii c = c) (upper s).
Proof.
  induction s as [|c r IH]; [exact I|]. split; [apply upper_ascii_idem|done].
Qed.

Lemma stripped_no_underscore s : all_chars (fun d => d <> "_"%char) (stripped s).
Proof. apply remove_char_all_chars, remove_char_gone. Qed.

Lemma stripped_no_dash s : all_chars (fun d => d <> "-"%char) (stripped s).
Proof. do 2 apply remove_char_all_chars. apply remove_char_gone. Qed.

Lemma stripped_no_space s : all_chars (fun d => d <> " "%char) (stripped s).
Proof. apply remove_char_gone. Qed.

Lemma stripped_upper s : all_chars (fun c => upper_ascii c = c) (stripped s).
Proof. do 3 apply remove_char_all_chars. apply upper_all_fixed. Qed.


(** ** The max-margin clamp *)

(** C5.  With contracts 20, coef 0.5, rnd 100 (no jitter), max_margin 50,
    price 100, leverage 10 and the scenario's instrument, the clamp returns
    exactly 5.0 contracts: in binary64 as Python computes it, and in exact
    arithmetic. *)
Theorem C5_clamp_literal_scenario :
  _clamp_by_max_margin 20%float 50%float (Some 100%float) 10
    0.5%float 100%float scenario_spec_b64 = Some 5%float
  /\ exists q : Q,
       _clamp_by_max_margin 20%Q 50%Q (Some 100%Q) 10 (1 # 2)%Q 100%Q
         scenario_spec_Q = Some q
       /\ (q == 5)%Q.
Proof.
  split; [vm_compute; reflexivity|].
  eexists; split; [vm_compute; reflexivity|reflexivity].
Qed.

(** The steps of the scenario, in exact arithmetic: the scaled margin is
    100, which the cap of 50 replaces. *)
Lemma scenario_margin :
  (20 * 1 * 100 / inject_Z 10 * Qabs (1 # 2) == 100)%Q
  /\ Qle_bool 50 100 = true
  /\ (50 * inject_Z 10 / 100 == 5)%Q.
Proof. repeat split. Qed.


(** ** The translator *)

Lemma py_eq_refl (x : pyval) : py_eq x x = true.
Proof.
  destruct x as [|b|z|q|s]; simpl; try reflexivity.
  - by destruct b.
  - apply Qeq_bool_iff; reflexivity.
  - apply Qeq_bool_iff; reflexivity.
  - apply String.eqb_refl.
Qed.

Lemma pyset_mem_add (x : pyval) (s : pyset) : pyset_mem x (pyset_add x s) = true.
Proof.
  unfold pyset_add. destruct (pyset_mem x s) eqn:Hm; [done|].
  unfold pyset_mem. rewrite existsb_app. simpl.
  by rewrite py_eq_refl, !orb_true_r.
Qed.

Lemma pyset_mem_discard (x : pyval) (s : pyset) :
  pyset_mem x (pyset_discard x s) = false.
Proof.
  unfold pyset_mem, pyset_discard. induction s as [|y s IH]; [done|].
  simpl. destruct (py_eq x y) eqn:Hxy; simpl; [done|]. by rewrite Hxy.
Qed.

Lemma emit_pending now st event method symbol pos_side payload ev_raw closed sig :
  _pending (_emit now st event method symbol pos_side payload ev_raw closed sig)
  = _pending st ++
    [ {| event := event; method := method; symbol := symbol;
         pos_side := Some pos_side; closed := closed;
         payload := Some (<["exec_ts" := opt_int (_extract_exchange_ts ev_raw)]> payload);
         sig_type := sig;
         ts := match _extract_exchange_ts ev_raw with
               | Some e =>
                   let tech_ts :=
                     match ev_raw with Some ev => se_ts ev | None => now end in
                   if negb (e =? 0) && negb (tech_ts =? 0)
                   then Z.min e tech_ts else now
               | None => now
               end;
         _cid := None |} ].
Proof. reflexivity. Qed.

Lemma emit_intents now st event method symbol pos_side payload ev_raw closed sig :
  _limit_intents
    (_emit now st event method symbol pos_side payload ev_raw closed sig)
  = _limit_intents st.
Proof. reflexivity. Qed.

(** What one call of [_route] does to the pending list: nothing, or one
    event appended by [_emit] for the routed event. *)
Lemma route_pending now st ev :
  _pending (_route now st ev) = _pending st
  \/ exists st0 event method symbol pos_side payload closed,
       _pending st0 = _pending st
       /\ _pending (_route now st ev)
          = _pending (_emit now st0 event method symbol pos_side payload
                        (Some ev) closed copy).
Proof.
  unfold _route.
  destruct (se_pos_side ev) as [side|]; [|by left].
  destruct (String.eqb (se_symbol ev) ""); [by left|].
  destruct (se_event_type ev); try (by left).
  - (* limit_placed *)
    right. destruct (truthy _); do 7 eexists; (split; [|reflexivity]); done.
  - (* limit_filled *)
    destruct (pyset_mem _ _); [by left|].
    destruct (_inject_oco_from_intent _ _ _ _) as [root payload].
    right. do 7 eexists; (split; [|reflexivity]); done.
  - (* market_filled *)
    destruct (_inject_oco_from_intent _ _ _ _) as [root payload].
    right. do 7 eexists; (split; [|reflexivity]); done.
  - (* trigger_filled *)
    destruct (_inject_oco_from_intent _ _ _ _) as [root payload].
    right. do 7 eexists; (split; [|reflexivity]); done.
  - right. destruct (truthy _); do 7 eexists; (split; [|reflexivity]); done.
  - right. destruct (truthy _); do 7 eexists; (split; [|reflexivity]); done.
Qed.

Lemma positive_number_spec (val : pyval) (x : Q) :
  positive_number val = Some x <-> as_number val = Some x /\ (0 < x)%Q.
Proof.
  unfold positive_number. destruct (as_number val) as [y|];
    [|split; [discriminate|intros [? _]; discriminate]].
  destruct (Qlt_le_dec 0 y) as [Hlt|Hle]; split.
  - intros [= <-]. done.
  - intros [[= <-] _]. done.
  - done.
  - intros [[= <-] Hlt]. exfalso. by apply (Qlt_not_le _ _ Hlt).
Qed.

(** The loop of [_extract_exchange_ts] returns the conversion of the
    first key, in the order of the tuple, whose value passes the test. *)
Lemma first_exchange_ts_spec (keys : list string) (raw : gmap string pyval)
    (e : Z) :
  first_exchange_ts keys raw = Some e <->
  exists (i : nat) (key : string) (x : Q),
    keys !! i = Some key
    /\ positive_number (py_get raw key) = Some x
    /\ e = to_ms x
    /\ forall (j : nat) (key' : string),
         (j < i)%nat -> keys !! j = Some key' ->
         positive_number (py_get raw key') = None.
Proof.
  revert e. induction keys as [|k keys IH]; intros e; simpl.
  - split; [done|]. by intros (i & key & x & Hi & _).
  - destruct (positive_number (py_get raw k)) as [x|] eqn:Hk.
    + split.
      * intros [= <-]. exists 0%nat, k, x. repeat split; [done|]. intros; lia.
      * intros (i & key & y & Hi & Hy & -> & Hfirst).
        destruct i as [|i].
        { simpl in Hi. injection Hi as <-. congruence. }
        specialize (Hfirst 0%nat k ltac:(lia) eq_refl). congruence.
    + rewrite IH. split.
      * intros (i & key & y & Hi & Hy & -> & Hfirst).
        exists (S i), key, y. repeat split; [done..|].
        intros [|j] key' Hj Hkey'; simpl in Hkey'.
        { by injection Hkey' as <-. }
        apply (Hfirst j); [lia|done].
      * intros (i & key & y & Hi & Hy & -> & Hfirst).
        destruct i as [|i].
        { simpl in Hi. injection Hi as <-. congruence. }
        exists i, key, y. repeat split; [done..|].
        intros j key' Hj Hkey'. apply (Hfirst (S j)); [lia|done].
Qed.

(** An event that [_route] appended is the one [_emit] built from the
    routed stream event. *)
Lemma route_emitted now st ev mev :
  _pending (_route now st ev) = _pending st ++ [mev] ->
  exists p,
    payload mev = Some p
    /\ p !! "exec_ts" = Some (opt_int (_extract_exchange_ts (Some ev)))
    /\ ts mev =
       match _extract_exchange_ts (Some ev) with
       | Some e => if negb (e =? 0) && negb (se_ts ev =? 0)
                   then Z.min e (se_ts ev) else now
       | None => now
       end.
Proof.
  intros Hmev.
  destruct (route_pending now st ev) as [Hsame|Hemit].
  - rewrite Hsame in Hmev. apply (f_equal length) in Hmev.
    rewrite length_app in Hmev. simpl in Hmev. lia.
  - destruct Hemit as (st0 & e & m & s & ps & p & c & Hst0 & Hem).
    rewrite Hem, emit_pending, Hst0 in Hmev.
    apply app_inj_tail in Hmev as [_ <-]. simpl.
    eexists; split; [reflexivity|]. split; [|reflexivity].
    apply lookup_insert_eq.
Qed.


(** Past the guard of [_route]: a symbol and a position side are present. *)
Ltac route_past_guard Htype Hsym Hside :=
  unfold _route; rewrite Hside;
  rewrite (proj2 (String.eqb_neq _ _) Hsym); rewrite Htype.

(** C4 (amended).  For every trigger_filled stream event that has a
    non-empty symbol and a position side, the translator emits one
    MasterEvent with method trigger, event buy when the raw side is 1 or 3
    and sell otherwise, closed equal to the truth value of the raw
    reduceOnly, and the position side flipped exactly when reduceOnly is
    true. *)
Theorem C4_trigger_fill_translation (now : Z) (st : MasterPayload)
    (ev : SignalEvent) (pos : PosSide) :
  se_event_type ev = trigger_filled ->
  se_symbol ev <> "" ->
  se_pos_side ev = Some pos ->
  let reduce_only := truthy (py_get (se_raw ev) "reduceOnly") in
  let side_in_1_3 :=
    py_eq (py_get (se_raw ev) "side") (PInt 1)
    || py_eq (py_get (se_raw ev) "side") (PInt 3) in
  exists mev : MasterEvent,
    _pending (_route now st ev) = _pending st ++ [mev]
    /\ method mev = trigger
    /\ (event mev = sell <-> side_in_1_3 = false)
    /\ (event mev = buy <-> side_in_1_3 = true)
    /\ closed mev = reduce_only
    /\ pos_side mev = Some (if reduce_only then flip_side pos else pos)
    /\ symbol mev = se_symbol ev
    /\ sig_type mev = copy.
Proof.
  intros Htype Hsym Hside reduce_only side_in_1_3.
  route_past_guard Htype Hsym Hside.
  fold reduce_only. fold side_in_1_3.
  destruct (_inject_oco_from_intent _ _ _ _) as [root p].
  rewrite emit_pending. eexists; split; [reflexivity|]. simpl.
  repeat split; try done; destruct side_in_1_3; simpl; congruence.
Qed.

(** C1 (amended).  For stream events that pass the guard of [_route]
    (non-empty symbol, a position side):
    - a limit_placed whose orderId [L] is truthy puts [L] into
      [_limit_intents] and emits [{event:buy, method:limit, closed:false}];
    - a limit_filled whose orderId is in [_limit_intents] (in particular one
      with the orderId [L], routed right after the placement) emits nothing
      and removes the id;
    - a limit_filled whose orderId is not in [_limit_intents] emits
      [{event:buy, method:limit, closed:false}]. *)
Theorem C1_limit_self_echo (now1 now2 : Z) (st st' : MasterPayload)
    (placed filled : SignalEvent) (side1 side2 : PosSide) :
  se_event_type placed = limit_placed ->
  se_symbol placed <> "" ->
  se_pos_side placed = Some side1 ->
  truthy (py_get (se_raw placed) "orderId") = true ->
  se_event_type filled = limit_filled ->
  se_symbol filled <> "" ->
  se_pos_side filled = Some side2 ->
  let L := py_get (se_raw placed) "orderId" in
  let L' := py_get (se_raw filled) "orderId" in
  let st1 := _route now1 st placed in
  (pyset_mem L (_limit_intents st1) = true
   /\ exists mev, _pending st1 = _pending st ++ [mev]
        /\ event mev = buy /\ method mev = limit /\ closed mev = false)
  /\ (pyset_mem L' (_limit_intents st') = true ->
      _pending (_route now2 st' filled) = _pending st'
      /\ pyset_mem L' (_limit_intents (_route now2 st' filled)) = false)
  /\ (L' = L ->
      _pending (_route now2 st1 filled) = _pending st1
      /\ pyset_mem L (_limit_intents (_route now2 st1 filled)) = false)
  /\ (pyset_mem L' (_limit_intents st') = false ->
      exists mev, _pending (_route now2 st' filled) = _pending st' ++ [mev]
        /\ event mev = buy /\ method mev = limit /\ closed mev = false).
Proof.
  intros Hpt Hps Hpside Hoid Hft Hfs Hfside L L' st1.
  assert (Hplaced : pyset_mem L (_limit_intents st1) = true
     /\ exists mev, _pending st1 = _pending st ++ [mev]
          /\ event mev = buy /\ method mev = limit /\ closed mev = false).
  { unfold st1. route_past_guard Hpt Hps Hpside. rewrite Hoid.
    rewrite emit_intents, emit_pending. split.
    - apply pyset_mem_add.
    - eexists; split; [reflexivity|done]. }
  assert (Hecho : forall s, pyset_mem L' (_limit_intents s) = true ->
      _pending (_route now2 s filled) = _pending s
      /\ pyset_mem L' (_limit_intents (_route now2 s filled)) = false).
  { intros s Hmem. route_past_guard Hft Hfs Hfside. fold L'. rewrite Hmem.
    split; [reflexivity|]. apply pyset_mem_discard. }
  split; [exact Hplaced|]. split; [apply Hecho|]. split.
  - intros HL. rewrite <- HL. apply Hecho. rewrite HL. apply Hplaced.
  - intros Hmem. route_past_guard Hft Hfs Hfside. fold L'. rewrite Hmem.
    destruct (_inject_oco_from_intent _ _ _ _) as [root p].
    rewrite emit_pending. eexists; split; [reflexivity|done].
Qed.

(** ** The position monitor *)

Lemma base_template_inv : pv_inv base_template.
Proof. split; [reflexivity|discriminate]. Qed.

Lemma closed_pending_inv pv : pv_inv (closed_pending pv).
Proof. split; [reflexivity|discriminate]. Qed.

Lemma apply_snapshot_inv active now_ts symbol pos_side pv :
  pv_inv pv -> pv_inv (apply_snapshot active now_ts symbol pos_side pv).
Proof.
  intros Hinv. unfold apply_snapshot.
  assert (Hnf : pv_inv (if in_position pv then closed_pending pv else pv)).
  { destruct (in_position pv); [apply closed_pending_inv|done]. }
  destruct (active_get symbol pos_side active) as [info|]; [|done].
  destruct (Qlt_le_dec 0 (info_qty info)) as [Hpos|_]; [|done].
  destruct (in_position pv); split; simpl; done.
Qed.

Lemma refresh_lookup positions now_ts pvs symbol pos_side :
  (refresh (Some positions) now_ts pvs !! symbol) ≫= (.!! pos_side)
  = apply_snapshot (omap (M:=list) unpack positions) now_ts symbol pos_side
      <$> (pvs !! symbol) ≫= (.!! pos_side).
Proof.
  unfold refresh. rewrite map_lookup_imap.
  destruct (pvs !! symbol) as [sides|]; [|done]. simpl.
  rewrite map_lookup_imap. by destruct (sides !! pos_side).
Qed.

Lemma refresh_preserves (P : PosVar -> Prop) positions now_ts pvs :
  (forall active symbol pos_side pv,
      P pv -> P (apply_snapshot active now_ts symbol pos_side pv)) ->
  all_pv P pvs -> all_pv P (refresh positions now_ts pvs).
Proof.
  intros Hstep Hall. destruct positions as [positions|]; [|exact Hall].
  intros symbol sides pos_side pv Hsym Hside.
  pose proof (refresh_lookup positions now_ts pvs symbol pos_side) as Hl.
  rewrite Hsym in Hl. simpl in Hl. rewrite Hside in Hl.
  destruct (pvs !! symbol) as [sides0|] eqn:Hs0; [|done]. simpl in Hl.
  destruct (sides0 !! pos_side) as [pv0|] eqn:Hp0; [|done]. simpl in Hl.
  injection Hl as ->. apply Hstep. by apply (Hall symbol sides0 pos_side).
Qed.

Lemma get_cid_symbol_pos_preserves (P : PosVar -> Prop) pvs symbol side :
  P base_template -> all_pv P pvs -> all_pv P (get_cid_symbol_pos pvs symbol side).
Proof.
  intros Hbase Hall s sides ps pv. unfold get_cid_symbol_pos.
  destruct (pvs !! symbol) as [sym|] eqn:Hsym; simpl.
  - destruct (sym !! side) as [pv0|] eqn:Hside.
    + rewrite insert_id by done. apply Hall.
    + destruct (decide (symbol = s)) as [<-|Hne].
      * rewrite lookup_insert_eq. intros [= <-].
        destruct (decide (side = ps)) as [<-|Hne].
        -- rewrite lookup_insert_eq. by intros [= <-].
        -- rewrite lookup_insert_ne by done. by apply (Hall symbol sym).
      * rewrite lookup_insert_ne by done. apply Hall.
  - rewrite lookup_empty.
    destruct (decide (symbol = s)) as [<-|Hne].
    + rewrite lookup_insert_eq. intros [= <-].
      destruct (decide (side = ps)) as [<-|Hne].
      * rewrite lookup_insert_eq. by intros [= <-].
      * rewrite lookup_insert_ne by done. by rewrite lookup_empty.
    + rewrite lookup_insert_ne by done. apply Hall.
Qed.

(** C9.  In every position map a follower can reach from freshly created
    template records by applications of [refresh], each record satisfies:
    not in position implies qty = 0, in position implies qty > 0. *)
Theorem C9_pv_qty_in_position_invariant
    (pvs : gmap string (gmap PosSide PosVar)) :
  reachable_pvs pvs -> all_pv pv_inv pvs.
Proof.
  induction 1 as [|pvs symbol side _ IH|pvs positions now_ts _ IH].
  - intros symbol sides pos_side pv Hsym. by rewrite lookup_empty in Hsym.
  - apply get_cid_symbol_pos_preserves; [apply base_template_inv|done].
  - apply refresh_preserves; [|done]. intros. by apply apply_snapshot_inv.
Qed.

(** One application of [refresh] keeps the invariant, whatever the
    exchange returned. *)
Lemma refresh_keeps_pv_inv positions now_ts pvs :
  all_pv pv_inv pvs -> all_pv pv_inv (refresh positions now_ts pvs).
Proof. apply refresh_preserves. intros. by apply apply_snapshot_inv. Qed.

(** *** What a fetch that failed does to the cache *)

Lemma fetch_positions_failed (response : option ApiResponse) :
  response = None
  \/ (exists r, response = Some r /\ (success r = false \/ data r = [])) ->
  fetch_positions response = [].
Proof.
  intros [->|(r & -> & [Hs|Hd])]; simpl; [done| |].
  - by rewrite Hs.
  - rewrite Hd. by rewrite andb_false_r.
Qed.

(** The path the comment in [refresh] describes: [None] leaves the cache
    alone, and so does an exception of the REST call. *)
Lemma refresh_none_untouched now_ts pvs : refresh None now_ts pvs = pvs.
Proof. reflexivity. Qed.

Lemma monitor_refresh_raise_untouched now_ts pvs :
  monitor_refresh RestRaises now_ts pvs = pvs.
Proof. reflexivity. Qed.

(** An empty list of positions closes whatever was open. *)
Lemma refresh_empty now_ts pvs :
  refresh (Some []) now_ts pvs
  = fmap (M:=gmap string)
      (fmap (M:=gmap PosSide)
         (fun pv => if in_position pv then closed_pending pv else pv)) pvs.
Proof.
  apply map_eq; intros symbol. unfold refresh.
  rewrite map_lookup_imap, lookup_fmap.
  destruct (pvs !! symbol) as [sides|]; [|done]. simpl. f_equal.
  apply map_eq; intros pos_side. rewrite map_lookup_imap, lookup_fmap.
  by destruct (sides !! pos_side).
Qed.

Lemma failed_fetch_resets (response : option ApiResponse) (now_ts : Z) :
  response = None
  \/ (exists r, response = Some r /\ (success r = false \/ data r = [])) ->
  monitor_refresh (RestReturns response) now_ts
    {[ "BTC_USDT" := {[ LONG := held_long ]} ]}
  = {[ "BTC_USDT" := {[ LONG := closed_pending held_long ]} ]}.
Proof.
  intros Hfail. unfold monitor_refresh.
  rewrite (fetch_positions_failed response Hfail), refresh_empty.
  by rewrite !map_fmap_singleton.
Qed.

(** C2 (the code departs from it).  A follower holds BTC_USDT LONG with
    qty 2 and the open-positions request fails: no response object, an
    unsuccessful one, or a successful one without data.  In each case
    [fetch_positions] returns [[]] and [refresh] resets the record to the
    base template and marks it CLOSED_PENDING, instead of leaving it
    unchanged. *)
Theorem C2_failed_fetch_resets_open_position (now_ts : Z) :
  let pvs : gmap string (gmap PosSide PosVar) :=
    {[ "BTC_USDT" := {[ LONG := held_long ]} ]} in
  let reset : gmap string (gmap PosSide PosVar) :=
    {[ "BTC_USDT" :=
         {[ LONG := {| in_position := false; qty := 0; entry_price := None;
                       avg_price := None; leverage := None;
                       margin_mode := None;
                       _entry_ts := Some 1700000000000;
                       _state := Some CLOSED_PENDING |} ]} ]} in
  monitor_refresh (RestReturns None) now_ts pvs = reset
  /\ monitor_refresh
       (RestReturns (Some {| success := false; data := [] |})) now_ts pvs
     = reset
  /\ monitor_refresh
       (RestReturns (Some {| success := true; data := [] |})) now_ts pvs
     = reset
  /\ reset <> pvs.
Proof.
  intros pvs reset. split; [|split; [|split]].
  - apply failed_fetch_resets. by left.
  - apply failed_fetch_resets. right. eexists; split; [done|by left].
  - apply failed_fetch_resets. right. eexists; split; [done|by right].
  - intros Heq. apply (f_equal (fun m => m !! "BTC_USDT" ≫= (.!! LONG))) in Heq.
    unfold pvs, reset in Heq. rewrite !lookup_singleton_eq in Heq.
    simpl in Heq. rewrite !lookup_singleton_eq in Heq. discriminate.
Qed.

(** ** Further properties of the translator *)

(** X1.  A market fill is relayed as one MasterEvent of method market: a
    reduce-only fill as a closing sell on the opposite position side, any
    other fill as an opening buy on the fill's own side. *)
Theorem market_fill_translation (now : Z) (st : MasterPayload)
    (ev : SignalEvent) (pos : PosSide) :
  se_event_type ev = market_filled ->
  se_symbol ev <> "" ->
  se_pos_side ev = Some pos ->
  let reduce_only := truthy (py_get (se_raw ev) "reduceOnly") in
  exists mev : MasterEvent,
    _pending (_route now st ev) = _pending st ++ [mev]
    /\ method mev = market
    /\ event mev = (if reduce_only then sell else buy)
    /\ closed mev = reduce_only
    /\ pos_side mev = Some (if reduce_only then flip_side pos else pos)
    /\ symbol mev = se_symbol ev
    /\ sig_type mev = copy
    /\ _limit_intents (_route now st ev) = _limit_intents st.
Proof.
  intros Htype Hsym Hside reduce_only.
  route_past_guard Htype Hsym Hside. fold reduce_only.
  destruct (_inject_oco_from_intent _ _ _ _) as [root p].
  rewrite emit_pending, emit_intents. eexists; split; [reflexivity|]. done.
Qed.


Lemma base_payload_no_oco (raw : gmap string pyval) :
  _base_payload raw !! "tp_price" = None
  /\ _base_payload raw !! "sl_price" = None.
Proof. split; reflexivity. Qed.

Lemma set_pos_defaults_lookup root symbol pos_side :
  exists sides pv,
    set_pos_defaults root symbol pos_side !! symbol = Some sides
    /\ sides !! pos_side = Some pv.
Proof.
  unfold set_pos_defaults.
  destruct (default ∅ (root !! symbol) !! pos_side) as [pv|] eqn:Hpv.
  - eexists _, pv. rewrite lookup_insert_eq. done.
  - eexists _, _. rewrite lookup_insert_eq. split; [done|].
    apply lookup_insert_eq.
Qed.


Lemma set_opt_lookup_ne key key' o (payload : gmap string pyval) :
  key <> key' -> set_opt key o payload !! key' = payload !! key'.
Proof. intros Hne. destruct o; simpl; [by apply lookup_insert_ne|done]. Qed.

Lemma inject_oco_order_id root payload symbol pos_side :
  (_inject_oco_from_intent root payload symbol pos_side).2 !! "order_id"
  = payload !! "order_id".
Proof.
  unfold _inject_oco_from_intent.
  destruct (root !! symbol) as [sides|]; [|done].
  destruct (sides !! pos_side) as [pv|]; [|done].
  simpl. by rewrite !set_opt_lookup_ne.
Qed.

(** The shape of what one call of [_route] appends. *)
Ltac route_shape_side :=
  first
    [ done
    | by left
    | by right
    | by (intros; discriminate)
    | by (split; [discriminate | intros [?|?]; discriminate])
    | by (split; [by left | done])
    | by (split; [by right | done]) ].

Lemma route_shape (now : Z) (st : MasterPayload) (ev : SignalEvent) :
  _pending (_route now st ev) = _pending st
  \/ exists (mev : MasterEvent) (p : gmap string pyval) (pos : PosSide),
       _pending (_route now st ev) = _pending st ++ [mev]
       /\ se_symbol ev <> "" /\ se_pos_side ev = Some pos
       /\ symbol mev = se_symbol ev
       /\ (pos_side mev = Some pos \/ pos_side mev = Some (flip_side pos))
       /\ sig_type mev = copy /\ _cid mev = None
       /\ payload mev = Some p
       /\ p !! "order_id" = Some (py_get (se_raw ev) "orderId")
       /\ (event mev = canceled <->
           se_event_type ev = order_cancelled
           \/ se_event_type ev = order_invalid)
       /\ (event mev = canceled -> method mev = limit)
       /\ (method mev = limit -> closed mev = false /\ pos_side mev = Some pos)
       /\ (closed mev = true ->
           truthy (py_get (se_raw ev) "reduceOnly") = true
           /\ pos_side mev = Some (flip_side pos)).
Proof.
  unfold _route.
  destruct (se_pos_side ev) as [pos|]; [|by left].
  destruct (String.eqb_spec (se_symbol ev) "") as [|Hsym]; [by left|].
  destruct (se_event_type ev) eqn:Htype; try (by left).
  - (* limit_placed *)
    right. eexists _, _, pos. split.
    { rewrite emit_pending. by destruct (truthy _). }
    simpl. split_and!; try route_shape_side.
  - (* limit_filled *)
    destruct (pyset_mem _ _); [by left|].
    pose proof (inject_oco_order_id (pos_vars_root st)
                  (_base_payload (se_raw ev)) (se_symbol ev) pos) as Hoid.
    destruct (_inject_oco_from_intent _ _ _ _) as [root p].
    right. eexists _, _, pos. split; [by rewrite emit_pending|].
    simpl in *. split_and!; try route_shape_side.
    rewrite lookup_insert_ne by done. by rewrite Hoid.
  - (* market_filled *)
    pose proof (inject_oco_order_id (pos_vars_root st)
                  (_base_payload (se_raw ev)) (se_symbol ev)
                  (if truthy (py_get (se_raw ev) "reduceOnly")
                   then flip_side pos else pos)) as Hoid.
    destruct (_inject_oco_from_intent _ _ _ _) as [root p].
    right. eexists _, _, pos. split; [by rewrite emit_pending|].
    simpl in *.
    destruct (truthy (py_get (se_raw ev) "reduceOnly"));
      (split_and!; try route_shape_side);
      rewrite lookup_insert_ne by done; by rewrite Hoid.
  - (* trigger_filled *)
    pose proof (inject_oco_order_id (pos_vars_root st)
                  (_base_payload (se_raw ev)) (se_symbol ev)
                  (if truthy (py_get (se_raw ev) "reduceOnly")
                   then flip_side pos else pos)) as Hoid.
    destruct (_inject_oco_from_intent _ _ _ _) as [root p].
    right. eexists _, _, pos. split; [by rewrite emit_pending|].
    simpl in *.
    destruct (truthy (py_get (se_raw ev) "reduceOnly"));
      destruct (negb _);
      (split_and!; try route_shape_side);
      rewrite lookup_insert_ne by done; by rewrite Hoid.
  - (* order_cancelled *)
    right. eexists _, _, pos. split.
    { rewrite emit_pending. by destruct (truthy _). }
    simpl. split_and!; route_shape_side.
  - (* order_invalid *)
    right. eexists _, _, pos. split.
    { rewrite emit_pending. by destruct (truthy _). }
    simpl. split_and!; route_shape_side.
Qed.

(** X4.  One stream event yields at most one MasterEvent, appended behind
    what was already pending. The event relayed keeps the symbol and carries
    the raw orderId; it is a canceled event exactly for cancelled and
    invalidated orders, and is then tagged limit; a limit event is never
    closing and never changes the position side, whatever reduceOnly says; a
    closing event comes only from a reduce-only report and is on the
    opposite side. *)
Theorem route_emits_at_most_one (now : Z) (st : MasterPayload)
    (ev : SignalEvent) :
  _pending (_route now st ev) = _pending st
  \/ exists (mev : MasterEvent) (p : gmap string pyval) (pos : PosSide),
       _pending (_route now st ev) = _pending st ++ [mev]
       /\ se_symbol ev <> "" /\ se_pos_side ev = Some pos
       /\ symbol mev = se_symbol ev
       /\ (pos_side mev = Some pos \/ pos_side mev = Some (flip_side pos))
       /\ sig_type mev = copy /\ _cid mev = None
       /\ payload mev = Some p
       /\ p !! "order_id" = Some (py_get (se_raw ev) "orderId")
       /\ (event mev = canceled <->
           se_event_type ev = order_cancelled
           \/ se_event_type ev = order_invalid)
       /\ (event mev = canceled -> method mev = limit)
       /\ (method mev = limit -> closed mev = false /\ pos_side mev = Some pos)
       /\ (closed mev = true ->
           truthy (py_get (se_raw ev) "reduceOnly") = true
           /\ pos_side mev = Some (flip_side pos)).
Proof. apply route_shape. Qed.

Lemma route_events_pending (st : MasterPayload) (timed : list (Z * SignalEvent)) :
  exists l : list MasterEvent,
    _pending (route_events st timed) = _pending st ++ l
    /\ (length l <= length timed)%nat
    /\ Forall (fun mev => sig_type mev = copy /\ _cid mev = None) l.
Proof.
  revert st. induction timed as [|[now ev] timed IH]; intros st.
  - exists []. simpl. rewrite app_nil_r. split; [done|]. split; [lia|done].
  - change (route_events st ((now, ev) :: timed))
      with (route_events (_route now st ev) timed).
    destruct (IH (_route now st ev)) as (l & Hl & Hlen & Hall).
    destruct (route_shape now st ev)
      as [Hsame|(mev & p & pos & Hmev & _ & _ & _ & _ & Hsig & Hcid & _)].
    + exists l. rewrite Hl, Hsame.
      split; [done|]. split; [simpl; lia|done].
    + exists (mev :: l). rewrite Hl, Hmev.
      rewrite <- app_assoc. split; [done|]. split; [simpl; lia|].
      by constructor.
Qed.

(** X7.  One turn of the translator loop drains the cache and hands on what
    was pending before, in order, followed by at most one MasterEvent per
    drained stream event, all of them copy signals not bound to a follower;
    afterwards nothing is pending and the cache is empty with its wake-up
    flag cleared. *)
Theorem run_turn_drains (clock : nat -> Z) (cache : SignalCache)
    (st : MasterPayload) :
  let '(cache', st', out) := run_turn clock cache st in
  _events cache' = [] /\ _event_notify cache' = false
  /\ _last_raw cache' = _last_raw cache
  /\ _pending st' = []
  /\ exists l : list MasterEvent,
       out = _pending st ++ l
       /\ (length l <= length (_events cache))%nat
       /\ Forall (fun mev => sig_type mev = copy /\ _cid mev = None) l.
Proof.
  unfold run_turn. simpl. split_and!; try done.
  destruct (route_events_pending st
              (imap (fun i ev => (clock i, ev)) (_events cache)))
    as (l & Hl & Hlen & Hall).
  exists l. split; [done|]. split; [|done].
  by rewrite length_imap in Hlen.
Qed.

Lemma fold_push_events (evs : list SignalEvent) (cache : SignalCache) :
  _events (fold_left push_event evs cache) = _events cache ++ evs.
Proof.
  revert cache. induction evs as [|ev evs IH]; intros cache; simpl.
  - by rewrite app_nil_r.
  - rewrite IH. simpl. by rewrite <- app_assoc.
Qed.

(** X8.  The signal cache is a FIFO: draining after any sequence of pushes
    returns what was queued followed by the pushed events in push order, and
    leaves the queue empty; a push raises the wake-up flag and a drain
    lowers it. *)
Theorem signal_cache_fifo (evs : list SignalEvent) (cache : SignalCache) :
  let pushed := fold_left push_event evs cache in
  (pop_events pushed).2 = _events cache ++ evs
  /\ _events (pop_events pushed).1 = []
  /\ _event_notify (pop_events pushed).1 = false
  /\ (pop_events (pop_events pushed).1).2 = []
  /\ (evs <> [] -> _event_notify pushed = true).
Proof.
  simpl. split_and!; try done.
  - apply fold_push_events.
  - destruct evs as [|ev evs _] using rev_ind; [done|]. intros _.
    by rewrite fold_left_app.
Qed.

(** [get_last_raw] returns the raw report of the latest pushed event for a
    (symbol, side); an event without a position side is queued but leaves
    the table alone. *)
Lemma signal_cache_last_raw (cache : SignalCache) (ev : SignalEvent)
    (symbol : string) (side : PosSide) :
  get_last_raw (push_event cache ev) symbol side
  = if bool_decide (se_pos_side ev = Some side /\ se_symbol ev = symbol)
    then Some (se_raw ev)
    else get_last_raw cache symbol side.
Proof.
  unfold get_last_raw, push_event. simpl.
  destruct (se_pos_side ev) as [s|] eqn:Hside.
  - destruct (decide (s = side /\ se_symbol ev = symbol)) as [[-> <-]|Hne].
    + rewrite lookup_insert_eq. by rewrite bool_decide_eq_true_2.
    + rewrite lookup_insert_ne by (intros [= ? ?]; by apply Hne).
      rewrite bool_decide_eq_false_2; [done|].
      intros [[= ->] ?]. by apply Hne.
  - rewrite bool_decide_eq_false_2; [done|]. by intros [? _].
Qed.

(** X5.  MasterEvents originate from one channel only: whatever a frame on
    any channel other than push.personal.order makes the stream push,
    routing it emits nothing and leaves the limit intents alone; unless the
    channel is push.personal.stop.order it leaves the whole translator state
    unchanged. *)
Theorem only_order_channel_emits (quota_asset : string)
    (black_symbols : list string) (now now' : Z) (channel : pyval)
    (payload : gmap string pyval) (ev : SignalEvent) (st : MasterPayload) :
  py_eq channel (PStr "push.personal.order") = false ->
  handle_message quota_asset black_symbols now channel payload
    = Some (Some ev) ->
  _pending (_route now' st ev) = _pending st
  /\ _limit_intents (_route now' st ev) = _limit_intents st
  /\ (py_eq channel (PStr "push.personal.stop.order") = false ->
      _route now' st ev = st).
Proof.
  intros Hch. unfold handle_message. rewrite Hch.
  assert (Hignored : forall symbol side etype raw,
    stream_emit black_symbols now symbol side etype raw = Some ev ->
    etype <> limit_placed -> etype <> limit_filled ->
    etype <> market_filled -> etype <> trigger_filled ->
    etype <> order_cancelled -> etype <> order_invalid ->
    (etype <> oco_attached -> _route now' st ev = st)
    /\ _pending (_route now' st ev) = _pending st
    /\ _limit_intents (_route now' st ev) = _limit_intents st).
  { intros symbol side etype raw Hemit H1 H2 H3 H4 H5 H6.
    unfold stream_emit in Hemit.
    destruct (_ && _); [done|]. injection Hemit as <-.
    unfold _route; simpl. destruct side as [pos|]; [|done].
    destruct (String.eqb symbol ""); [done|].
    destruct etype; done. }
  destruct (py_eq channel (PStr "push.personal.order.deal")).
  { unfold _handle_order_deal. intros Hev.
    destruct (symbol_of _ _) as [symbol|]; simpl in Hev; [|done].
    destruct (py_int (default (PInt 0) (payload !! "side"))) as [code|];
      simpl in Hev; [|done].
    injection Hev as Hev.
    destruct (Hignored _ _ _ _ Hev) as (Hst & Hp & Hi); try done.
    split; [done|]. split; [done|]. intros _. by apply Hst. }
  destruct (py_eq channel (PStr "push.personal.position")).
  { unfold _handle_position. intros Hev.
    destruct (symbol_of _ _) as [symbol|]; simpl in Hev; [|done].
    destruct (py_int (default (PInt 0) (payload !! "positionType")))
      as [code|]; simpl in Hev; [|done].
    destruct (py_float (default (PInt 0) (payload !! "holdVol"))) as [vol|];
      simpl in Hev; [|done].
    destruct (py_int (default (PInt 0) (payload !! "state"))) as [state|];
      simpl in Hev; [|done].
    injection Hev as Hev.
    destruct (Hignored _ _ _ _ Hev) as (Hst & Hp & Hi);
      try (by destruct (_ && _)).
    split; [done|]. split; [done|]. intros _.
    apply Hst. by destruct (_ && _). }
  destruct (py_eq channel (PStr "push.personal.plan.order")).
  { unfold _handle_plan_order. intros Hev.
    destruct (symbol_of _ _) as [symbol|]; simpl in Hev; [|done].
    destruct (py_int (default (PInt 0) (payload !! "side"))) as [code|];
      simpl in Hev; [|done].
    destruct (py_int (default (PInt 0) (payload !! "state"))) as [state|];
      simpl in Hev; [|done].
    injection Hev as Hev.
    destruct (Hignored _ _ _ _ Hev) as (Hst & Hp & Hi);
      try (by destruct (state =? 1); [|destruct (state =? 3)]).
    split; [done|]. split; [done|]. intros _.
    apply Hst. by destruct (state =? 1); [|destruct (state =? 3)]. }
  destruct (py_eq channel (PStr "push.personal.stop.order")); [|done].
  unfold _handle_stop_order. intros Hev.
  destruct (symbol_of _ _) as [symbol|]; simpl in Hev; [|done].
  destruct (py_int (default (PInt 0) (payload !! "side"))) as [code|];
    simpl in Hev; [|done].
  injection Hev as Hev.
  destruct (Hignored _ _ _ _ Hev) as (Hst & Hp & Hi); try done.
Qed.

(** X6.  What reaches the followers from a push.personal.order frame: a
    MasterEvent is relayed only for a frame whose side code is 1, 2, 3 or 4
    and whose symbol is a non-empty string that is not blacklisted; it
    carries the normalised symbol and the frame's orderId, and it is a
    canceled event exactly when the frame's state is 4 or 5. *)
Theorem order_frame_relay (quota_asset : string) (black_symbols : list string)
    (now now' : Z) (data : gmap string pyval) (ev : SignalEvent)
    (st : MasterPayload) (mev : MasterEvent) :
  _handle_order quota_asset black_symbols now data = Some (Some ev) ->
  _pending (_route now' st ev) = _pending st ++ [mev] ->
  exists (sym : string) (code state : Z) (p : gmap string pyval),
    py_get data "symbol" = PStr sym
    /\ py_int (default (PInt 0) (data !! "side")) = Some code
    /\ py_int (default (PInt 0) (data !! "state")) = Some state
    /\ 1 <= code <= 4
    /\ symbol mev = normalize_symbol sym quota_asset
    /\ symbol mev <> ""
    /\ existsb (String.eqb (upper (symbol mev))) black_symbols = false
    /\ payload mev = Some p
    /\ p !! "order_id" = Some (py_get data "orderId")
    /\ (event mev = canceled <-> state = 4 \/ state = 5).
Proof.
  intros Hev Hmev. unfold _handle_order in Hev.
  destruct (symbol_of _ _) as [symbol|] eqn:Hsymbol; simpl in Hev; [|done].
  destruct (py_int (default (PInt 0) (data !! "side"))) as [code|] eqn:Hcode;
    simpl in Hev; [|done].
  destruct (py_int (default (PInt 0) (data !! "state"))) as [state|] eqn:Hstate;
    simpl in Hev; [|done].
  destruct (py_int (default (PInt 0) (data !! "orderType"))) as [otype|];
    simpl in Hev; [|done].
  injection Hev as Hev.
  destruct (route_shape now' st ev)
    as [Hsame|(mev' & p & pos & Hmev' & Hsym & Hside & Hs & _ & _ & _
               & Hp & Hoid & Hcancel & _)].
  { rewrite Hsame in Hmev. apply (f_equal length) in Hmev.
    rewrite length_app in Hmev. simpl in Hmev. lia. }
  rewrite Hmev' in Hmev. apply app_inj_tail in Hmev as [_ ->].
  (* the pushed event *)
  assert (Hpushed : exists etype,
    stream_emit black_symbols now symbol (side_from_order_side code) etype data
      = Some ev
    /\ (etype = order_cancelled \/ etype = order_invalid <->
        state = 4 \/ state = 5)).
  { destruct (Z.eqb_spec state 4) as [->|H4]; simpl in Hev.
    { eexists; split; [exact Hev|]. split; [by left|by left]. }
    destruct (Z.eqb_spec state 5) as [->|H5]; simpl in Hev.
    { eexists; split; [exact Hev|]. split; [by right|by right]. }
    destruct (Z.eqb_spec state 3) as [->|H3].
    { destruct (otype =? 1); [|destruct (otype =? 5)];
        (eexists; split; [exact Hev|]);
        (split; [intros [?|?]; discriminate | intros [?|?]; lia]). }
    destruct ((otype =? 1) && (state =? 2)); [|done].
    eexists; split; [exact Hev|].
    split; [intros [?|?]; discriminate | intros [?|?]; lia]. }
  destruct Hpushed as (etype & Hemit & Hetype).
  unfold stream_emit in Hemit.
  destruct (negb (String.eqb symbol "")
            && existsb (String.eqb (upper symbol)) black_symbols) eqn:Hblack;
    [done|].
  injection Hemit as <-. simpl in *.
  (* the symbol is a string *)
  assert (Hstr : exists sym, py_get data "symbol" = PStr sym
                   /\ symbol = normalize_symbol sym quota_asset).
  { unfold symbol_of in Hsymbol.
    destruct (py_get data "symbol") as [|b|z|q|s];
      try (destruct (truthy _); [done|]; by injection Hsymbol as <-).
    exists s. split; [done|]. by injection Hsymbol as <-. }
  destruct Hstr as (sym & Hget & Hnorm).
  exists sym, code, state, p. rewrite Hs.
  split; [done|]. split; [done|]. split; [done|]. split.
  { unfold side_from_order_side in Hside.
    destruct (Z.eqb_spec code 1); [lia|]. destruct (Z.eqb_spec code 4); [lia|].
    destruct (Z.eqb_spec code 2); [lia|]. destruct (Z.eqb_spec code 3); [lia|].
    done. }
  split; [done|]. split; [done|]. split.
  { apply andb_false_iff in Hblack as [Hb|Hb]; [|done].
    apply negb_false_iff, String.eqb_eq in Hb. done. }
  split; [done|]. split; [done|].
  rewrite Hcancel. exact Hetype.
Qed.

(** ** Further properties of the position monitor *)

Lemma unpack_qty_pos (position : gmap string pyval) (info : PosInfo) :
  unpack position = Some info -> (0 < info_qty info)%Q.
Proof.
  unfold unpack.
  destruct (negb (py_eq (py_get position "state") (PInt 1))); [done|].
  destruct (negb (truthy (py_get position "symbol"))); [done|]. simpl.
  destruct (Qle_bool _ 0) eqn:Hvol; [done|].
  assert (Hpos : (0 < Qabs (safe_float (py_get position "holdVol") 0))%Q).
  { apply Qnot_le_lt. intros Hle. apply Qle_bool_iff in Hle. congruence. }
  destruct (py_eq (py_get position "positionType") (PInt 1));
    [by intros [= <-]|].
  destruct (py_eq (py_get position "positionType") (PInt 2));
    [by intros [= <-]|done].
Qed.

Lemma active_get_Some positions symbol pos_side info :
  active_get symbol pos_side (omap (M:=list) unpack positions) = Some info ->
  same_key symbol pos_side info = true
  /\ (0 < info_qty info)%Q
  /\ exists position, position ∈ positions /\ unpack position = Some info.
Proof.
  unfold active_get. intros Hfind. apply find_some in Hfind as [Hin Hkey].
  apply in_rev, list_elem_of_In, list_elem_of_omap in Hin
    as (position & Hpos & Hunpack).
  split; [done|]. split; [by apply (unpack_qty_pos position)|].
  by exists position.
Qed.

Lemma active_get_None positions symbol pos_side position info :
  active_get symbol pos_side (omap (M:=list) unpack positions) = None ->
  position ∈ positions -> unpack position = Some info ->
  same_key symbol pos_side info = false.
Proof.
  unfold active_get. intros Hfind Hpos Hunpack.
  apply (find_none _ _ Hfind).
  apply (proj1 (in_rev _ _)), (proj1 (list_elem_of_In _ _)).
  apply list_elem_of_omap. by exists position.
Qed.

Lemma refresh_at positions now_ts pvs symbol sides pos_side pv :
  pvs !! symbol = Some sides -> sides !! pos_side = Some pv ->
  exists sides',
    refresh (Some positions) now_ts pvs !! symbol = Some sides'
    /\ sides' !! pos_side
       = Some (apply_snapshot (omap (M:=list) unpack positions) now_ts
                 symbol pos_side pv).
Proof.
  intros Hsym Hside. unfold refresh. rewrite map_lookup_imap, Hsym. simpl.
  eexists; split; [reflexivity|]. by rewrite map_lookup_imap, Hside.
Qed.

(** X9.  After a refresh that got a list from the exchange, a tracked record
    is in position exactly when the list holds a position in state 1 with a
    non-zero volume for its symbol and side; its quantity, average price,
    leverage and margin mode are then those of the last such entry, and the
    quantity is positive. A record that is not in position afterwards is the
    record as it was, or its reset if it was in position. *)
Theorem refresh_syncs_with_exchange
    (positions : list (gmap string pyval)) (now_ts : Z)
    (pvs : gmap string (gmap PosSide PosVar))
    (symbol : string) (sides : gmap PosSide PosVar) (pos_side : PosSide)
    (pv : PosVar) :
  pvs !! symbol = Some sides -> sides !! pos_side = Some pv ->
  exists sides' pv',
    refresh (Some positions) now_ts pvs !! symbol = Some sides'
    /\ sides' !! pos_side = Some pv'
    /\ (in_position pv' = true <->
        exists position info,
          position ∈ positions /\ unpack position = Some info
          /\ same_key symbol pos_side info = true)
    /\ (in_position pv' = true ->
        exists info,
          active_get symbol pos_side (omap (M:=list) unpack positions)
            = Some info
          /\ qty pv' = info_qty info /\ (0 < qty pv')%Q
          /\ avg_price pv' = Some (info_avg_price info)
          /\ leverage pv' = Some (info_leverage info)
          /\ margin_mode pv' = Some (info_margin_mode info))
    /\ (in_position pv' = false ->
        pv' = if in_position pv then closed_pending pv else pv).
Proof.
  intros Hsym Hside.
  destruct (refresh_at positions now_ts pvs symbol sides pos_side pv Hsym Hside)
    as (sides' & Hsym' & Hside').
  eexists sides', _. split; [done|]. split; [done|].
  unfold apply_snapshot.
  destruct (active_get symbol pos_side (omap (M:=list) unpack positions))
    as [info|] eqn:Hact.
  - destruct (active_get_Some _ _ _ _ Hact)
      as (Hkey & Hqty & position & Hin & Hun).
    destruct (Qlt_le_dec 0 (info_qty info)) as [_|Hle];
      [|exfalso; by apply (Qlt_not_le _ _ Hqty)].
    split; [|split].
    + split; [intros _; by exists position, info|].
      intros _. by destruct (in_position pv).
    + intros _. exists info. by destruct (in_position pv).
    + by destruct (in_position pv).
  - assert (Hout : in_position
        (if in_position pv then closed_pending pv else pv) = false).
    { by destruct (in_position pv) eqn:Hin. }
    split; [|split].
    + rewrite Hout. split; [done|].
      intros (position & info & Hin & Hun & Hkey).
      rewrite (active_get_None _ _ _ _ _ Hact Hin Hun) in Hkey. done.
    + by rewrite Hout.
    + done.
Qed.

(** X10.  What a refresh keeps of a record: while a position stays open its
    entry price and entry timestamp are never overwritten; a position found
    open for the first time is stamped with the clock reading; a position
    that disappears is reset to zero quantity and marked CLOSED_PENDING with
    its entry timestamp kept; and a CLOSED_PENDING mark is never cleared by
    a refresh, even if the position reopens. *)
Theorem refresh_entry_stamp
    (positions : list (gmap string pyval)) (now_ts : Z)
    (pvs : gmap string (gmap PosSide PosVar))
    (symbol : string) (sides : gmap PosSide PosVar) (pos_side : PosSide)
    (pv : PosVar) :
  pvs !! symbol = Some sides -> sides !! pos_side = Some pv ->
  exists sides' pv',
    refresh (Some positions) now_ts pvs !! symbol = Some sides'
    /\ sides' !! pos_side = Some pv'
    /\ (in_position pv = true -> in_position pv' = true ->
        entry_price pv' = entry_price pv /\ _entry_ts pv' = _entry_ts pv)
    /\ (in_position pv = false -> in_position pv' = true ->
        _entry_ts pv' = Some now_ts)
    /\ (in_position pv = true -> in_position pv' = false ->
        _entry_ts pv' = _entry_ts pv /\ _state pv' = Some CLOSED_PENDING
        /\ Qeq_bool (qty pv') 0 = true /\ entry_price pv' = None)
    /\ (_state pv = Some CLOSED_PENDING -> _state pv' = Some CLOSED_PENDING).
Proof.
  intros Hsym Hside.
  destruct (refresh_at positions now_ts pvs symbol sides pos_side pv Hsym Hside)
    as (sides' & Hsym' & Hside').
  eexists sides', _. split; [done|]. split; [done|].
  unfold apply_snapshot.
  destruct (active_get symbol pos_side (omap (M:=list) unpack positions))
    as [info|]; [destruct (Qlt_le_dec 0 (info_qty info))|];
    destruct (in_position pv) eqn:Hin; simpl; split_and!;
    first [done | intros; congruence].
Qed.

Lemma apply_snapshot_idem active now1 now2 symbol pos_side pv :
  apply_snapshot active now2 symbol pos_side
    (apply_snapshot active now1 symbol pos_side pv)
  = apply_snapshot active now1 symbol pos_side pv.
Proof.
  unfold apply_snapshot.
  destruct (active_get symbol pos_side active) as [info|];
    [destruct (Qlt_le_dec 0 (info_qty info))|];
    destruct (in_position pv) eqn:Hin; simpl; by rewrite ?Hin.
Qed.

(** X11.  A refresh reaches a fixed point at once: refreshing again against
    the same list of exchange positions changes nothing, whatever the clock
    reads the second time. *)
Theorem refresh_idempotent (positions : list (gmap string pyval))
    (now1 now2 : Z) (pvs : gmap string (gmap PosSide PosVar)) :
  refresh (Some positions) now2 (refresh (Some positions) now1 pvs)
  = refresh (Some positions) now1 pvs.
Proof.
  apply map_eq; intros symbol. unfold refresh.
  rewrite !map_lookup_imap.
  destruct (pvs !! symbol) as [sides|]; [|done]. simpl. f_equal.
  apply map_eq; intros pos_side. rewrite !map_lookup_imap.
  destruct (sides !! pos_side) as [pv|]; [|done]. simpl.
  by rewrite apply_snapshot_idem.
Qed.

(** X12.  A refresh never adds or removes a record: positions the exchange
    reports for a symbol and side the follower has no record of are ignored,
    and every record survives. *)
Theorem refresh_keeps_keys (positions : option (list (gmap string pyval)))
    (now_ts : Z) (pvs : gmap string (gmap PosSide PosVar))
    (symbol : string) (pos_side : PosSide) :
  is_Some ((refresh positions now_ts pvs !! symbol) ≫= (.!! pos_side))
  <-> is_Some ((pvs !! symbol) ≫= (.!! pos_side)).
Proof.
  destruct positions as [positions|]; [|done].
  rewrite refresh_lookup. apply fmap_is_Some.
Qed.

Lemma snapshot_hash_sides_fmap (f : PosVar -> PosVar) (symbol : string)
    (h : Z) (sides : gmap PosSide PosVar) :
  (forall pv, qty (f pv) = qty pv) ->
  map_fold (fun side pv h =>
      if negb (Qeq_bool (qty pv) 0)
      then Z.lxor h (py_hash symbol side (qty pv))
      else h) h (f <$> sides)
  = map_fold (fun side pv h =>
      if negb (Qeq_bool (qty pv) 0)
      then Z.lxor h (py_hash symbol side (qty pv))
      else h) h sides.
Proof.
  intros Hf. rewrite map_fold_fmap, !map_fold_foldr.
  apply foldr_ext; [|done..]. intros [side pv] a. simpl. by rewrite Hf.
Qed.

Lemma snapshot_hash_sides_flat (symbol : string) (h : Z)
    (sides : gmap PosSide PosVar) :
  (forall side pv, sides !! side = Some pv -> Qeq_bool (qty pv) 0 = true) ->
  map_fold (fun side pv h =>
      if negb (Qeq_bool (qty pv) 0)
      then Z.lxor h (py_hash symbol side (qty pv))
      else h) h sides = h.
Proof.
  apply (map_fold_weak_ind (fun r (m : gmap PosSide PosVar) =>
    (forall side pv, m !! side = Some pv -> Qeq_bool (qty pv) 0 = true) ->
    r = h)); [done|].
  intros side pv m r Hfresh IH Hflat.
  rewrite (Hflat side pv) by apply lookup_insert_eq. simpl.
  apply IH. intros side' pv' Hl. apply (Hflat side').
  rewrite lookup_insert_ne; [done|]. intros <-. congruence.
Qed.

(** X13.  The account hash that decides whether a follower has converged
    reads nothing but the quantities: a change of the other fields of the
    records (prices, leverage, timestamps, state marks) leaves it unchanged,
    and a store in which every quantity is zero hashes to 0, like the empty
    store. *)
Theorem snapshot_hash_reads_qty_only (f : PosVar -> PosVar)
    (pvs : gmap string (gmap PosSide PosVar)) :
  (forall pv, qty (f pv) = qty pv) ->
  snapshot_hash (fmap (M:=gmap string) (fmap (M:=gmap PosSide) f) pvs)
  = snapshot_hash pvs
  /\ (all_pv (fun pv => Qeq_bool (qty pv) 0 = true) pvs ->
      snapshot_hash pvs = 0).
Proof.
  intros Hf. split.
  - unfold snapshot_hash. rewrite map_fold_fmap, !map_fold_foldr.
    apply foldr_ext; [|done..]. intros [symbol sides] h. simpl.
    by apply snapshot_hash_sides_fmap.
  - unfold snapshot_hash.
    apply (map_fold_weak_ind (fun r (m : gmap string (gmap PosSide PosVar)) =>
      all_pv (fun pv => Qeq_bool (qty pv) 0 = true) m -> r = 0)); [done|].
    intros symbol sides m r Hfresh IH Hflat.
    rewrite snapshot_hash_sides_flat.
    + apply IH. intros symbol' sides' side pv Hs Hp.
      apply (Hflat symbol' sides' side pv); [|done].
      rewrite lookup_insert_ne; [done|]. intros <-. congruence.
    + intros side pv Hp.
      apply (Hflat symbol sides side pv); [|done]. apply lookup_insert_eq.
Qed.

(** ** Building the follower's order *)

Lemma qty_invalid_false (q : Q) : qty_invalid q = false -> (0 < q)%Q.
Proof.
  unfold qty_invalid. intros Hq. apply orb_false_iff in Hq as [_ Hle].
  apply Qnot_le_lt. intros Hq. apply Qle_bool_iff in Hq. congruence.
Qed.

Lemma clamp_without_sizing_data (contracts max_margin : Q) (price : option Q)
    (lev : Z) (coef rnd : Q) (spec : SymbolSpec Q) :
  contract_size spec = None \/ vol_unit spec = None
  \/ contract_precision spec = None ->
  _clamp_by_max_margin contracts max_margin price lev coef rnd spec
  = Some contracts.
Proof.
  intros Hspec. unfold _clamp_by_max_margin. simpl.
  destruct price as [price|]; [|done].
  destruct (_ || _ || _); [done|].
  destruct Hspec as [->|[Hs|Hs]].
  - done.
  - rewrite Hs. by destruct (contract_size spec).
  - rewrite Hs. by destruct (contract_size spec), (vol_unit spec).
Qed.


Lemma resolve_first_truthy (a b c : pyval) (fallback : Z) (is_closed : bool) :
  truthy (if is_closed then c else a) = true ->
  resolve is_closed a b c fallback = (if is_closed then c else a).
Proof. unfold resolve, py_or. destruct is_closed; simpl; by intros ->. Qed.

Lemma resolve_fallback (a b c : pyval) (fallback : Z) (is_closed : bool) :
  truthy a = false -> truthy b = false -> truthy c = false ->
  resolve is_closed a b c fallback = PInt fallback.
Proof.
  unfold resolve, py_or. intros -> -> ->. by destruct is_closed.
Qed.

(** X17.  The leverage and the margin mode of a built order. For an opening
    order the follower's own setting wins when it is set; for a closing
    order the value stored with the follower's position wins; when the
    setting, the master's payload and the position record are all empty the
    fallbacks 5 and 2 are used. A non-zero maximum leverage of the
    instrument caps the result. *)
Theorem build_leverage (size_draw delay_draw : Q) (cfg : CopyConfig)
    (mev : MasterEvent) (copy_pv : PosVar) (spec : InstrumentSpec)
    (intent : CopyOrderIntent) (dropped : option DropReason) :
  build size_draw delay_draw cfg mev copy_pv spec
    = Some (Some intent, dropped) ->
  let payload := default ∅ (payload mev) in
  let cap (lev : Z) : Z :=
    match max_leverage spec with
    | Some m => if negb (m =? 0) then Z.min lev m else lev
    | None => lev
    end in
  (forall m, max_leverage spec = Some m -> m <> 0 ->
     intent_leverage intent <= m)
  /\ (closed mev = false -> truthy (cfg_leverage cfg) = true ->
      exists lev, py_int (cfg_leverage cfg) = Some lev
        /\ intent_leverage intent = cap lev)
  /\ (closed mev = false -> truthy (cfg_margin_mode cfg) = true ->
      py_int (cfg_margin_mode cfg) = Some (intent_open_type intent))
  /\ (closed mev = true ->
      forall lev, leverage copy_pv = Some lev -> lev <> 0 ->
        intent_leverage intent = cap lev)
  /\ (closed mev = true ->
      forall mode, margin_mode copy_pv = Some mode -> mode <> 0 ->
        intent_open_type intent = mode)
  /\ (truthy (cfg_leverage cfg) = false ->
      truthy (py_get payload "leverage") = false ->
      truthy (opt_int (leverage copy_pv)) = false ->
      intent_leverage intent = cap FALLBACK_LEVERAGE)
  /\ (truthy (cfg_margin_mode cfg) = false ->
      truthy (py_get payload "open_type") = false ->
      truthy (opt_int (margin_mode copy_pv)) = false ->
      intent_open_type intent = FALLBACK_MARGIN_MODE).
Proof.
  intros Hbuild payload cap. unfold build in Hbuild. fold payload in Hbuild.
  destruct (py_int (resolve _ _ _ _ FALLBACK_LEVERAGE)) as [lev|] eqn:Hlev;
    [|done].
  destruct (py_int (resolve _ _ _ _ FALLBACK_MARGIN_MODE)) as [ot|] eqn:Hot;
    [|done].
  fold (cap lev) in Hbuild.
  assert (Hintent : intent_leverage intent = cap lev
                    /\ intent_open_type intent = ot).
  { destruct (closed mev).
    - destruct (qty_invalid _); [done|]. by injection Hbuild as <- <-.
    - destruct (qty_invalid _); [done|].
      destruct (changing_qty_flag cfg).
      + destruct (_clamp_by_max_margin _ _ _ _ _ _ _) as [q|]; [|done].
        destruct (qty_invalid q); [done|]. by injection Hbuild as <- <-.
      + by injection Hbuild as <- <-. }
  destruct Hintent as [Hl Ho]. rewrite Hl, Ho. clear Hbuild Hl Ho.
  split_and!.
  - intros m Hm Hne. unfold cap. rewrite Hm.
    destruct (Z.eqb_spec m 0); [done|]. simpl. lia.
  - intros Hc Ht. rewrite Hc in Hlev.
    rewrite (resolve_first_truthy _ _ _ _ false) in Hlev by done.
    by exists lev.
  - intros Hc Ht. rewrite Hc in Hot.
    by rewrite (resolve_first_truthy _ _ _ _ false) in Hot by done.
  - intros Hc l Hpv Hne. rewrite Hc, Hpv in Hlev.
    rewrite (resolve_first_truthy _ _ _ _ true) in Hlev.
    + simpl in Hlev. by injection Hlev as <-.
    + simpl. by destruct (Z.eqb_spec l 0).
  - intros Hc m Hpv Hne. rewrite Hc, Hpv in Hot.
    rewrite (resolve_first_truthy _ _ _ _ true) in Hot.
    + simpl in Hot. by injection Hot as <-.
    + simpl. by destruct (Z.eqb_spec m 0).
  - intros H1 H2 H3. rewrite resolve_fallback in Hlev by done.
    simpl in Hlev. by injection Hlev as <-.
  - intros H1 H2 H3. rewrite resolve_fallback in Hot by done.
    simpl in Hot. by injection Hot as <-.
Qed.

(** ** The id ranges typed into the bot *)

Lemma add_id_valid (allow_zero : bool) (result : gset Z) (cid : Z) :
  set_Forall (valid_id allow_zero) result ->
  set_Forall (valid_id allow_zero) (add_id allow_zero result cid).
Proof.
  intros Hall. unfold add_id.
  destruct (Z.eqb_spec cid 0) as [->|Hne].
  - destruct allow_zero eqn:Haz; [|done].
    intros x [->%elem_of_singleton|Hx]%elem_of_union; [|by apply Hall].
    split; [unfold COPY_NUMBER; lia|done].
  - destruct (Z.leb_spec 1 cid); simpl; [|done].
    destruct (Z.leb_spec cid COPY_NUMBER); [|done].
    intros x [->%elem_of_singleton|Hx]%elem_of_union; [|by apply Hall].
    split; [lia|]. intros ->. lia.
Qed.

Lemma fold_add_id_valid (allow_zero : bool) (cids : list Z) (result : gset Z) :
  set_Forall (valid_id allow_zero) result ->
  set_Forall (valid_id allow_zero) (fold_left (add_id allow_zero) cids result).
Proof.
  revert result. induction cids as [|cid cids IH]; intros result Hall; [done|].
  simpl. by apply IH, add_id_valid.
Qed.

Lemma parse_token_valid (allow_zero : bool) (result result' : gset Z)
    (token : string) :
  parse_token allow_zero result token = Some result' ->
  set_Forall (valid_id allow_zero) result ->
  set_Forall (valid_id allow_zero) result'.
Proof.
  unfold parse_token. intros Hparse Hall.
  destruct (String.eqb (py_strip token) ""); [by injection Hparse as <-|].
  destruct (str_contains _ _).
  - destruct (split_first _ _) as [[a_str b_str]|]; simpl in Hparse; [|done].
    destruct (int_of_str a_str) as [a|]; simpl in Hparse; [|done].
    destruct (int_of_str b_str) as [b|]; simpl in Hparse; [|done].
    injection Hparse as <-. by apply fold_add_id_valid.
  - destruct (int_of_str _) as [cid|]; simpl in Hparse; [|done].
    injection Hparse as <-. by apply add_id_valid.
Qed.

Lemma parse_tokens_valid (allow_zero : bool) (tokens : list string)
    (result result' : gset Z) :
  parse_tokens allow_zero result tokens = Some result' ->
  set_Forall (valid_id allow_zero) result ->
  set_Forall (valid_id allow_zero) result'.
Proof.
  revert result. induction tokens as [|token tokens IH]; intros result; simpl.
  - by intros [= <-].
  - destruct (parse_token allow_zero result token) as [r|] eqn:Htok;
      simpl; [|done].
    intros Hrest Hall. apply (IH r); [done|].
    by apply (parse_token_valid allow_zero result r token).
Qed.

Lemma sorted_nodup_strict (l : list Z) :
  StronglySorted Z.le l -> NoDup l -> StronglySorted Z.lt l.
Proof.
  induction 1 as [|x l Hl IH Hx]; intros Hnd; [constructor|].
  apply NoDup_cons in Hnd as [Hnotin Hnd].
  constructor; [by apply IH|].
  apply Forall_forall. intros y Hy.
  assert (x <= y) by (by eapply Forall_forall in Hx).
  assert (x <> y) by (intros ->; done). lia.
Qed.

Lemma parse_id_range_valid (raw : string) (allow_zero : bool)
    (ids : list Z) :
  parse_id_range raw allow_zero = Some ids ->
  ids <> []
  /\ StronglySorted Z.lt ids
  /\ NoDup ids
  /\ Forall (valid_id allow_zero) ids.
Proof.
  unfold parse_id_range. intros Hparse.
  destruct (_ || _); [done|]. destruct (str_contains _ _); [done|].
  destruct (parse_tokens _ _ _) as [result|] eqn:Htokens; simpl in Hparse;
    [|done].
  destruct (decide (result = ∅)) as [->|Hne].
  { by rewrite bool_decide_eq_true_2 in Hparse. }
  rewrite bool_decide_eq_false_2 in Hparse by done.
  injection Hparse as <-.
  assert (Hperm : merge_sort Z.le (elements result) ≡ₚ elements result)
    by apply merge_sort_Permutation.
  assert (Hnd : NoDup (merge_sort Z.le (elements result))).
  { rewrite Hperm. apply NoDup_elements. }
  split_and!.
  - intros Hnil. rewrite Hnil in Hperm.
    apply Permutation_nil_l in Hperm. apply Hne.
    apply leibniz_equiv, elements_empty_iff. done.
  - apply sorted_nodup_strict; [|done].
    apply StronglySorted_merge_sort; apply _.
  - done.
  - apply Forall_forall. intros cid Hcid.
    rewrite Hperm in Hcid. apply elem_of_elements in Hcid.
    apply (parse_tokens_valid _ _ _ _ Htokens); [|done].
    intros x Hx. by apply elem_of_empty in Hx.
Qed.

(** X24.  What the parser of id lists hands to the commands: a non-empty
    list, strictly increasing and so without repetition, of ids between 0
    and COPY_NUMBER, with 0 only when the caller allows the master id. *)
Theorem parse_id_range_sound (raw : string) (allow_zero : bool)
    (ids : list Z) :
  parse_id_range raw allow_zero = Some ids ->
  ids <> []
  /\ StronglySorted Z.lt ids
  /\ NoDup ids
  /\ Forall (fun cid =>
       0 <= cid <= COPY_NUMBER /\ (cid = 0 -> allow_zero = true)) ids.
Proof. apply parse_id_range_valid. Qed.

Lemma filter_all {A} (f : A -> bool) (l : list A) :
  Forall (fun x => f x = true) l -> List.filter f l = l.
Proof.
  induction 1 as [|x l Hx _ IH]; [done|]. simpl. by rewrite Hx, IH.
Qed.

(** X25.  The Close button end to end: the ids parsed from the text (the
    master id 0 not allowed) are taken as they are, none is filtered away,
    so the command ids are a duplicate-free list of follower ids between 1
    and COPY_NUMBER, and one synthetic manual close is queued when a
    translator is attached and the bot is not stopping. *)
Theorem close_button_ids (raw : string) (ids : list Z) (now : Z)
    (mc : MainContext) :
  parse_id_range raw false = Some ids ->
  master_payload mc = true ->
  exists (mc' : MainContext) (mev : MasterEvent),
    on_close false now mc ids = (mc', Some mev)
    /\ cmd_ids mc' = ids
    /\ NoDup (cmd_ids mc')
    /\ Forall (fun cid => 1 <= cid <= COPY_NUMBER) (cmd_ids mc')
    /\ sig_type mev = manual /\ closed mev = true /\ ts mev = now
    /\ copy_runtime_states mc' = copy_runtime_states mc.
Proof.
  intros Hparse Hpayload.
  destruct (parse_id_range_valid raw false ids Hparse)
    as (Hne & _ & Hnd & Hvalid).
  assert (Hpos : Forall (fun cid => 1 <= cid <= COPY_NUMBER) ids).
  { eapply Forall_impl; [exact Hvalid|]. intros cid [Hr Hz].
    destruct (decide (cid = 0)) as [->|]; [by specialize (Hz eq_refl)|lia]. }
  assert (Hfilter : List.filter (fun cid => negb (cid =? 0)) ids = ids).
  { apply filter_all. eapply Forall_impl; [exact Hpos|]. simpl.
    intros cid Hc. destruct (Z.eqb_spec cid 0); [lia|done]. }
  unfold on_close. rewrite Hfilter.
  destruct ids as [|cid ids]; [done|]. simpl. rewrite Hpayload.
  eexists _, _. split; [reflexivity|]. done.
Qed.

Lemma qty_invalid_pos (q : Q) : (0 < q)%Q -> qty_invalid q = false.
Proof.
  intros Hq. unfold qty_invalid. apply orb_false_iff. split.
  - destruct (Qeq_bool q 0) eqn:He; [|done].
    apply Qeq_bool_iff in He. rewrite He in Hq. by apply Qlt_irrefl in Hq.
  - destruct (Qle_bool q 0) eqn:Hle; [|done].
    apply Qle_bool_iff in Hle. exfalso. by apply (Qlt_not_le _ _ Hq).
Qed.

Lemma close_executor_first_call client now cid mev intent st :
  exists rest,
    run_calls (close_executor_ client now cid mev intent st)
    = run_calls st ++
      MakeOrder (intent_symbol intent) (intent_contracts intent)
        (intent_side intent) (intent_position_side intent)
        (intent_leverage intent) (intent_open_type intent)
        None None None market :: rest.
Proof.
  unfold close_executor_.
  destruct (negb (succeeded _)); [by exists []|].
  destruct (sig_type mev); [by exists []|].
  destruct (copy_ids (sr_limit _)) as [|l ls],
           (copy_ids (sr_trigger _)) as [|t ts];
    try (by exists []);
    (destruct (succeeded _); simpl; rewrite <- app_assoc; by eexists).
Qed.

(** X23.  A manual close, from the expanded event to the exchange. For the
    event the dispatcher builds from a follower record holding a positive
    quantity, the order built is never dropped for its size; it is a market
    SELL on the record's symbol and side for exactly the record's quantity,
    whatever sizing options the follower has, without delay and without
    prices, and it is the first request the close executor sends. When the
    record holds a leverage and a margin mode they are the ones used (the
    leverage capped by the instrument's maximum). *)
Theorem manual_close_request (size_draw delay_draw : Q) (cfg : CopyConfig)
    (mev : MasterEvent) (cid : Z) (symbol : string) (side : PosSide)
    (pv : PosVar) (spec : InstrumentSpec) :
  (0 < qty pv)%Q ->
  let sub := close_event mev cid symbol side pv in
  exists r,
    build size_draw delay_draw cfg sub pv spec = Some r
    /\ r.2 = None
    /\ (forall intent, r.1 = Some intent ->
        intent_symbol intent = symbol
        /\ intent_position_side intent = Some side
        /\ intent_side intent = SELL
        /\ intent_method intent = market
        /\ intent_contracts intent = qty pv
        /\ intent_delay_ms intent = 0
        /\ intent_price intent = None
        /\ intent_trigger_price intent = None
        /\ intent_sl_price intent = None
        /\ intent_tp_price intent = None
        /\ forall client now st,
             exists rest,
               run_calls (close_executor_ client now cid sub intent st)
               = run_calls st ++
                 MakeOrder symbol (qty pv) SELL (Some side)
                   (intent_leverage intent) (intent_open_type intent)
                   None None None market :: rest)
    /\ (forall lev mode,
          leverage pv = Some lev -> lev <> 0 ->
          margin_mode pv = Some mode -> mode <> 0 ->
          exists intent,
            r.1 = Some intent
            /\ intent_open_type intent = mode
            /\ intent_leverage intent
               = match max_leverage spec with
                 | Some m => if negb (m =? 0) then Z.min lev m else lev
                 | None => lev
                 end).
Proof.
  intros Hqty sub.
  assert (Hq : qty_invalid
                 (if negb (changing_qty_flag cfg)
                  then safe_float (PFloat (qty pv)) 0 else qty pv) = false).
  { destruct (negb (changing_qty_flag cfg)); by apply qty_invalid_pos. }
  unfold build. simpl closed. simpl payload. cbn [default].
  change (py_get _ "qty") with (PFloat (qty pv)).
  change (py_get _ "leverage") with (opt_int (leverage pv)).
  change (py_get _ "open_type") with (opt_int (margin_mode pv)).
  change (py_get _ "price") with PNone.
  destruct (py_int (resolve true _ _ _ FALLBACK_LEVERAGE)) as [lev|] eqn:Hlev.
  2:{ eexists; split; [reflexivity|]. split; [done|]. split; [done|].
      intros l m Hl Hne Hm Hne'. rewrite Hl in Hlev.
      rewrite (resolve_first_truthy _ _ _ _ true) in Hlev; [done|].
      simpl. by destruct (Z.eqb_spec l 0). }
  destruct (py_int (resolve true _ _ _ FALLBACK_MARGIN_MODE)) as [ot|] eqn:Hot.
  2:{ eexists; split; [reflexivity|]. split; [done|]. split; [done|].
      intros l m Hl Hne Hm Hne'. rewrite Hm in Hot.
      rewrite (resolve_first_truthy _ _ _ _ true) in Hot; [done|].
      simpl. by destruct (Z.eqb_spec m 0). }
  rewrite Hq.
  eexists; split; [reflexivity|]. split; [done|]. split.
  - intros intent [= <-]. simpl.
    split_and!; try done.
    + by destruct (negb (changing_qty_flag cfg)).
    + intros client now st.
      destruct (close_executor_first_call client now cid sub
                  {| intent_symbol := symbol; intent_side := SELL;
                     intent_position_side := Some side;
                     intent_contracts :=
                       if negb (changing_qty_flag cfg)
                       then safe_float (PFloat (qty pv)) 0 else qty pv;
                     intent_method := market;
                     intent_leverage :=
                       match max_leverage spec with
                       | Some m => if negb (m =? 0) then Z.min lev m else lev
                       | None => lev
                       end;
                     intent_open_type := ot;
                     intent_price := None; intent_trigger_price := None;
                     intent_sl_price := None; intent_tp_price := None;
                     intent_delay_ms := 0 |} st) as [rest Hrest].
      exists rest. rewrite Hrest. simpl.
      by destruct (negb (changing_qty_flag cfg)).
  - intros l m Hl Hne Hm Hne'. eexists. split; [reflexivity|]. simpl.
    rewrite Hl in Hlev. rewrite Hm in Hot.
    rewrite (resolve_first_truthy _ _ _ _ true) in Hlev
      by (simpl; by destruct (Z.eqb_spec l 0)).
    rewrite (resolve_first_truthy _ _ _ _ true) in Hot
      by (simpl; by destruct (Z.eqb_spec m 0)).
    simpl in Hlev, Hot. injection Hlev as <-. injection Hot as <-. done.
Qed.

End Relay.

(** ** The cancel path of the executor *)

Lemma filter_idem {A} (f : A -> bool) (l : list A) :
  List.filter f (List.filter f l) = List.filter f l.
Proof.
  induction l as [|x l IH]; [done|]. simpl.
  destruct (f x) eqn:Hx; simpl; [|done]. by rewrite Hx, IH.
Qed.

Lemma pydict_del_idem {V} (k : pyval) (d : pydict V) :
  pydict_del k (pydict_del k d) = pydict_del k d.
Proof. apply filter_idem. Qed.

Lemma pydict_get_del {V} (k : pyval) (d : pydict V) :
  pydict_get k (pydict_del k d) = None.
Proof.
  unfold pydict_get, pydict_del. induction d as [|[k' v] d IH]; [done|].
  simpl. destruct (py_eq k k') eqn:Hk; simpl; [done|]. by rewrite Hk.
Qed.

(** Whatever the state, a processing that finds no entry for the master
    order id logs the miss, calls nothing and changes nothing. *)
Lemma cancel_miss (client : ApiCall -> bool) (cid : Z) (mev : MasterEvent)
    (p : gmap string pyval) (st : ExecState) :
  payload mev = Some p ->
  truthy (py_get p "order_id") = true ->
  method mev = limit \/ method mev = trigger ->
  (forall d, method_root (method mev) (side_root st) = Some d ->
             pydict_get (py_get p "order_id") d = None
             /\ pydict_del (py_get p "order_id") d = d) ->
  cancel_executor_ client cid mev st
  = Some (exec_logged st cid
            (CancelMiss (method mev) (symbol mev) (pos_side mev)
               (py_get p "order_id"))).
Proof.
  intros Hp Hoid Hm Hnone. unfold cancel_executor_. rewrite Hp, Hoid. simpl.
  destruct st as [[lim trg] lg calls]. simpl in *.
  destruct Hm as [Hm|Hm]; rewrite Hm in *; simpl in *.
  - destruct lim as [d|]; simpl.
    + destruct (Hnone d eq_refl) as [Hget Hdel]. by rewrite Hget, Hdel.
    + done.
  - destruct trg as [d|]; simpl.
    + destruct (Hnone d eq_refl) as [Hget Hdel]. by rewrite Hget, Hdel.
    + done.
Qed.

(** C7 (amended).  When [orders_vars] holds, under the event's method
    (limit or trigger), an entry for the master order_id with a truthy
    copy_order_id, processing the same canceled MasterEvent twice issues
    exactly one exchange cancel call: the first processing pops the entry
    and issues the cancel; the second finds no entry, logs a CANCEL MISS
    line, issues no API call and leaves [orders_vars] unchanged. *)
Theorem C7_cancel_idempotence (client1 client2 : ApiCall -> bool) (cid : Z)
    (mev : MasterEvent) (p : gmap string pyval) (st : ExecState)
    (d : pydict OrderRec) (rec : OrderRec) :
  payload mev = Some p ->
  truthy (py_get p "order_id") = true ->
  method mev = limit \/ method mev = trigger ->
  method_root (method mev) (side_root st) = Some d ->
  pydict_get (py_get p "order_id") d = Some rec ->
  truthy (copy_order_id rec) = true ->
  let master_oid := py_get p "order_id" in
  exists st1 st2 : ExecState,
    cancel_executor_ client1 cid mev st = Some st1
    /\ cancel_executor_ client2 cid mev st1 = Some st2
    /\ api_calls st1
       = api_calls st ++ [cancel_call (method mev) (copy_order_id rec) (symbol mev)]
    /\ method_root (method mev) (side_root st1) = Some (pydict_del master_oid d)
    /\ pydict_get master_oid (pydict_del master_oid d) = None
    /\ api_calls st2 = api_calls st1
    /\ side_root st2 = side_root st1
    /\ exec_log st2
       = exec_log st1 ++
         [(cid, CancelMiss (method mev) (symbol mev) (pos_side mev) master_oid)].
Proof.
  intros Hp Hoid Hm Hroot Hget Hcopy master_oid.
  assert (Hfirst : exists st1,
    cancel_executor_ client1 cid mev st = Some st1
    /\ api_calls st1
       = api_calls st ++ [cancel_call (method mev) (copy_order_id rec) (symbol mev)]
    /\ method_root (method mev) (side_root st1) = Some (pydict_del master_oid d)).
  { unfold cancel_executor_. rewrite Hp, Hoid. simpl.
    destruct st as [[lim trg] lg calls]. simpl in *.
    destruct Hm as [Hm|Hm]; rewrite Hm in *; simpl in *; subst;
      simpl; rewrite Hget, Hcopy; simpl; eexists; (split; [reflexivity|]);
      simpl; done. }
  destruct Hfirst as (st1 & Hst1 & Hcalls & Hroot1).
  assert (Hsecond : cancel_executor_ client2 cid mev st1
    = Some (exec_logged st1 cid
              (CancelMiss (method mev) (symbol mev) (pos_side mev) master_oid))).
  { apply cancel_miss; [done..|].
    intros d1 Hd1. rewrite Hroot1 in Hd1. injection Hd1 as <-.
    split; [apply pydict_get_del|apply pydict_del_idem]. }
  exists st1, (exec_logged st1 cid
    (CancelMiss (method mev) (symbol mev) (pos_side mev) master_oid)).
  repeat split; try done. apply pydict_get_del.
Qed.

(** ** Manual close *)

Lemma is_open_spec (pv : PosVar) :
  is_open pv = true <-> in_position pv = true /\ (0 < qty pv)%Q.
Proof.
  unfold is_open. rewrite !andb_true_iff, !negb_true_iff. split.
  - intros [[Hin _] Hle]. split; [done|].
    apply Qnot_le_lt. intros H. apply Qle_bool_iff in H. congruence.
  - intros [Hin Hpos]. repeat split; [done| |].
    + destruct (Qeq_bool (qty pv) 0) eqn:E; [|done].
      apply Qeq_bool_iff in E. rewrite E in Hpos. by apply Qlt_irrefl in Hpos.
    + destruct (Qle_bool (qty pv) 0) eqn:E; [|done].
      apply Qle_bool_iff in E. exfalso. by apply (Qlt_not_le _ _ Hpos).
Qed.

Lemma filter_bind {A B} (f : B -> bool) (g : A -> list B) (l : list A) :
  List.filter f (l ≫= g) = l ≫= (fun a => List.filter f (g a)).
Proof.
  induction l as [|a l IH]; [done|].
  change (List.filter f (g a ++ (l ≫= g))
          = List.filter f (g a) ++ (l ≫= fun a => List.filter f (g a))).
  by rewrite List.filter_app, IH.
Qed.

Lemma bind_nil {A B} (g : A -> list B) (l : list A) :
  (forall a, a ∈ l -> g a = []) -> l ≫= g = [].
Proof.
  induction l as [|a l IH]; [done|]. intros Hg.
  change (g a ++ (l ≫= g) = []).
  rewrite (Hg a) by constructor. apply IH. intros b Hb. apply Hg. by constructor.
Qed.

Lemma bind_single {A B} (g : A -> list B) (l : list A) (a : A) :
  NoDup l -> a ∈ l -> (forall b, b ∈ l -> b <> a -> g b = []) ->
  l ≫= g = g a.
Proof.
  induction 1 as [|x l Hx Hnd IH]; [by intros ?%not_elem_of_nil|].
  intros Ha Hg. change (g x ++ (l ≫= g) = g a).
  apply elem_of_cons in Ha as [<-|Ha].
  - rewrite (bind_nil g l), app_nil_r; [done|].
    intros b Hb. apply Hg; [by constructor|]. intros ->. done.
  - rewrite (Hg x); [|by constructor|by intros ->]. simpl.
    apply IH; [done|]. intros b Hb. apply Hg. by constructor.
Qed.

Lemma closes_close_event mev cid symbol side pv cid' symbol' side' :
  closes cid symbol side (close_event mev cid' symbol' side' pv)
  = bool_decide (cid' = cid /\ symbol' = symbol /\ side' = side).
Proof.
  unfold closes, close_event. simpl.
  destruct (decide (cid' = cid /\ symbol' = symbol /\ side' = side)) as [H|H].
  - rewrite (bool_decide_eq_true_2 _ H). destruct H as (-> & -> & ->).
    by rewrite !bool_decide_eq_true_2, String.eqb_refl.
  - rewrite (bool_decide_eq_false_2 _ H).
    match goal with |- ?b = false => destruct b eqn:E end; [|done].
    exfalso. apply H.
    apply andb_true_iff in E as [E Hside].
    apply andb_true_iff in E as [Hcid Hsym].
    apply bool_decide_eq_true in Hcid, Hside. apply String.eqb_eq in Hsym.
    split; [congruence|]. split; [done|congruence].
Qed.

(** The events one follower's runtime expands to, seen through the filter
    of one (symbol, side): one event if that position is open, none
    otherwise. *)
Lemma expand_runtime_closes mev cid rt cid' symbol side :
  List.filter (closes cid symbol side) (expand_runtime mev cid' rt)
  = if bool_decide (cid' = cid) then
      match position_vars rt !! symbol ≫= (.!! side) with
      | Some pv =>
          if is_open pv then [close_event mev cid symbol side pv] else []
      | None => []
      end
    else [].
Proof.
  unfold expand_runtime. rewrite filter_bind.
  assert (Hsides : forall sym sides,
    List.filter (closes cid symbol side) (expand_sides mev cid' sym sides)
    = if bool_decide (cid' = cid /\ sym = symbol) then
        match sides !! side with
        | Some pv =>
            if is_open pv then [close_event mev cid symbol side pv] else []
        | None => []
        end
      else []).
  { intros sym sides. unfold expand_sides. rewrite filter_bind.
    assert (Hone : forall ps pv,
      List.filter (closes cid symbol side)
        (if is_open pv then [close_event mev cid' sym ps pv] else [])
      = if bool_decide (cid' = cid /\ sym = symbol /\ ps = side)
        then (if is_open pv then [close_event mev cid' sym ps pv] else [])
        else []).
    { intros ps pv. destruct (is_open pv); simpl.
      - rewrite closes_close_event. by case_bool_decide.
      - by case_bool_decide. }
    case_bool_decide as Hcs.
    - destruct Hcs as [-> ->].
      destruct (sides !! side) as [pv|] eqn:Hside.
      + rewrite (bind_single _ _ (side, pv)).
        * rewrite Hone. by rewrite bool_decide_eq_true_2.
        * apply NoDup_map_to_list.
        * by apply elem_of_map_to_list.
        * intros [ps pv'] Hin Hne. rewrite Hone.
          rewrite bool_decide_eq_false_2; [done|].
          intros (_ & _ & ->). apply elem_of_map_to_list in Hin. congruence.
      + apply bind_nil. intros [ps pv'] Hin. rewrite Hone.
        rewrite bool_decide_eq_false_2; [done|].
        intros (_ & _ & ->). apply elem_of_map_to_list in Hin. congruence.
    - apply bind_nil. intros [ps pv'] Hin. rewrite Hone.
      rewrite bool_decide_eq_false_2; [done|]. intros (? & ? & _). by apply Hcs. }
  case_bool_decide as Hc.
  - subst cid'. destruct (position_vars rt !! symbol) as [sides|] eqn:Hsym; simpl.
    + rewrite (bind_single _ _ (symbol, sides)).
      * rewrite Hsides. by rewrite bool_decide_eq_true_2.
      * apply NoDup_map_to_list.
      * by apply elem_of_map_to_list.
      * intros [sym sides'] Hin Hne. rewrite Hsides.
        rewrite bool_decide_eq_false_2; [done|].
        intros [_ ->]. apply elem_of_map_to_list in Hin. congruence.
    + apply bind_nil. intros [sym sides'] Hin. rewrite Hsides.
      rewrite bool_decide_eq_false_2; [done|].
      intros [_ ->]. apply elem_of_map_to_list in Hin. congruence.
  - apply bind_nil. intros [sym sides'] Hin. rewrite Hsides.
    rewrite bool_decide_eq_false_2; [done|]. intros [? _]. by apply Hc.
Qed.

Lemma on_close_queued stop_flag now mc ids mc' mev :
  on_close stop_flag now mc ids = (mc', Some mev) ->
  cmd_ids mc' = List.filter (fun cid => negb (cid =? 0)) ids
  /\ copy_runtime_states mc' = copy_runtime_states mc
  /\ mev = {| event := sell; method := market; symbol := "ALL OPENED SYMBOLS";
              pos_side := None; closed := true; payload := None;
              sig_type := manual; ts := now; _cid := None |}.
Proof.
  unfold on_close. destruct stop_flag; [discriminate|].
  destruct (List.filter _ ids) as [|c l] eqn:Hf; [discriminate|]. simpl.
  destruct (master_payload mc); [|discriminate].
  by intros [= <- <-].
Qed.

Lemma filter_nonzero_spec (ids : list Z) (cid : Z) :
  cid ∈ List.filter (fun cid => negb (cid =? 0)) ids <-> cid ∈ ids /\ cid <> 0.
Proof.
  rewrite !list_elem_of_In, filter_In, negb_true_iff, Z.eqb_neq. tauto.
Qed.

Lemma expand_closes mc mev cid symbol side :
  NoDup (cmd_ids mc) ->
  List.filter (closes cid symbol side) (_expand_manual_close mc mev)
  = if bool_decide (cid ∈ cmd_ids mc) then
      match ensure_copy_state mc cid with
      | Some rt =>
          match position_vars rt !! symbol ≫= (.!! side) with
          | Some pv =>
              if is_open pv then [close_event mev cid symbol side pv] else []
          | None => []
          end
      | None => []
      end
    else [].
Proof.
  intros Hnd. unfold _expand_manual_close. rewrite filter_bind.
  assert (Hother : forall c, c <> cid ->
    List.filter (closes cid symbol side)
      match ensure_copy_state mc c with
      | Some rt => expand_runtime mev c rt
      | None => []
      end = []).
  { intros c Hc. destruct (ensure_copy_state mc c) as [rt|]; [|done].
    rewrite expand_runtime_closes. by rewrite bool_decide_eq_false_2. }
  destruct (decide (cid ∈ cmd_ids mc)) as [Hin|Hout].
  - rewrite (bool_decide_eq_true_2 _ Hin).
    rewrite (bind_single _ _ cid Hnd Hin).
    + destruct (ensure_copy_state mc cid) as [rt|]; [|done].
      rewrite expand_runtime_closes. by rewrite bool_decide_eq_true_2.
    + intros c _ Hc. by apply Hother.
  - rewrite (bool_decide_eq_false_2 _ Hout).
    apply bind_nil. intros c Hc. apply Hother. by intros ->.
Qed.

(** C3.  A manual-close request over distinct follower ids: the master id
    0 is filtered out before the synthetic event is built, and the
    dispatcher expands that event into exactly one MasterEvent per
    (follower, symbol, pos_side) of a requested follower whose record has
    in_position = true and qty > 0 -- with sig_type manual, closed true,
    [_cid] bound to the follower and payload
    {qty, reduce_only:true, leverage, open_type} taken from the record --
    and into nothing else. *)
Theorem C3_manual_close_expansion (stop_flag : bool) (now : Z)
    (mc mc' : MainContext) (ids : list Z) (mev : MasterEvent) :
  NoDup ids ->
  on_close stop_flag now mc ids = (mc', Some mev) ->
  let events := _expand_manual_close mc' mev in
  let pv_of cid symbol side :=
    ensure_copy_state mc' cid
    ≫= (fun rt => position_vars rt !! symbol ≫= (.!! side)) in
  (cmd_ids mc' = List.filter (fun cid => negb (cid =? 0)) ids
   /\ (0 ∉ cmd_ids mc')
   /\ sig_type mev = manual /\ closed mev = true)
  /\ (forall cid symbol side pv,
        cid ∈ ids -> cid <> 0 ->
        pv_of cid symbol side = Some pv ->
        in_position pv = true -> (0 < qty pv)%Q ->
        List.filter (closes cid symbol side) events
        = [ {| event := sell; method := market; symbol := symbol;
               pos_side := Some side; closed := true;
               payload := Some (list_to_map
                 [ ("qty", PFloat (qty pv)); ("reduce_only", PBool true);
                   ("leverage", opt_int (leverage pv));
                   ("open_type", opt_int (margin_mode pv)) ]);
               sig_type := manual; ts := ts mev; _cid := Some cid |} ])
  /\ (forall cid symbol side pv,
        pv_of cid symbol side = Some pv ->
        in_position pv = false \/ (qty pv <= 0)%Q ->
        List.filter (closes cid symbol side) events = [])
  /\ (forall e, e ∈ events ->
        exists cid symbol side pv,
          cid ∈ ids /\ cid <> 0
          /\ pv_of cid symbol side = Some pv
          /\ in_position pv = true /\ (0 < qty pv)%Q
          /\ e = close_event mev cid symbol side pv).
Proof.
  intros Hnd Hclose events pv_of.
  destruct (on_close_queued _ _ _ _ _ _ Hclose) as (Hids & Hrt & Hmev).
  assert (Hnd' : NoDup (cmd_ids mc')).
  { rewrite Hids. apply NoDup_ListNoDup, List.NoDup_filter.
    by apply NoDup_ListNoDup. }
  split; [|split; [|split]].
  - split; [done|]. split.
    + rewrite Hids, filter_nonzero_spec. by intros [_ ?].
    + by rewrite Hmev.
  - intros cid symbol side pv Hin Hne Hpv Hpos Hqty.
    unfold events. rewrite (expand_closes _ _ _ _ _ Hnd').
    rewrite bool_decide_eq_true_2 by (rewrite Hids; by apply filter_nonzero_spec).
    unfold pv_of in Hpv. destruct (ensure_copy_state mc' cid) as [rt|]; [|done].
    simpl in Hpv. rewrite Hpv.
    by rewrite (proj2 (is_open_spec pv) (conj Hpos Hqty)).
  - intros cid symbol side pv Hpv Hclosed.
    unfold events. rewrite (expand_closes _ _ _ _ _ Hnd').
    case_bool_decide; [|done].
    unfold pv_of in Hpv. destruct (ensure_copy_state mc' cid) as [rt|]; [|done].
    simpl in Hpv. rewrite Hpv.
    destruct (is_open pv) eqn:Hopen; [|done].
    apply is_open_spec in Hopen as [Hpos Hqty].
    destruct Hclosed as [Hf|Hle]; [congruence|].
    exfalso. by apply (Qlt_not_le _ _ Hqty).
  - intros e He. unfold events, _expand_manual_close in He.
    apply list_elem_of_bind in He as (cid & He & Hcid).
    rewrite Hids in Hcid. apply filter_nonzero_spec in Hcid as [Hin Hne].
    destruct (ensure_copy_state mc' cid) as [rt|] eqn:Hrt';
      [|by apply not_elem_of_nil in He].
    unfold expand_runtime in He.
    apply list_elem_of_bind in He as ([symbol sides] & He & Hsym).
    unfold expand_sides in He.
    apply list_elem_of_bind in He as ([side pv] & He & Hside).
    apply elem_of_map_to_list in Hsym, Hside.
    destruct (is_open pv) eqn:Hopen; [|by apply not_elem_of_nil in He].
    apply list_elem_of_singleton in He.
    apply is_open_spec in Hopen as [Hpos Hqty].
    exists cid, symbol, side, pv. repeat split; try done.
    unfold pv_of. rewrite Hrt'. simpl. by rewrite Hsym.
Qed.

(** ** Monotonicity of the clamp, in exact arithmetic *)

Local Open Scope Q_scope.

Lemma round_half_even_bounds (q : Q) :
  (Qfloor q <= round_half_even q <= Qfloor q + 1)%Z.
Proof.
  unfold round_half_even.
  destruct (q - inject_Z (Qfloor q) ?= 1 # 2); [destruct (Z.even _)|..]; lia.
Qed.

Lemma round_half_even_mono (a b : Q) :
  a <= b -> (round_half_even a <= round_half_even b)%Z.
Proof.
  intros Hab. pose proof (Qfloor_resp_le a b Hab) as Hf.
  pose proof (round_half_even_bounds a) as Ha.
  pose proof (round_half_even_bounds b) as Hb.
  destruct (Z.eq_dec (Qfloor a) (Qfloor b)) as [Heq|Hne]; [|lia].
  clear Ha Hb. unfold round_half_even. rewrite <- Heq.
  destruct (Qcompare_spec (a - inject_Z (Qfloor a)) (1 # 2)) as [Ea|Ea|Ea];
    destruct (Qcompare_spec (b - inject_Z (Qfloor a)) (1 # 2)) as [Eb|Eb|Eb];
    try (destruct (Z.even (Qfloor a))); try lia; exfalso; lra.
Qed.

Lemma round_half_even_zero : round_half_even 0 = 0%Z.
Proof. reflexivity. Qed.

Lemma pow10_pos (n : Z) : (0 <= n)%Z -> 0 < inject_Z (10 ^ n).
Proof.
  intros Hn. change 0 with (inject_Z 0). rewrite <- Zlt_Qlt.
  by apply Z.pow_pos_nonneg.
Qed.

Lemma Qdiv_le_pos (a b c : Q) : a <= b -> 0 < c -> a / c <= b / c.
Proof.
  intros Hab Hc. apply Qmult_le_compat_r; [done|].
  apply Qinv_le_0_compat. lra.
Qed.

Lemma Qdiv_le_neg (a b c : Q) : a <= b -> c < 0 -> b / c <= a / c.
Proof.
  intros Hab Hc.
  assert (H : a / - c <= b / - c) by (apply Qdiv_le_pos; lra).
  assert (Ha : a / - c == - (a / c)) by (field; lra).
  assert (Hb : b / - c == - (b / c)) by (field; lra).
  rewrite Ha, Hb in H. lra.
Qed.

Lemma Qround_ndigits_mono (a b : Q) (n : Z) :
  a <= b -> Qround_ndigits a n <= Qround_ndigits b n.
Proof.
  intros Hab. unfold Qround_ndigits. destruct (Z.leb_spec 0 n) as [Hn|Hn].
  - pose proof (pow10_pos n Hn) as Hs.
    apply Qdiv_le_pos; [|done]. rewrite <- Zle_Qle.
    apply round_half_even_mono. nra.
  - pose proof (pow10_pos (- n) ltac:(lia)) as Hs.
    apply Qmult_le_compat_r; [|lra]. rewrite <- Zle_Qle.
    apply round_half_even_mono. by apply Qdiv_le_pos.
Qed.

Lemma round_half_even_of_zero (q : Q) : q == 0 -> round_half_even q = 0%Z.
Proof.
  intros Hq.
  pose proof (round_half_even_mono q 0 ltac:(lra)) as H1.
  pose proof (round_half_even_mono 0 q ltac:(lra)) as H2.
  rewrite round_half_even_zero in H1, H2. lia.
Qed.

Lemma Qround_ndigits_nonpos (a : Q) (n : Z) : a <= 0 -> Qround_ndigits a n <= 0.
Proof.
  intros Ha. apply (Qle_trans _ (Qround_ndigits 0 n));
    [by apply Qround_ndigits_mono|].
  unfold Qround_ndigits. destruct (Z.leb_spec 0 n) as [Hn|Hn].
  - rewrite round_half_even_of_zero by lra.
    change (inject_Z 0) with 0. unfold Qdiv. lra.
  - rewrite round_half_even_of_zero by (unfold Qdiv; lra).
    change (inject_Z 0) with 0. lra.
Qed.

Lemma grid_mono (a b vu : Q) : ~ vu == 0 -> a <= b -> grid a vu <= grid b vu.
Proof.
  intros Hvu Hab. unfold grid.
  destruct (Qlt_le_dec 0 vu) as [Hpos|Hneg].
  - apply Qmult_le_compat_r; [|lra]. rewrite <- Zle_Qle.
    apply Qfloor_resp_le. by apply Qdiv_le_pos.
  - assert (Hlt : vu < 0) by (apply Qle_lteq in Hneg as [?|?]; [done|]; lra).
    assert (Hf : inject_Z (Qfloor (b / vu)) <= inject_Z (Qfloor (a / vu))).
    { rewrite <- Zle_Qle. apply Qfloor_resp_le. by apply Qdiv_le_neg. }
    nra.
Qed.

Lemma grid_nonpos (c vu : Q) : ~ vu == 0 -> c <= 0 -> grid c vu <= 0.
Proof.
  intros Hvu Hc. apply (Qle_trans _ (grid 0 vu)); [by apply grid_mono|].
  unfold grid. assert (E : 0 / vu == 0) by (unfold Qdiv; lra).
  rewrite (Qfloor_comp _ _ E). change (inject_Z (Qfloor 0)) with 0. lra.
Qed.

Lemma snap_contracts_exact margin price lev cs vu prec :
  snap_contracts margin price lev cs vu prec
  = Some (snapped margin price lev cs vu prec).
Proof.
  unfold snap_contracts, snapped, grid.
  unfold f_div, f_mul, f_of_Z, f_floor, f_round, f_isfinite, f_leb, exactQ.
  cbn [negb orb]. change (inject_Z 0) with 0.
  by destruct (Qle_bool _ 0).
Qed.

Lemma snapped_mono (a b price : Q) (lev : Z) (cs vu : Q) (prec : Z) :
  0 < price -> (0 < lev)%Z -> ~ cs == 0 -> ~ vu == 0 ->
  0 <= a -> a <= b ->
  snapped a price lev cs vu prec <= snapped b price lev cs vu prec.
Proof.
  intros Hp Hl Hcs Hvu Ha Hab.
  assert (Hlev : 0 < inject_Z lev).
  { change 0 with (inject_Z 0). by rewrite <- Zlt_Qlt. }
  assert (Hbase : a * inject_Z lev / price <= b * inject_Z lev / price).
  { apply Qdiv_le_pos; [nra|done]. }
  assert (Hbase0 : 0 <= a * inject_Z lev / price).
  { apply Qle_shift_div_l; [done|]. nra. }
  unfold snapped.
  destruct (Qlt_le_dec 0 cs) as [Hpos|Hneg].
  - (* a positive contract size keeps the order *)
    set (ca := Qround_ndigits (grid (a * inject_Z lev / price / cs) vu) prec).
    set (cb := Qround_ndigits (grid (b * inject_Z lev / price / cs) vu) prec).
    assert (Hc : ca <= cb).
    { apply Qround_ndigits_mono, grid_mono; [done|]. by apply Qdiv_le_pos. }
    destruct (Qle_bool ca 0) eqn:Ea, (Qle_bool cb 0) eqn:Eb; try lra.
    + apply Qle_bool_iff in Ea.
      destruct (Qlt_le_dec 0 cb) as [?|Hle]; [lra|].
      apply Qle_bool_iff in Hle. congruence.
    + apply Qle_bool_iff in Eb.
      assert (Hle : ca <= 0) by lra. apply Qle_bool_iff in Hle. congruence.
  - (* a negative one sends every non-negative margin to 0 *)
    assert (Hlt : cs < 0) by (apply Qle_lteq in Hneg as [?|?]; [done|]; lra).
    assert (Hz : forall m, 0 <= m * inject_Z lev / price ->
      Qle_bool (Qround_ndigits (grid (m * inject_Z lev / price / cs) vu) prec) 0
      = true).
    { intros m Hm. apply Qle_bool_iff, Qround_ndigits_nonpos, grid_nonpos;
        [done|].
      assert (H0 : 0 / cs == 0) by (unfold Qdiv; lra).
      rewrite <- H0. by apply Qdiv_le_neg. }
    rewrite (Hz a Hbase0), (Hz b); [lra|]. lra.
Qed.

Lemma f_truthy_exact (x : Q) : f_truthy x = true <-> ~ x == 0.
Proof.
  unfold f_truthy, f_eqb, f_of_Z, exactQ. change (inject_Z 0) with 0.
  rewrite negb_true_iff. split.
  - intros E H. apply Qeq_bool_iff in H. congruence.
  - intros H. destruct (Qeq_bool x 0) eqn:E; [|done].
    apply Qeq_bool_iff in E. done.
Qed.


Local Close Scope Q_scope.

(** ** Placing, recording and closing orders *)

Lemma py_eq_sym (a b : pyval) : py_eq a b = py_eq b a.
Proof.
  destruct a as [|x|x|x|x], b as [|y|y|y|y]; simpl; try reflexivity;
    try apply String.eqb_sym;
    apply eq_true_iff_eq; rewrite !Qeq_bool_iff; split; intros Hq;
    by symmetry.
Qed.

Lemma py_eq_trans (a b c : pyval) :
  py_eq a b = true -> py_eq b c = true -> py_eq a c = true.
Proof.
  destruct a as [|x|x|x|x], b as [|y|y|y|y], c as [|z|z|z|z]; simpl;
    try done;
    try (rewrite !Qeq_bool_iff; intros H1 H2; by rewrite H1);
    rewrite !String.eqb_eq; congruence.
Qed.

Lemma pydict_get_set_eq {V} (k : pyval) (v : V) (d : pydict V) :
  pydict_get k (pydict_set k v d) = Some v.
Proof.
  unfold pydict_get. induction d as [|[k' v'] d IH]; simpl.
  - by rewrite py_eq_refl.
  - destruct (py_eq k k') eqn:Hk; simpl; by rewrite Hk.
Qed.

Lemma pydict_get_set_ne {V} (k k2 : pyval) (v : V) (d : pydict V) :
  py_eq k2 k = false ->
  pydict_get k2 (pydict_set k v d) = pydict_get k2 d.
Proof.
  intros Hne. unfold pydict_get. induction d as [|[k' v'] d IH]; simpl.
  - by rewrite Hne.
  - destruct (py_eq k k') eqn:Hk; simpl.
    + destruct (py_eq k2 k') eqn:Hk2; [|done].
      rewrite (py_eq_trans k2 k' k) in Hne; [done..|].
      by rewrite py_eq_sym.
    + destruct (py_eq k2 k'); [done|]. exact IH.
Qed.

(** X18.  A placement writes the limit book in one case only: the exchange
    accepted a LIMIT order and the master event carries an order id. It then
    maps that id to the follower's order id, price and size with status OPEN
    and leaves the other entries alone. In every case one request is sent
    and the trigger book is untouched; a refused or unanswered request is
    recorded in last_error (UNKNOWN without an answer), stamped and logged,
    and an accepted one leaves the error slots and the log untouched. *)
Theorem ordinary_executor_books (client : OrderCall -> option ClientResult)
    (now cid : Z) (mev : MasterEvent) (intent : CopyOrderIntent)
    (st : RunState) (p : gmap string pyval) :
  payload mev = Some p ->
  let master_oid := py_get p "order_id" in
  let call :=
    MakeOrder (intent_symbol intent) (intent_contracts intent)
      (intent_side intent) (intent_position_side intent)
      (intent_leverage intent) (intent_open_type intent)
      (match intent_method intent with
       | limit => intent_price intent | _ => None end)
      (intent_sl_price intent) (intent_tp_price intent)
      (intent_method intent) in
  let book := default [] (sr_limit (run_side_root st)) in
  let recorded :=
    succeeded (client call)
    && match intent_method intent with limit => true | _ => false end
    && truthy master_oid in
  exists (st' : RunState) (book' : pydict OrderRec),
    ordinary_executor_ client now cid mev intent st = Some st'
    /\ run_calls st' = run_calls st ++ [call]
    /\ sr_trigger (run_side_root st') = sr_trigger (run_side_root st)
    /\ sr_limit (run_side_root st') = Some book'
    /\ (recorded = false -> book' = book)
    /\ (recorded = true ->
        exists r, client call = Some r
        /\ pydict_get master_oid book'
           = Some {| copy_order_id := res_order_id r;
                     rec_price := intent_price intent;
                     rec_qty := intent_contracts intent;
                     rec_status := "OPEN" |}
        /\ forall k, py_eq k master_oid = false ->
             pydict_get k book' = pydict_get k book)
    /\ (succeeded (client call) = true ->
        last_error st' = last_error st
        /\ last_error_ts st' = last_error_ts st
        /\ run_log st' = run_log st)
    /\ (succeeded (client call) = false ->
        let reason :=
          match client call with
          | Some r => res_reason r | None => PStr "UNKNOWN" end in
        last_error st' = reason
        /\ last_error_ts st' = Some now
        /\ run_log st' = run_log st ++
             [(cid, (OrderFailed (intent_method intent), intent_symbol intent,
                     intent_position_side intent, reason))]).
Proof.
  intros Hp master_oid call book recorded.
  unfold ordinary_executor_. rewrite Hp. simpl.
  fold call. fold master_oid. fold book.
  unfold recorded.
  destruct (client call) as [r|] eqn:Hres; simpl;
    [destruct (res_success r) eqn:Hok; simpl|].
  - destruct (intent_method intent) eqn:Hm; simpl;
      try (eexists _, _; split; [reflexivity|]; simpl;
           split_and!; try done; by intros [_ [= ?]]).
    destruct (truthy master_oid) eqn:Hoid; simpl.
    + eexists _, _; split; [reflexivity|]. simpl.
      split_and!; try done. intros _. exists r. split; [done|].
      split; [apply pydict_get_set_eq|].
      intros k Hk. by apply pydict_get_set_ne.
    + eexists _, _; split; [reflexivity|]. simpl.
      split_and!; done.
  - eexists _, _; split; [reflexivity|]. simpl. split_and!; done.
  - eexists _, _; split; [reflexivity|]. simpl. split_and!; done.
Qed.

(** X19.  A trigger placement writes the trigger book in one case only: the
    exchange accepted the order and the master event carries an order id.
    The follower's order id, trigger price and size are then recorded under
    that id with status OPEN and the other entries are left alone.  One
    request is sent, with the payload's trigger_exec as execution type (2
    when it has none), and the limit book is untouched; a refused or
    unanswered request is recorded in last_error and stamped. *)
Theorem trigger_executor_books (client : OrderCall -> option ClientResult)
    (now cid : Z) (mev : MasterEvent) (intent : CopyOrderIntent)
    (st : RunState) (p : gmap string pyval) :
  payload mev = Some p ->
  let master_oid := py_get p "order_id" in
  let call :=
    MakeTriggerOrder (intent_symbol intent) (intent_side intent)
      (intent_position_side intent) (intent_contracts intent)
      (intent_trigger_price intent) (intent_leverage intent)
      (intent_open_type intent) (default (PInt 2) (p !! "trigger_exec")) in
  let book := default [] (sr_trigger (run_side_root st)) in
  let recorded := succeeded (client call) && truthy master_oid in
  exists (st' : RunState) (book' : pydict OrderRec),
    trigger_executor_ client now cid mev intent st = Some st'
    /\ run_calls st' = run_calls st ++ [call]
    /\ sr_limit (run_side_root st') = sr_limit (run_side_root st)
    /\ sr_trigger (run_side_root st') = Some book'
    /\ (recorded = false -> book' = book)
    /\ (recorded = true ->
        exists r, client call = Some r
        /\ pydict_get master_oid book'
           = Some {| copy_order_id := res_order_id r;
                     rec_price := intent_trigger_price intent;
                     rec_qty := intent_contracts intent;
                     rec_status := "OPEN" |}
        /\ forall k, py_eq k master_oid = false ->
             pydict_get k book' = pydict_get k book)
    /\ (succeeded (client call) = false ->
        last_error st'
        = match client call with
          | Some r => res_reason r | None => PStr "UNKNOWN" end
        /\ last_error_ts st' = Some now).
Proof.
  intros Hp master_oid call book recorded.
  unfold trigger_executor_. rewrite Hp. simpl.
  fold master_oid. fold call. fold book. unfold recorded.
  destruct (client call) as [r|] eqn:Hres; simpl;
    [destruct (res_success r) eqn:Hok; simpl|].
  - destruct (truthy master_oid) eqn:Hoid; simpl.
    + eexists _, _; split; [reflexivity|]. simpl.
      split_and!; try done. intros _. exists r. split; [done|].
      split; [apply pydict_get_set_eq|].
      intros k Hk. by apply pydict_get_set_ne.
    + eexists _, _; split; [reflexivity|]. simpl. split_and!; done.
  - eexists _, _; split; [reflexivity|]. simpl. split_and!; done.
  - eexists _, _; split; [reflexivity|]. simpl. split_and!; done.
Qed.

Lemma pydict_get_del_ne {V} (k k2 : pyval) (d : pydict V) :
  py_eq k2 k = false ->
  pydict_get k2 (pydict_del k d) = pydict_get k2 d.
Proof.
  intros Hne. unfold pydict_get, pydict_del.
  induction d as [|[k' v'] d IH]; [done|]. simpl.
  destruct (py_eq k k') eqn:Hk; simpl.
  - destruct (py_eq k2 k') eqn:Hk2; [|exact IH].
    rewrite (py_eq_trans k2 k' k) in Hne; [done..|].
    by rewrite py_eq_sym.
  - destruct (py_eq k2 k'); [done|]. exact IH.
Qed.

(** X20.  A follower limit order placed for a master order is found again by
    the cancel of that master order: the placement records the exchange's
    order id under the master id, and the cancel event carrying the same
    master id sends exactly one cancel request, for that recorded id,
    removes the entry and leaves every other entry and the trigger book as
    they were before the placement. *)
Theorem limit_order_round_trip (client : OrderCall -> option ClientResult)
    (cancel_client : ApiCall -> bool) (now cid : Z)
    (mev cmev : MasterEvent) (intent : CopyOrderIntent) (st : RunState)
    (p cp : gmap string pyval) (r : ClientResult)
    (elog : list (Z * log_line)) (ecalls : list ApiCall) :
  payload mev = Some p ->
  intent_method intent = limit ->
  truthy (py_get p "order_id") = true ->
  client (MakeOrder (intent_symbol intent) (intent_contracts intent)
            (intent_side intent) (intent_position_side intent)
            (intent_leverage intent) (intent_open_type intent)
            (intent_price intent) (intent_sl_price intent)
            (intent_tp_price intent) limit) = Some r ->
  res_success r = true ->
  truthy (res_order_id r) = true ->
  payload cmev = Some cp ->
  method cmev = limit ->
  py_get cp "order_id" = py_get p "order_id" ->
  exists (st1 : RunState) (est : ExecState),
    ordinary_executor_ client now cid mev intent st = Some st1
    /\ cancel_executor_ cancel_client cid cmev
         {| side_root := run_side_root st1; exec_log := elog;
            api_calls := ecalls |} = Some est
    /\ api_calls est = ecalls ++ [cancel_limit_orders [res_order_id r]]
    /\ pydict_get (py_get p "order_id")
         (default [] (sr_limit (side_root est))) = None
    /\ (forall k, py_eq k (py_get p "order_id") = false ->
          pydict_get k (default [] (sr_limit (side_root est)))
          = pydict_get k (default [] (sr_limit (run_side_root st))))
    /\ sr_trigger (side_root est) = sr_trigger (run_side_root st).
Proof.
  intros Hp Hm Hoid Hres Hok Hcopy Hcp Hcm Hsame.
  unfold ordinary_executor_. rewrite Hp, Hm. simpl. rewrite Hres. simpl.
  rewrite Hok, Hoid. simpl.
  eexists _, _. split; [reflexivity|].
  unfold cancel_executor_. rewrite Hcp, Hcm, Hsame, Hoid. simpl.
  unfold pydict_pop. rewrite pydict_get_set_eq. simpl. rewrite Hcopy. simpl.
  split; [reflexivity|]. simpl. split; [done|]. split; [|split; [|done]].
  - apply pydict_get_del.
  - intros k Hk. rewrite pydict_get_del_ne by done.
    by apply pydict_get_set_ne.
Qed.

(** X21.  No cancel the translator relays reaches a follower's trigger
    orders: a relayed cancel is tagged limit, so the executor looks the
    master id up in the limit book only, never changes the trigger book and
    never sends a trigger cancel, whatever the books hold. *)
Theorem relayed_cancel_spares_trigger_book
    (float_of_str : string -> option Q) (now : Z) (st : MasterPayload)
    (ev : SignalEvent) (mev : MasterEvent)
    (client : ApiCall -> bool) (cid : Z) (est : ExecState) :
  _pending (_route float_of_str now st ev) = _pending st ++ [mev] ->
  event mev = canceled ->
  exists est' : ExecState,
    cancel_executor_ client cid mev est = Some est'
    /\ sr_trigger (side_root est') = sr_trigger (side_root est)
    /\ (api_calls est' = api_calls est
        \/ exists copy_oid,
             api_calls est' = api_calls est ++ [cancel_limit_orders [copy_oid]]).
Proof.
  intros Hmev Hcancel.
  destruct (route_shape float_of_str now st ev)
    as [Hsame|(mev' & p & pos & Hmev' & _ & _ & _ & _ & _ & _ & Hp & _ & _
               & Hlimit & _)].
  { rewrite Hsame in Hmev. apply (f_equal length) in Hmev.
    rewrite length_app in Hmev. simpl in Hmev. lia. }
  rewrite Hmev' in Hmev. apply app_inj_tail in Hmev as [_ ->].
  unfold cancel_executor_. rewrite Hp, (Hlimit Hcancel).
  destruct (negb (truthy (py_get p "order_id"))).
  { eexists; split; [reflexivity|]. split; [done|by left]. }
  unfold pydict_pop.
  destruct (pydict_get (py_get p "order_id")
              (default [] (sr_limit (side_root est)))) as [rec|].
  - destruct (negb (truthy (copy_order_id rec))).
    + eexists; split; [reflexivity|]. split; [done|by left].
    + eexists; split; [reflexivity|]. split; [done|]. right. by eexists.
  - eexists; split; [reflexivity|]. split; [done|by left].
Qed.

Lemma copy_ids_cleared (book : option (pydict OrderRec)) :
  copy_ids ((fun _ => []) <$> book) = [].
Proof. by destruct book. Qed.

(** X22.  Closing a position. One market order is sent. Only a manual close
    whose order the exchange accepted goes on to the follower's resting
    orders of that symbol and side: if the books hold any order id, one bulk
    cancel is sent with all of them, and the books are emptied when the
    exchange confirms it and kept, with a log line, when it does not. A
    signal close, and a close the exchange refused, never touch the books
    and send nothing else. *)
Theorem close_executor_books (client : OrderCall -> option ClientResult)
    (now cid : Z) (mev : MasterEvent) (intent : CopyOrderIntent)
    (st : RunState) :
  let call :=
    MakeOrder (intent_symbol intent) (intent_contracts intent)
      (intent_side intent) (intent_position_side intent)
      (intent_leverage intent) (intent_open_type intent)
      None None None market in
  let limit_ids := copy_ids (sr_limit (run_side_root st)) in
  let trigger_ids := copy_ids (sr_trigger (run_side_root st)) in
  let cancel :=
    CancelOrdersBulk limit_ids trigger_ids (intent_symbol intent) in
  let st' := close_executor_ client now cid mev intent st in
  let sweeps :=
    succeeded (client call)
    && match sig_type mev with manual => true | copy => false end
    && negb (bool_decide (limit_ids = [] /\ trigger_ids = [])) in
  (sweeps = false ->
   run_calls st' = run_calls st ++ [call]
   /\ run_side_root st' = run_side_root st)
  /\ (sweeps = true ->
      run_calls st' = run_calls st ++ [call; cancel]
      /\ (succeeded (client cancel) = true ->
          copy_ids (sr_limit (run_side_root st')) = []
          /\ copy_ids (sr_trigger (run_side_root st')) = []
          /\ run_log st' = run_log st)
      /\ (succeeded (client cancel) = false ->
          run_side_root st' = run_side_root st
          /\ run_log st' = run_log st ++
               [(cid, (BulkCancelFailed, intent_symbol intent,
                       intent_position_side intent,
                       match client cancel with
                       | Some r => res_reason r
                       | None => PStr "UNKNOWN" end))]))
  /\ (succeeded (client call) = false ->
      last_error st'
      = match client call with
        | Some r => res_reason r | None => PStr "UNKNOWN" end
      /\ last_error_ts st' = Some now
      /\ run_log st' = run_log st ++
           [(cid, (CloseFailed, intent_symbol intent,
                   intent_position_side intent, last_error st'))]).
Proof.
  intros call limit_ids trigger_ids cancel st' sweeps.
  unfold st', sweeps, close_executor_. fold call.
  destruct (succeeded (client call)) eqn:Hok; simpl; [|done].
  destruct (sig_type mev); simpl; [done|].
  fold limit_ids. fold trigger_ids. fold cancel.
  destruct limit_ids as [|l ls] eqn:Hl, trigger_ids as [|t ts] eqn:Ht;
    simpl; try done;
    (split; [done|]; split; [|done]; intros _;
     destruct (succeeded (client cancel)) eqn:Hc; simpl;
     rewrite <- app_assoc; (split; [done|]); split; try done;
     intros _; by rewrite ?copy_ids_cleared).
Qed.

(** X26.  The guards of the Close button. The follower runtimes are never
    touched. When the bot is stopping, or the request names no follower id
    other than 0, nothing at all changes and nothing is queued. Otherwise
    the ids without 0 become the command ids and one CLOSE INTENT line is
    logged, even when no translator is attached, in which case nothing is
    queued. Whatever is queued is a market sell, closed, manual, for all
    symbols, without side, payload or follower binding. *)
Theorem on_close_guards (stop_flag : bool) (now : Z) (mc : MainContext)
    (ids : list Z) :
  let kept := List.filter (fun cid => negb (cid =? 0)) ids in
  let mc' := (on_close stop_flag now mc ids).1 in
  let queued := (on_close stop_flag now mc ids).2 in
  copy_runtime_states mc' = copy_runtime_states mc
  /\ master_payload mc' = master_payload mc
  /\ (stop_flag = true \/ kept = [] -> mc' = mc /\ queued = None)
  /\ (stop_flag = false -> kept <> [] ->
      cmd_ids mc' = kept
      /\ log_events mc' = log_events mc ++ [(0, CloseIntent kept)]
      /\ (queued = None <-> master_payload mc = false))
  /\ (forall mev, queued = Some mev ->
      mev = {| event := sell; method := market;
               symbol := "ALL OPENED SYMBOLS"; pos_side := None;
               closed := true; payload := None; sig_type := manual;
               ts := now; _cid := None |}).
Proof.
  intros kept. unfold on_close. fold kept.
  destruct stop_flag; simpl; [by split_and!|].
  destruct kept as [|cid kept']; simpl; [by split_and!|].
  destruct (master_payload mc) eqn:Hpayload; simpl.
  - split_and!; try done.
    + by intros [?|?].
    + by intros mev [= <-].
  - split_and!; try done.
    by intros [?|?].
Qed.

(** ** The PnL report and the records *)

Lemma assum_positions_at batch_hit
    (pvs : gmap string (gmap PosSide PosVar)) symbol sides pos_side pv :
  pvs !! symbol = Some sides -> sides !! pos_side = Some pv ->
  exists sides',
    assum_positions batch_hit pvs !! symbol = Some sides'
    /\ sides' !! pos_side
       = Some (report_record (batch_hit symbol pos_side) pv).
Proof.
  intros Hsym Hside. unfold assum_positions.
  rewrite map_lookup_imap, Hsym. simpl.
  eexists; split; [reflexivity|]. by rewrite map_lookup_imap, Hside.
Qed.

(** X14.  The PnL report writes two slots of a record and nothing else: it
    clears every CLOSED_PENDING mark, and drops the entry stamp of a marked
    record exactly when a result could be produced for it (its key is in the
    batch, or its stamp is an integer above 1e10). A record without the mark
    is left as it is; position flag, quantity, prices, leverage and margin
    mode are never touched, so the quantity invariant of the records
    survives the report. *)
Theorem report_touches_marks_only (batch_hit : string -> PosSide -> bool)
    (pvs : gmap string (gmap PosSide PosVar))
    (symbol : string) (sides : gmap PosSide PosVar) (pos_side : PosSide)
    (pv : PosVar) :
  pvs !! symbol = Some sides -> sides !! pos_side = Some pv ->
  exists sides' pv',
    assum_positions batch_hit pvs !! symbol = Some sides'
    /\ sides' !! pos_side = Some pv'
    /\ _state pv' = None
    /\ in_position pv' = in_position pv /\ qty pv' = qty pv
    /\ entry_price pv' = entry_price pv /\ avg_price pv' = avg_price pv
    /\ leverage pv' = leverage pv /\ margin_mode pv' = margin_mode pv
    /\ (pv_inv pv -> pv_inv pv')
    /\ (_state pv = None -> pv' = pv)
    /\ (_state pv = Some CLOSED_PENDING ->
        _entry_ts pv'
        = if batch_hit symbol pos_side || entry_ts_valid (_entry_ts pv)
          then None else _entry_ts pv).
Proof.
  intros Hsym Hside.
  destruct (assum_positions_at batch_hit pvs symbol sides pos_side pv
              Hsym Hside) as (sides' & Hsym' & Hside').
  eexists sides', _. split; [done|]. split; [done|].
  unfold report_record. destruct (_state pv) as [[]|] eqn:Hstate; simpl.
  - split_and!; done.
  - split_and!; done.
Qed.

(** X15.  A closed position is reported once. When a position held by a
    follower is no longer in the list the exchange returns, the refresh
    marks its record CLOSED_PENDING; the report clears the mark; and later
    refreshes in which the position is still absent leave the record as the
    report left it, unmarked. *)
Theorem closed_position_reported_once
    (float_of_str : string -> option Q) (int_of_str : string -> option Z)
    (positions positions' : list (gmap string pyval)) (now1 now2 : Z)
    (batch_hit : string -> PosSide -> bool)
    (pvs : gmap string (gmap PosSide PosVar))
    (symbol : string) (sides : gmap PosSide PosVar) (pos_side : PosSide)
    (pv : PosVar) :
  pvs !! symbol = Some sides -> sides !! pos_side = Some pv ->
  in_position pv = true ->
  active_get symbol pos_side
    (omap (M:=list) (unpack float_of_str int_of_str) positions) = None ->
  active_get symbol pos_side
    (omap (M:=list) (unpack float_of_str int_of_str) positions') = None ->
  let pvs1 := refresh float_of_str int_of_str (Some positions) now1 pvs in
  let pvs2 := assum_positions batch_hit pvs1 in
  let pvs3 := refresh float_of_str int_of_str (Some positions') now2 pvs2 in
  exists pv1 pv2,
    (pvs1 !! symbol) ≫= (.!! pos_side) = Some pv1
    /\ (pvs2 !! symbol) ≫= (.!! pos_side) = Some pv2
    /\ (pvs3 !! symbol) ≫= (.!! pos_side) = Some pv2
    /\ _state pv1 = Some CLOSED_PENDING /\ _entry_ts pv1 = _entry_ts pv
    /\ in_position pv1 = false
    /\ _state pv2 = None /\ in_position pv2 = false.
Proof.
  intros Hsym Hside Hin Hact Hact' pvs1 pvs2 pvs3.
  assert (H1 : apply_snapshot
      (omap (M:=list) (unpack float_of_str int_of_str) positions) now1
      symbol pos_side pv = closed_pending pv).
  { unfold apply_snapshot. by rewrite Hact, Hin. }
  assert (H3 : forall pv2, in_position pv2 = false ->
    apply_snapshot
      (omap (M:=list) (unpack float_of_str int_of_str) positions') now2
      symbol pos_side pv2 = pv2).
  { intros pv2 Hout. unfold apply_snapshot. by rewrite Hact', Hout. }
  destruct (refresh_at float_of_str int_of_str positions now1 pvs symbol
              sides pos_side pv Hsym Hside) as (sides1 & Hsym1 & Hside1).
  rewrite H1 in Hside1.
  destruct (assum_positions_at batch_hit pvs1 symbol sides1 pos_side _
              Hsym1 Hside1) as (sides2 & Hsym2 & Hside2).
  destruct (refresh_at float_of_str int_of_str positions' now2 pvs2 symbol
              sides2 pos_side _ Hsym2 Hside2) as (sides3 & Hsym3 & Hside3).
  rewrite H3 in Hside3 by done.
  subst pvs1 pvs2 pvs3. eexists _, _.
  rewrite Hsym1, Hsym2, Hsym3. simpl. rewrite Hside1, Hside2, Hside3.
  split_and!; done.
Qed.

(** ** The exchange client *)

(** X27.  How the client reads an answer of the exchange: it reports success
    exactly when there is an answer flagged successful with code 0; a
    failure never carries an order id and always carries a non-empty reason
    (the exchange's message, "Unknown exchange error" when it has none,
    "Empty response from exchange" when there is no answer); a success
    carries no reason. *)
Theorem validate_and_log_outcome (result : option MexcResponse) :
  let v := validate_and_log result in
  (v_success v = true <->
   exists r, result = Some r /\ resp_success r = true
             /\ py_eq (resp_code r) (PInt 0) = true)
  /\ (v_success v = false ->
      v_order_id v = PNone /\ v_order_ids v = None
      /\ truthy (v_reason v) = true
      /\ (result = None -> v_reason v = PStr "Empty response from exchange"))
  /\ (v_success v = true -> v_reason v = PNone).
Proof.
  destruct result as [r|]; simpl.
  - destruct (resp_success r) eqn:Hs; simpl.
    + destruct (py_eq (resp_code r) (PInt 0)) eqn:Hc; simpl.
      * split_and!; try done. split; [|done]. intros _. by exists r.
      * split_and!; try done.
        -- split; [done|]. intros (r' & [= <-] & _ & Hc'). congruence.
        -- intros _. split_and!; try done.
           unfold py_or. by destruct (truthy (resp_message r)) eqn:Hm.
    + split_and!; try done.
      * split; [done|]. intros (r' & [= <-] & Hs' & _). congruence.
      * intros _. split_and!; try done.
        unfold py_or. by destruct (truthy (resp_message r)) eqn:Hm.
  - split_and!; try done. split; [done|]. by intros (r & ? & _).
Qed.

(** X28.  An order reaches the exchange only if the client accepts it: the
    market type is MARKET or LIMIT, the margin mode is 1 or 2, and an
    isolated order has a leverage. Otherwise nothing is sent and the caller
    gets the failure of an empty response. A request that is sent opens for
    BUY and closes for SELL, on the given position side, is a market order
    exactly for MARKET, and carries the size, the leverage and the three
    prices unchanged. *)
Theorem make_order_request (api : ApiRequest -> option MexcResponse)
    (symbol : string) (contract : Q) (side : Side) (position_side : PosSide)
    (leverage open_type : Z) (price sl tp : option string)
    (market_type : METHOD) :
  let accepted :=
    match market_type with trigger => false | _ => true end
    && ((open_type =? 2) || ((open_type =? 1) && negb (leverage =? 0))) in
  exists v sent,
    make_order api symbol contract side (Some position_side) leverage
      open_type price sl tp market_type = Some (v, sent)
    /\ (accepted = false ->
        sent = None /\ v = validate_and_log None /\ v_success v = false)
    /\ (accepted = true ->
        exists request,
          sent = Some (create_order request)
          /\ v = validate_and_log (api (create_order request))
          /\ co_side request
             = match position_side, side with
               | LONG, BUY => OpenLong | LONG, SELL => CloseLong
               | SHORT, BUY => OpenShort | SHORT, SELL => CloseShort
               end
          /\ co_type request
             = match market_type with
               | market => MarketOrder | _ => PriceLimited end
          /\ co_openType request
             = (if open_type =? 1 then Isolated else Cross)
          /\ co_symbol request = symbol /\ co_vol request = contract
          /\ co_leverage request = leverage /\ co_price request = price
          /\ co_stopLossPrice request = sl
          /\ co_takeProfitPrice request = tp).
Proof.
  unfold make_order, open_type_of.
  destruct market_type; simpl;
    destruct (Z.eqb_spec open_type 1) as [->|H1]; simpl;
    try (destruct (Z.eqb_spec leverage 0); simpl);
    try (destruct (Z.eqb_spec open_type 2); simpl);
    eexists _, _; (split; [reflexivity|]); split; try done;
    intros _; eexists; split_and!; try reflexivity; done.
Qed.

(** X29.  The direction of a trigger order is not decided by the trading
    side alone: the trigger fires at or below the trigger price exactly for
    opening a long (BUY on LONG) and for closing a short (SELL on SHORT),
    and at or above it for the two other combinations. Without a position
    side, with a margin mode other than 1 and 2, or isolated without
    leverage, nothing is sent. *)
Theorem make_trigger_order_request (api : ApiRequest -> option MexcResponse)
    (symbol : string) (side : Side) (position_side : option PosSide)
    (contract : Q) (trigger_price : option string) (leverage open_type : Z)
    (order_type : pyval) :
  let '(v, sent) :=
    make_trigger_order api symbol side position_side contract trigger_price
      leverage open_type order_type in
  let accepted :=
    match position_side with Some _ => true | None => false end
    && ((open_type =? 2) || ((open_type =? 1) && negb (leverage =? 0))) in
  (accepted = false -> sent = None /\ v = validate_and_log None)
  /\ (accepted = true ->
      exists request,
        sent = Some (create_trigger_order request)
        /\ v = validate_and_log (api (create_trigger_order request))
        /\ (to_triggerType request = LessThanOrEqual <->
            (side = BUY /\ position_side = Some LONG)
            \/ (side = SELL /\ position_side = Some SHORT))
        /\ (to_triggerType request = GreaterThanOrEqual <->
            (side = SELL /\ position_side = Some LONG)
            \/ (side = BUY /\ position_side = Some SHORT))
        /\ (to_orderType request = PriceLimited <->
            py_eq order_type (PInt 1) = true)
        /\ to_vol request = contract
        /\ to_triggerPrice request = trigger_price).
Proof.
  unfold make_trigger_order, open_type_of.
  destruct position_side as [ps|]; simpl; [|done].
  destruct (Z.eqb_spec open_type 1) as [->|H1]; simpl;
    try (destruct (Z.eqb_spec leverage 0); simpl);
    try (destruct (Z.eqb_spec open_type 2); simpl);
    (split; [done|]); try done;
    intros _; eexists; (split; [reflexivity|]); (split; [reflexivity|]);
    simpl; destruct ps, side, (py_eq order_type (PInt 1)); simpl;
    split_and!; try done;
    first [ by (split; [intros _; by left | done])
          | by (split; [intros _; by right | done])
          | by (split; [done | intros [[? ?]|[? ?]]; done]) ].
Qed.

(** X30.  The bulk cancel reports success exactly when nothing went wrong
    with a list that is not empty: an empty list is skipped without a
    request, a non-empty list of limit ids needs a successful answer, and a
    non-empty list of trigger ids needs a symbol and a successful answer. At
    most one request is sent per list, limit first. *)
Theorem cancel_orders_bulk_success (api : ApiRequest -> option MexcResponse)
    (limit_order_ids trigger_order_ids : list pyval) (symbol : string) :
  let '(ok, errors, sent) :=
    cancel_orders_bulk api limit_order_ids trigger_order_ids symbol in
  let limit_request := cancel_orders limit_order_ids in
  let trigger_request :=
    cancel_trigger_orders (map (fun oid => (oid, symbol)) trigger_order_ids) in
  let limit_ok :=
    bool_decide (limit_order_ids = [])
    || v_success (validate_and_log (api limit_request)) in
  let trigger_ok :=
    bool_decide (trigger_order_ids = [])
    || (negb (String.eqb symbol "")
        && v_success (validate_and_log (api trigger_request))) in
  ok = limit_ok && trigger_ok
  /\ (ok = true <-> errors = [])
  /\ sent
     = (if bool_decide (limit_order_ids = []) then [] else [limit_request])
       ++ (if bool_decide (trigger_order_ids = []) || String.eqb symbol ""
           then [] else [trigger_request]).
Proof.
  unfold cancel_orders_bulk, client_cancel_limit_orders,
    client_cancel_trigger_order.
  destruct limit_order_ids as [|l ls], trigger_order_ids as [|t ts]; simpl;
    try done;
    destruct (String.eqb symbol ""); simpl;
    repeat match goal with
    | |- context [v_success ?v] => destruct (v_success v); simpl
    end; done.
Qed.

(** * Concrete runs *)

(** Scenario 2: the placement of ["L1"] and its fill. *)
Lemma C1_limit_self_echo_witness :
  let placed := limit_event limit_placed (Some LONG) (PStr "L1") 2 in
  let filled := limit_event limit_filled (Some LONG) (PStr "L1") 3 in
  let st1 := _route sample_float_of_str 1700000000123 st0 placed in
  let st2 := _route sample_float_of_str 1700000000456 st1 filled in
  pyset_mem (PStr "L1") (_limit_intents st1) = true
  /\ length (_pending st1) = 1%nat
  /\ _pending st2 = _pending st1
  /\ pyset_mem (PStr "L1") (_limit_intents st2) = false.
Proof.
  intros placed filled st1 st2.
  destruct (C1_limit_self_echo sample_float_of_str
              1700000000123 1700000000456 st0 st0 placed filled LONG LONG
              eq_refl ltac:(by vm_compute) eq_refl eq_refl
              eq_refl ltac:(by vm_compute) eq_refl)
    as ((Hmem & mev & Hpend & _) & _ & Hecho & _).
  destruct (Hecho eq_refl) as [Hsame Hgone].
  split; [exact Hmem|]. split; [|split; [exact Hsame|exact Hgone]].
  unfold st1. rewrite Hpend. reflexivity.
Defined.

(** C1, as stated, fails on events the guard of [_route] drops and on
    falsy order ids.  A WS order message without a usable [side] is
    classified limit_placed with no position side; routing it records
    nothing and emits nothing, so the later fill of the same order is
    emitted.  A placement whose orderId is [0] is emitted but not recorded,
    so its fill is emitted as well. *)
Lemma C1_counterexample :
  let data := delete "side" (limit_order_raw (PStr "L1") 2) in
  let placed := {| se_symbol := "BTC_USDT"; se_pos_side := None;
                   se_event_type := limit_placed; se_ts := 1700000000100;
                   se_raw := data |} in
  let filled := limit_event limit_filled (Some LONG) (PStr "L1") 3 in
  let st1 := _route sample_float_of_str 1700000000123 st0 placed in
  let st2 := _route sample_float_of_str 1700000000456 st1 filled in
  let placed0 := limit_event limit_placed (Some LONG) (PInt 0) 2 in
  let filled0 := limit_event limit_filled (Some LONG) (PInt 0) 3 in
  let st1' := _route sample_float_of_str 1700000000123 st0 placed0 in
  let st2' := _route sample_float_of_str 1700000000456 st1' filled0 in
  (_handle_order sample_int_of_str "USDT" [] 1700000000100 data
   = Some (Some placed)
   /\ py_get (se_raw placed) "orderId" = PStr "L1"
   /\ pyset_mem (PStr "L1") (_limit_intents st1) = false
   /\ _pending st1 = []
   /\ length (_pending st2) = 1%nat)
  /\ (pyset_mem (PInt 0) (_limit_intents st1') = false
      /\ length (_pending st1') = 1%nat
      /\ length (_pending st2') = 2%nat).
Proof. vm_compute. repeat split. Qed.

Lemma C4_trigger_fill_translation_witness :
  exists mev : MasterEvent,
    _pending (_route sample_float_of_str 1700000000123 st0 trigger_close_short) = [mev]
    /\ event mev = buy /\ method mev = trigger
    /\ pos_side mev = Some LONG /\ closed mev = true.
Proof.
  destruct (C4_trigger_fill_translation sample_float_of_str 1700000000123 st0
              trigger_close_short SHORT eq_refl ltac:(by vm_compute) eq_refl)
    as (mev & Hpend & Hmethod & _ & Hbuy & Hclosed & Hside & _).
  exists mev. split; [exact Hpend|]. split; [by apply Hbuy|].
  split; [exact Hmethod|]. split; [exact Hside|exact Hclosed].
Defined.

(** C4, as stated, fails on events the guard drops: a trigger fill whose
    WS message carries no usable [side] is classified with no position
    side, and routing it emits nothing. *)
Lemma C4_counterexample :
  let data : gmap string pyval :=
    list_to_map
      [ ("symbol", PStr "BTCUSDT"); ("orderType", PInt 2); ("state", PInt 3);
        ("reduceOnly", PBool true) ] in
  let ev := {| se_symbol := "BTC_USDT"; se_pos_side := None;
               se_event_type := trigger_filled; se_ts := 1700000000100;
               se_raw := data |} in
  _handle_order sample_int_of_str "USDT" [] 1700000000100 data = Some (Some ev)
  /\ se_event_type ev = trigger_filled
  /\ _pending (_route sample_float_of_str 1700000000123 st0 ev) = [].
Proof. vm_compute. repeat split. Qed.

Lemma scenario_open_long :
  _pending (_route sample_float_of_str 1700000000123 st0 market_open_long)
  = [master_open_long].
Proof. vm_compute. reflexivity. Qed.



Lemma C7_cancel_idempotence_witness :
  exists st1 st2 : ExecState,
    cancel_executor_ exchange_ok 3 (canceled_M1 limit)
      (exec_start {| sr_limit := Some [(PStr "M1", copy_of_M1 (PStr "C1"))];
                     sr_trigger := None |}) = Some st1
    /\ cancel_executor_ exchange_ok 3 (canceled_M1 limit) st1 = Some st2
    /\ api_calls st2 = [cancel_limit_orders [PStr "C1"]]
    /\ side_root st2 = {| sr_limit := Some []; sr_trigger := None |}.
Proof.
  destruct (C7_cancel_idempotence exchange_ok exchange_ok 3 (canceled_M1 limit)
              (list_to_map
                 [ ("order_id", PStr "M1"); ("exec_ts", PInt 1700000000000) ])
              (exec_start
                 {| sr_limit := Some [(PStr "M1", copy_of_M1 (PStr "C1"))];
                    sr_trigger := None |})
              [(PStr "M1", copy_of_M1 (PStr "C1"))] (copy_of_M1 (PStr "C1"))
              eq_refl eq_refl (or_introl eq_refl) eq_refl eq_refl eq_refl)
    as (st1 & st2 & H1 & H2 & Hcalls1 & Hroot1 & _ & Hcalls2 & Hroot2 & _).
  exists st1, st2. split; [exact H1|]. split; [exact H2|].
  split; [by rewrite Hcalls2, Hcalls1|].
  rewrite Hroot2. destruct st1 as [[lim trg] lg calls]. simpl in *.
  injection H1 as <- <- _ _. reflexivity.
Defined.

(** C7, as stated, fails when nothing is recorded for the master order,
    and when the record carries no copy order id: processing the event
    twice then issues no cancel call at all (and, in the first case, logs
    two CANCEL MISS lines). *)
Lemma C7_counterexample :
  (exists st1 st2 : ExecState,
     cancel_executor_ exchange_ok 3 (canceled_M1 limit)
       (exec_start {| sr_limit := None; sr_trigger := None |}) = Some st1
     /\ cancel_executor_ exchange_ok 3 (canceled_M1 limit) st1 = Some st2
     /\ api_calls st2 = []
     /\ exec_log st2
        = [ (3, CancelMiss limit "BTC_USDT" (Some LONG) (PStr "M1"));
            (3, CancelMiss limit "BTC_USDT" (Some LONG) (PStr "M1")) ])
  /\ (exists st1 st2 : ExecState,
        cancel_executor_ exchange_ok 3 (canceled_M1 limit)
          (exec_start {| sr_limit := Some [(PStr "M1", copy_of_M1 PNone)];
                         sr_trigger := None |}) = Some st1
        /\ side_root st1 = {| sr_limit := Some []; sr_trigger := None |}
        /\ cancel_executor_ exchange_ok 3 (canceled_M1 limit) st1 = Some st2
        /\ api_calls st2 = []).
Proof.
  split; do 2 eexists; (split; [vm_compute; reflexivity|]).
  - split; [vm_compute; reflexivity|]. split; reflexivity.
  - split; [reflexivity|]. split; [vm_compute; reflexivity|reflexivity].
Qed.

Lemma C3_manual_close_expansion_witness :
  let '(mc', queued) := on_close false 1700000000123 mc_one_follower [0; 3] in
  exists mev, queued = Some mev
    /\ cmd_ids mc' = [3]
    /\ List.filter (closes 3 "BTC_USDT" LONG) (_expand_manual_close mc' mev)
       = [ {| event := sell; method := market; symbol := "BTC_USDT";
              pos_side := Some LONG; closed := true;
              payload := Some (list_to_map
                [ ("qty", PFloat 2); ("reduce_only", PBool true);
                  ("leverage", PInt 10); ("open_type", PInt 1) ]);
              sig_type := manual; ts := 1700000000123; _cid := Some 3 |} ].
Proof.
  destruct (on_close false 1700000000123 mc_one_follower [0; 3])
    as [mc' queued] eqn:Hclose.
  assert (Hq : queued = Some {| event := sell; method := market;
                 symbol := "ALL OPENED SYMBOLS"; pos_side := None;
                 closed := true; payload := None; sig_type := manual;
                 ts := 1700000000123; _cid := None |}).
  { vm_compute in Hclose. by injection Hclose as _ <-. }
  rewrite Hq in Hclose. eexists. split; [exact Hq|].
  destruct (C3_manual_close_expansion false 1700000000123 mc_one_follower mc'
              [0; 3] _ ltac:(compute_done) Hclose)
    as ((Hids & _) & Hone & _).
  split; [exact Hids|].
  apply (Hone 3 "BTC_USDT" LONG held_long);
    [compute_done|discriminate| |reflexivity|reflexivity].
  vm_compute in Hclose. injection Hclose as <-. reflexivity.
Defined.


Lemma C9_pv_qty_in_position_invariant_witness :
  all_pv pv_inv
    (refresh sample_float_of_str sample_int_of_str
       (Some [rest_long_position]) 1700000000200
       (get_cid_symbol_pos ∅ "BTC_USDT" LONG)).
Proof.
  apply (C9_pv_qty_in_position_invariant sample_float_of_str sample_int_of_str).
  apply reach_refresh, reach_create, reach_init.
Defined.

(** What that refresh makes of the fresh record. *)
Lemma scenario_refresh_opens :
  refresh sample_float_of_str sample_int_of_str
    (Some [rest_long_position]) 1700000000200
    (get_cid_symbol_pos ∅ "BTC_USDT" LONG)
  = {[ "BTC_USDT" :=
         {[ LONG := {| in_position := true; qty := 2;
                       entry_price := Some (201 # 2)%Q;
                       avg_price := Some (201 # 2)%Q;
                       leverage := Some 10; margin_mode := Some 1;
                       _entry_ts := Some 1700000000200; _state := None |} ]} ]}.
Proof. vm_compute. reflexivity. Qed.

(** ** Further runs *)

Lemma market_fill_translation_witness :
  exists mev : MasterEvent,
    _pending (_route sample_float_of_str 1700000000123 st0 market_open_long)
    = [mev]
    /\ event mev = buy /\ closed mev = false /\ pos_side mev = Some LONG.
Proof.
  destruct (market_fill_translation sample_float_of_str 1700000000123 st0
              market_open_long LONG eq_refl ltac:(by vm_compute) eq_refl)
    as (mev & Hpend & _ & Hev & Hclosed & Hside & _).
  exists mev. split; [exact Hpend|]. split; [exact Hev|].
  split; [exact Hclosed|exact Hside].
Defined.



Lemma only_order_channel_emits_witness :
  _pending (_route sample_float_of_str 1700000000123 st0 position_event) = []
  /\ _limit_intents (_route sample_float_of_str 1700000000123 st0 position_event)
     = [].
Proof.
  destruct (only_order_channel_emits sample_float_of_str sample_int_of_str
              "USDT" [] 1700000000100 1700000000123
              (PStr "push.personal.position") rest_long_position
              position_event st0 eq_refl ltac:(vm_compute; reflexivity))
    as (Hp & Hi & _).
  split; [exact Hp|exact Hi].
Defined.

Lemma order_frame_relay_witness :
  let data := limit_order_raw (PStr "L1") 2 in
  let ev := limit_event limit_placed (Some LONG) (PStr "L1") 2 in
  let mev :=
    default master_open_long
      (last (_pending (_route sample_float_of_str 1700000000123 st0 ev))) in
  symbol mev = "BTC_USDT"
  /\ exists p, payload mev = Some p /\ p !! "order_id" = Some (PStr "L1").
Proof.
  intros data ev mev.
  destruct (order_frame_relay sample_float_of_str sample_int_of_str
              "USDT" [] 1700000000100 1700000000123 data ev st0 mev
              ltac:(vm_compute; reflexivity) ltac:(vm_compute; reflexivity))
    as (sym & code & state & p & Hsym & _ & _ & _ & Hnorm & _ & _ & Hp & Hoid
        & _).
  split.
  - rewrite Hnorm. vm_compute in Hsym. injection Hsym as <-.
    vm_compute. reflexivity.
  - exists p. split; [exact Hp|]. rewrite Hoid. reflexivity.
Defined.

Lemma refresh_syncs_with_exchange_witness :
  exists sides' pv',
    refresh sample_float_of_str sample_int_of_str (Some [rest_long_position])
      1700000000200 fresh_long !! "BTC_USDT" = Some sides'
    /\ sides' !! LONG = Some pv'
    /\ in_position pv' = true.
Proof.
  destruct (refresh_syncs_with_exchange sample_float_of_str sample_int_of_str
              [rest_long_position] 1700000000200 fresh_long "BTC_USDT"
              ({[ LONG := base_template ]} : gmap PosSide PosVar) LONG
              base_template eq_refl eq_refl)
    as (sides' & pv' & Hs & Hp & Hiff & _).
  exists sides', pv'. split; [exact Hs|]. split; [exact Hp|].
  apply Hiff. eexists rest_long_position, _.
  split; [apply list_elem_of_here|]. split; vm_compute; reflexivity.
Defined.

Lemma refresh_entry_stamp_witness :
  exists sides' pv',
    refresh sample_float_of_str sample_int_of_str (Some []) 1700000000200
      tracked_long !! "BTC_USDT" = Some sides'
    /\ sides' !! LONG = Some pv'
    /\ _entry_ts pv' = Some 1700000000000
    /\ _state pv' = Some CLOSED_PENDING.
Proof.
  destruct (refresh_entry_stamp sample_float_of_str sample_int_of_str
              [] 1700000000200 tracked_long "BTC_USDT"
              ({[ LONG := held_long ]} : gmap PosSide PosVar) LONG held_long
              eq_refl eq_refl)
    as (sides' & pv' & Hs & Hp & _ & _ & Hclose & _).
  exists sides', pv'. split; [exact Hs|]. split; [exact Hp|].
  assert (Hout : in_position pv' = false).
  { vm_compute in Hs. injection Hs as <-.
    vm_compute in Hp. injection Hp as <-. reflexivity. }
  destruct (Hclose eq_refl Hout) as (Hts & Hstate & _).
  split; [exact Hts|exact Hstate].
Defined.

Lemma snapshot_hash_reads_qty_only_witness :
  snapshot_hash sample_hash
    (fmap (M:=gmap string) (fmap (M:=gmap PosSide) forget_prices) tracked_long)
  = snapshot_hash sample_hash tracked_long.
Proof.
  apply (snapshot_hash_reads_qty_only sample_hash forget_prices tracked_long).
  intros pv. reflexivity.
Defined.

Lemma ordinary_executor_books_witness :
  exists st' book',
    ordinary_executor_ client_ok 1700000000300 3 master_limit_M1
      intent_limit_long run_start = Some st'
    /\ sr_limit (run_side_root st') = Some book'
    /\ pydict_get (PStr "M1") book'
       = Some {| copy_order_id := PStr "C1"; rec_price := Some "100";
                 rec_qty := 5; rec_status := "OPEN" |}.
Proof.
  destruct (ordinary_executor_books client_ok 1700000000300 3 master_limit_M1
              intent_limit_long run_start _ eq_refl)
    as (st' & book' & Hrun & _ & _ & Hbook & _ & Hrec & _).
  exists st', book'. split; [exact Hrun|]. split; [exact Hbook|].
  destruct (Hrec eq_refl) as (r & Hr & Hget & _).
  injection Hr as <-. exact Hget.
Defined.

Lemma trigger_executor_books_witness :
  exists st' book',
    trigger_executor_ client_ok 1700000000300 3 master_limit_M1
      intent_limit_long run_start = Some st'
    /\ sr_trigger (run_side_root st') = Some book'
    /\ sr_limit (run_side_root st') = None.
Proof.
  destruct (trigger_executor_books client_ok 1700000000300 3 master_limit_M1
              intent_limit_long run_start _ eq_refl)
    as (st' & book' & Hrun & _ & Hlimit & Hbook & _).
  exists st', book'. split; [exact Hrun|]. split; [exact Hbook|exact Hlimit].
Defined.

Lemma limit_order_round_trip_witness :
  exists st1 est,
    ordinary_executor_ client_ok 1700000000300 3 master_limit_M1
      intent_limit_long run_start = Some st1
    /\ cancel_executor_ exchange_ok 3 (canceled_M1 limit)
         (exec_start (run_side_root st1)) = Some est
    /\ api_calls est = [cancel_limit_orders [PStr "C1"]].
Proof.
  destruct (limit_order_round_trip client_ok exchange_ok 1700000000300 3
              master_limit_M1 (canceled_M1 limit) intent_limit_long run_start
              _ _ accepted_C1 [] []
              eq_refl eq_refl eq_refl eq_refl eq_refl eq_refl
              eq_refl eq_refl eq_refl)
    as (st1 & est & Hrun & Hcancel & Hcalls & _).
  exists st1, est. split; [exact Hrun|]. split; [exact Hcancel|exact Hcalls].
Defined.

Lemma relayed_cancel_spares_trigger_book_witness :
  let mev :=
    default master_open_long
      (last (_pending (_route sample_float_of_str 1700000000123 st0
                         cancelled_L1))) in
  let books :=
    {| sr_limit := Some [(PStr "L1", copy_of_M1 (PStr "C1"))];
       sr_trigger := Some [(PStr "L1", copy_of_M1 (PStr "T1"))] |} in
  exists est',
    cancel_executor_ exchange_ok 3 mev (exec_start books) = Some est'
    /\ sr_trigger (side_root est') = sr_trigger books.
Proof.
  intros mev books.
  destruct (relayed_cancel_spares_trigger_book sample_float_of_str
              1700000000123 st0 cancelled_L1 mev exchange_ok 3
              (exec_start books)
              ltac:(vm_compute; reflexivity) ltac:(vm_compute; reflexivity))
    as (est' & Hrun & Hbook & _).
  exists est'. split; [exact Hrun|exact Hbook].
Defined.


Lemma build_leverage_witness :
  exists intent,
    build sample_float_of_str sample_int_of_str sample_to_human_digit
      100 0 cfg_plain master_limit_M1 base_template spec_empty
    = Some (Some intent, None)
    /\ intent_leverage intent = 20
    /\ intent_open_type intent = 1.
Proof.
  pose (intent :=
    {| intent_symbol := "BTC_USDT"; intent_side := BUY;
       intent_position_side := Some LONG; intent_contracts := 5;
       intent_method := limit; intent_leverage := 20; intent_open_type := 1;
       intent_price := Some "100"; intent_trigger_price := None;
       intent_sl_price := None; intent_tp_price := None;
       intent_delay_ms := 0 |}).
  assert (Hbuild :
    build sample_float_of_str sample_int_of_str sample_to_human_digit
      100 0 cfg_plain master_limit_M1 base_template spec_empty
    = Some (Some intent, None)) by (vm_compute; reflexivity).
  destruct (build_leverage sample_float_of_str sample_int_of_str
              sample_to_human_digit 100 0 cfg_plain master_limit_M1
              base_template spec_empty intent None Hbuild)
    as (_ & Hcfg & _).
  exists intent. split; [exact Hbuild|].
  destruct (Hcfg eq_refl eq_refl) as (lev & Hlev & Hcap).
  injection Hlev as <-. split; [exact Hcap|reflexivity].
Defined.

Lemma parse_id_range_sound_witness :
  parse_id_range sample_int_of_str sample_strip sample_split " 3 1-2  3" false
  = Some [1; 2; 3]
  /\ NoDup [1; 2; 3].
Proof.
  assert (Hparse :
    parse_id_range sample_int_of_str sample_strip sample_split " 3 1-2  3"
      false = Some [1; 2; 3]) by (vm_compute; reflexivity).
  destruct (parse_id_range_sound sample_int_of_str sample_strip sample_split
              " 3 1-2  3" false [1; 2; 3] Hparse) as (_ & _ & Hnd & _).
  split; [exact Hparse|exact Hnd].
Defined.

Lemma close_button_ids_witness :
  exists mc' mev,
    on_close false 1700000000123 mc_one_follower [1; 2; 3] = (mc', Some mev)
    /\ cmd_ids mc' = [1; 2; 3].
Proof.
  destruct (close_button_ids sample_int_of_str sample_strip sample_split
              " 3 1-2  3" [1; 2; 3] 1700000000123 mc_one_follower
              ltac:(vm_compute; reflexivity) eq_refl)
    as (mc' & mev & Hclose & Hids & _).
  exists mc', mev. split; [exact Hclose|exact Hids].
Defined.

Lemma manual_close_request_witness :
  exists r,
    build sample_float_of_str sample_int_of_str sample_to_human_digit
      100 0 cfg_plain
      (close_event master_open_long 3 "BTC_USDT" LONG held_long) held_long
      spec_empty = Some r
    /\ exists intent,
         r.1 = Some intent
         /\ intent_open_type intent = 1 /\ intent_leverage intent = 10.
Proof.
  destruct (manual_close_request sample_float_of_str sample_int_of_str
              sample_to_human_digit 100 0 cfg_plain master_open_long 3
              "BTC_USDT" LONG held_long spec_empty
              ltac:(reflexivity))
    as (r & Hbuild & _ & _ & Hrec).
  exists r. split; [exact Hbuild|].
  apply (Hrec 10 1); [reflexivity|discriminate|reflexivity|discriminate].
Defined.

Lemma report_touches_marks_only_witness :
  exists sides' pv',
    assum_positions (fun _ _ => false) pending_long !! "BTC_USDT" = Some sides'
    /\ sides' !! LONG = Some pv'
    /\ _state pv' = None /\ _entry_ts pv' = None.
Proof.
  destruct (report_touches_marks_only (fun _ _ => false) pending_long
              "BTC_USDT" ({[ LONG := closing_long ]} : gmap PosSide PosVar)
              LONG closing_long eq_refl eq_refl)
    as (sides' & pv' & Hs & Hp & Hstate & _ & _ & _ & _ & _ & _ & _ & _ & Hts).
  exists sides', pv'. split; [exact Hs|]. split; [exact Hp|].
  split; [exact Hstate|]. rewrite (Hts eq_refl). reflexivity.
Defined.

Lemma closed_position_reported_once_witness :
  let pvs1 := refresh sample_float_of_str sample_int_of_str (Some [])
                1700000000200 tracked_long in
  let pvs2 := assum_positions (fun _ _ => false) pvs1 in
  let pvs3 := refresh sample_float_of_str sample_int_of_str (Some [])
                1700000000900 pvs2 in
  exists pv2,
    (pvs2 !! "BTC_USDT") ≫= (.!! LONG) = Some pv2
    /\ (pvs3 !! "BTC_USDT") ≫= (.!! LONG) = Some pv2
    /\ _state pv2 = None.
Proof.
  intros pvs1 pvs2 pvs3.
  destruct (closed_position_reported_once sample_float_of_str
              sample_int_of_str [] [] 1700000000200 1700000000900
              (fun _ _ => false) tracked_long "BTC_USDT"
              ({[ LONG := held_long ]} : gmap PosSide PosVar) LONG held_long
              eq_refl eq_refl eq_refl eq_refl eq_refl)
    as (pv1 & pv2 & _ & H2 & H3 & _ & _ & _ & Hstate & _).
  exists pv2. split; [exact H2|]. split; [exact H3|exact Hstate].
Defined.
